(** * Bourbon: migration change detection, code generation and ledger

    A shallow embedding of the migration subsystem of the Bourbon web
    framework (packages [cmd] and [core/migration]) together with the
    properties its specification states about it.

    Go strings are byte strings; they are modelled by [string] and compared
    byte-wise, as Go's [<] on strings does.  Case mapping is the ASCII part of
    [strings.ToLower]. *)

From Stdlib Require Import String Ascii List Bool Arith NArith Lia DecimalString.
From Stdlib Require Import Permutation Sorted.
Import ListNotations.

Local Open Scope string_scope.
Local Open Scope list_scope.

(** ** Go's [strings] package (the functions the subsystem calls) *)

Module GoStrings.

Definition isUpper (c : ascii) : bool :=
  ((65 <=? nat_of_ascii c) && (nat_of_ascii c <=? 90))%nat.

Definition lowerByte (c : ascii) : ascii :=
  if isUpper c then ascii_of_nat (nat_of_ascii c + 32) else c.

(** Every byte is below [utf8.RuneSelf]: the runes of the string are its
    bytes, one each. *)
Definition isASCII (s : string) : bool :=
  forallb (fun c => (nat_of_ascii c <? 128)%nat) (list_ascii_of_string s).

(** [strings.ToLower] on the ASCII capitals; the source lower-cases the
    letters beyond ASCII too. *)
Fixpoint ToLower (s : string) : string :=
  match s with
  | EmptyString => EmptyString
  | String c r => String (lowerByte c) (ToLower r)
  end.

(** [strings.ReplaceAll(s, old, new)] for one-byte [old] and [new] *)
Fixpoint ReplaceAll (s : string) (old new : ascii) : string :=
  match s with
  | EmptyString => EmptyString
  | String c r =>
      String (if Ascii.eqb c old then new else c) (ReplaceAll r old new)
  end.

(** [strings.HasSuffix] *)
Definition HasSuffix (s suffix : string) : bool :=
  (String.length suffix <=? String.length s)%nat &&
  String.eqb
    (substring (String.length s - String.length suffix)
               (String.length suffix) s)
    suffix.

(** [strings.TrimSuffix] *)
Definition TrimSuffix (s suffix : string) : string :=
  if HasSuffix s suffix
  then substring 0 (String.length s - String.length suffix) s
  else s.

(** [strings.Join] *)
Fixpoint Join (elems : list string) (sep : string) : string :=
  match elems with
  | [] => EmptyString
  | [x] => x
  | x :: r => x ++ sep ++ Join r sep
  end.

(** Go's [s < t] on strings: byte-wise lexicographic order *)
Definition less (s t : string) : bool := String.ltb s t.

Definition bytes (s : string) : list N :=
  List.map N_of_ascii (list_ascii_of_string s).

End GoStrings.

(** ** SHA-256 (FIPS 180-4), as [crypto/sha256] computes it *)

Module Sha256.

Local Open Scope N_scope.

Definition mask32 : N := 0xFFFFFFFF.
Definition add32 (a b : N) : N := N.land (a + b) mask32.
Definition rotr (n x : N) : N :=
  N.lor (N.shiftr x n) (N.land (N.shiftl x (32 - n)) mask32).
Definition xor3 (a b c : N) : N := N.lxor (N.lxor a b) c.

Definition Ch (x y z : N) : N :=
  N.lxor (N.land x y) (N.land (N.lxor x mask32) z).
Definition Maj (x y z : N) : N :=
  xor3 (N.land x y) (N.land x z) (N.land y z).
Definition bsig0 (x : N) : N := xor3 (rotr 2 x) (rotr 13 x) (rotr 22 x).
Definition bsig1 (x : N) : N := xor3 (rotr 6 x) (rotr 11 x) (rotr 25 x).
Definition ssig0 (x : N) : N := xor3 (rotr 7 x) (rotr 18 x) (N.shiftr x 3).
Definition ssig1 (x : N) : N := xor3 (rotr 17 x) (rotr 19 x) (N.shiftr x 10).

(** The first [n] primes, by trial division. *)
Definition isPrime (p : N) : bool :=
  (1 <? p) &&
  forallb (fun d => negb (p mod d =? 0))
          (List.map N.of_nat (List.seq 2 (N.to_nat p - 2))).

Definition primes (n : nat) : list N :=
  firstn n (List.filter isPrime (List.map N.of_nat (List.seq 2 310))).

(** The integer cube root, one bit at a time from bit [bits - 1] down. *)
Fixpoint cbrt (bits : nat) (x r : N) : N :=
  match bits with
  | O => r
  | S b =>
      let r' := r + N.shiftl 1 (N.of_nat b) in
      cbrt b x (if r' * r' * r' <=? x then r' else r)
  end.

(** The first 32 bits of the fractional part of a cube root. *)
Definition fracCbrt (p : N) : N :=
  N.land (cbrt 48 (N.shiftl p 96) 0) mask32.

(** The first 32 bits of the fractional part of a square root. *)
Definition fracSqrt (p : N) : N :=
  N.land (N.sqrt (N.shiftl p 64)) mask32.

(** The round constants and the initial hash value of FIPS 180-4, 4.2.2 and
    5.3.3, from the first 64 and the first 8 primes. *)
Definition K : list N := Eval vm_compute in List.map fracCbrt (primes 64).

Definition H0 : list N := Eval vm_compute in List.map fracSqrt (primes 8).

(** Big-endian bytes of the low [n] bytes of [x], most significant first. *)
Fixpoint be_bytes (n : nat) (x : N) : list N :=
  match n with
  | O => []
  | S k => N.land (N.shiftr x (8 * N.of_nat k)) 0xFF :: be_bytes k x
  end.

Definition pad (msg : list N) : list N :=
  let len := N.of_nat (List.length msg) in
  let zeros := N.to_nat ((119 - len mod 64) mod 64) in
  msg ++ [0x80] ++ List.repeat 0 zeros ++ be_bytes 8 (8 * len).

Fixpoint chunks (fuel : nat) (sz : nat) (l : list N) : list (list N) :=
  match fuel with
  | O => []
  | S f =>
      match l with
      | [] => []
      | _ => firstn sz l :: chunks f sz (skipn sz l)
      end
  end.

Definition be_word (bs : list N) : N :=
  fold_left (fun acc b => N.lor (N.shiftl acc 8) b) bs 0.

Definition words (block : list N) : list N :=
  List.map be_word (chunks 16 4 block).

Fixpoint schedule (n : nat) (w : list N) : list N :=
  match n with
  | O => w
  | S k =>
      let t := List.length w in
      let x := add32 (add32 (ssig1 (nth (t - 2) w 0)) (nth (t - 7) w 0))
                     (add32 (ssig0 (nth (t - 15) w 0)) (nth (t - 16) w 0)) in
      schedule k (w ++ [x])
  end.

Record regs : Type :=
  mkRegs { ra : N; rb : N; rc : N; rd : N; re : N; rf : N; rg : N; rh : N }.

Definition round (s : regs) (kw : N * N) : regs :=
  let t1 := add32 (add32 (add32 (rh s) (bsig1 (re s)))
                         (add32 (Ch (re s) (rf s) (rg s)) (fst kw)))
                  (snd kw) in
  let t2 := add32 (bsig0 (ra s)) (Maj (ra s) (rb s) (rc s)) in
  mkRegs (add32 t1 t2) (ra s) (rb s) (rc s)
         (add32 (rd s) t1) (re s) (rf s) (rg s).

Definition regs_of (h : list N) : regs :=
  mkRegs (nth 0 h 0) (nth 1 h 0) (nth 2 h 0) (nth 3 h 0)
         (nth 4 h 0) (nth 5 h 0) (nth 6 h 0) (nth 7 h 0).

Definition list_of (s : regs) : list N :=
  [ra s; rb s; rc s; rd s; re s; rf s; rg s; rh s].

Definition compress (h : list N) (block : list N) : list N :=
  let w := schedule 48 (words block) in
  let s := fold_left round (combine K w) (regs_of h) in
  List.map (fun p => add32 (fst p) (snd p)) (combine h (list_of s)).

(** The 32-byte digest of a message. *)
Definition Sum256 (msg : list N) : list N :=
  let p := pad msg in
  let h := fold_left compress (chunks (List.length p) 64 p) H0 in
  List.flat_map (be_bytes 4) h.

Definition hexDigit (n : N) : ascii :=
  if n <? 10 then ascii_of_N (48 + n) else ascii_of_N (87 + n).

(** [fmt.Sprintf("%x", digest)] *)
Fixpoint hex (bs : list N) : string :=
  match bs with
  | [] => EmptyString
  | b :: r => String (hexDigit (b / 16)) (String (hexDigit (b mod 16)) (hex r))
  end.

Definition hexsum (s : string) : string := hex (Sum256 (GoStrings.bytes s)).

End Sha256.

(** ** Go's [time] package: civil time and [Format] *)

Module GoTime.

(** An instant, by its civil fields in the local zone, as [time.Now()]
    exposes it to [Format]. *)
Record Time : Type := mkTime {
  Year : nat; Month : nat; Day : nat;
  Hour : nat; Minute : nat; Second : nat;
  Nanosecond : nat
}.

Definition digit (n : nat) : ascii := ascii_of_nat (48 + n mod 10).

Fixpoint fixedWidth (width x : nat) : string :=
  match width with
  | O => EmptyString
  | S k => fixedWidth k (x / 10) ++ String (digit x) EmptyString
  end.

(** [appendInt(b, x, width)]: decimal, zero-padded to at least [width]. *)
Definition appendInt (x width : nat) : string :=
  if (x <? 10 ^ width)%nat then fixedWidth width x
  else NilZero.string_of_uint (Nat.to_uint x).

(** [t.Format("20060102150405")] *)
Definition Format (t : Time) : string :=
  appendInt (Year t) 4 ++ appendInt (Month t) 2 ++ appendInt (Day t) 2 ++
  appendInt (Hour t) 2 ++ appendInt (Minute t) 2 ++ appendInt (Second t) 2.

(** Lexicographic order on lists of naturals (most significant first). *)
Fixpoint lexlt (a b : list nat) : bool :=
  match a, b with
  | x :: a', y :: b' => ((x <? y) || ((x =? y) && lexlt a' b'))%nat
  | _, _ => false
  end.

Definition seconds (t : Time) : list nat :=
  [Year t; Month t; Day t; Hour t; Minute t; Second t].

(** [t1] is an earlier instant than [t2]. *)
Definition Before (t1 t2 : Time) : bool :=
  lexlt (seconds t1 ++ [Nanosecond t1]) (seconds t2 ++ [Nanosecond t2]).

(** [t1] lies in an earlier wall-clock second than [t2]. *)
Definition EarlierSecond (t1 t2 : Time) : bool :=
  lexlt (seconds t1) (seconds t2).

(** The ranges of the civil fields (four-digit years). *)
Definition valid (t : Time) : bool :=
  ((Year t <? 10 ^ 4) && (Month t <? 13) && (Day t <? 32) &&
   (Hour t <? 24) && (Minute t <? 60) && (Second t <? 60))%nat.

End GoTime.

(** ** Errors, maps and special characters *)

(** A Go [error]: its message and, for [fmt.Errorf] with [%w], the error it
    wraps. *)
Inductive error : Type :=
| errorString (msg : string)                 (* errors.New, Errorf without %w *)
| wrapError (msg : string) (cause : error).  (* Errorf with %w *)

Definition Error (e : error) : string :=
  match e with errorString msg => msg | wrapError msg _ => msg end.

Definition Unwrap (e : error) : option error :=
  match e with errorString _ => None | wrapError _ cause => Some cause end.

(** [fmt.Errorf(prefix + "%w", err)] *)
Definition Errorf (prefix : string) (err : error) : error :=
  wrapError (prefix ++ Error err) err.

Definition tab : string := String "009"%char EmptyString.
Definition nl : string := String "010"%char EmptyString.
Definition dquote : string := String "034"%char EmptyString.

(** A Go [map[string]V].  The list holds the entries in the order in which
    this run of the program iterates over the map (Go leaves that order
    unspecified); a lookup returns the first entry of a key, a store replaces
    it in place or adds the entry. *)
Module GoMap.

Definition t (V : Type) : Type := list (string * V).

Fixpoint get {V} (m : t V) (k : string) : option V :=
  match m with
  | [] => None
  | (k', v) :: r => if String.eqb k' k then Some v else get r k
  end.

Fixpoint set {V} (m : t V) (k : string) (v : V) : t V :=
  match m with
  | [] => [(k, v)]
  | (k', v') :: r =>
      if String.eqb k' k then (k, v) :: r else (k', v') :: set r k v
  end.

Definition has {V} (m : t V) (k : string) : bool :=
  match get m k with Some _ => true | None => false end.

(** [m[k]] of a map of slices: the nil slice when the key is absent. *)
Definition slice {V} (m : t (list V)) (k : string) : list V :=
  match get m k with Some l => l | None => [] end.

(** [m[k] = append(m[k], x)] *)
Definition append {V} (m : t (list V)) (k : string) (x : V) : t (list V) :=
  set m k (slice m k ++ [x]).

(** [k] occurs in a list of keys. *)
Definition mem (k : string) (keys : list string) : bool :=
  existsb (String.eqb k) keys.

End GoMap.

(** ** Package [cmd]: model scanning, state, change detection, generation *)

Module Cmd.

Import GoStrings.

(** *** Model scanning ([bourbon/cmd/model_scanner.go]) *)

Record FieldInfo : Type := mkFieldInfo {
  fi_Name : string; fi_Type : string; fi_Tag : string; fi_IsPointer : bool
}.

Record ModelInfo : Type := mkModelInfo {
  mi_Name : string; mi_Fields : list FieldInfo;
  mi_PackageName : string; mi_FilePath : string
}.

(** The part of [go/ast] that [ScanModels] looks at. *)
Inductive Expr : Type :=
| Ident (name : string)
| StarExpr (x : Expr)
| SelectorExpr (x : Expr) (sel : string)
| ArrayType (elt : Expr)
| OtherExpr.

Record Field : Type := mkField {
  Names : list string; FType : Expr; FTag : option string
}.

Record TypeSpec : Type := mkTypeSpec {
  ts_Name : string;
  ts_Struct : option (list Field)   (* [None]: not a struct type *)
}.

(** A parsed file: its package name and its [TypeSpec] nodes in the order
    [ast.Inspect] reaches them. *)
Record File : Type := mkFile { PkgName : string; TypeSpecs : list TypeSpec }.

Fixpoint exprToString (expr : Expr) : string :=
  match expr with
  | Ident name => name
  | StarExpr x => "*" ++ exprToString x
  | SelectorExpr x sel => exprToString x ++ "." ++ sel
  | ArrayType elt => "[]" ++ exprToString elt
  | OtherExpr => "interface{}"
  end.

Definition isStar (e : Expr) : bool :=
  match e with StarExpr _ => true | _ => false end.

Definition isBaseModel (field : Field) : bool :=
  match Names field, FType field with
  | [], SelectorExpr _ sel => String.eqb sel "BaseModel"
  | _, _ => false
  end.

(** One iteration of the loop over [structType.Fields.List]. *)
Definition scanField (acc : bool * list FieldInfo) (field : Field)
  : bool * list FieldInfo :=
  if isBaseModel field then (true, snd acc)
  else
    (fst acc,
     snd acc ++
     List.map (fun name =>
                 mkFieldInfo name (exprToString (FType field))
                   (match FTag field with Some v => v | None => EmptyString end)
                   (isStar (FType field)))
              (Names field)).

(** The callback given to [ast.Inspect], at one [TypeSpec]. *)
Definition inspect (pkg modelsPath : string) (models : list ModelInfo)
           (typeSpec : TypeSpec) : list ModelInfo :=
  match ts_Struct typeSpec with
  | None => models
  | Some fieldList =>
      let '(hasBaseModel, fields) := fold_left scanField fieldList (false, []) in
      if hasBaseModel
      then models ++ [mkModelInfo (ts_Name typeSpec) fields pkg modelsPath]
      else models
  end.

(** [apps/<app>/models.go] as the file system and [go/parser] present it. *)
Inductive ModelsFile : Type :=
| ModelsNotExist                 (* os.Stat reports that it does not exist *)
| ModelsUnparsable (err : error) (* parser.ParseFile fails *)
| ModelsParsed (node : File).

(** [filepath.Join] of plain path elements. *)
Definition pathJoin (elems : list string) : string :=
  Join (List.filter (fun e => negb (String.eqb e EmptyString)) elems) "/".

(** The loop of [toSnakeCase] and [fieldToSnakeCase], byte by byte: on an
    ASCII string ([isASCII]) that is rune by rune, as the source ranges. *)
Definition toSnakeLoop (s : string) : string :=
  (fix go (first : bool) (s : string) : string :=
     match s with
     | EmptyString => EmptyString
     | String r rest =>
         if negb first && isUpper r
         then String "_"%char (String r (go false rest))
         else String r (go false rest)
     end) true s.

Definition toSnakeCase (s : string) : string :=
  let tableName := ToLower (toSnakeLoop s) in
  if negb (HasSuffix tableName "s") then tableName ++ "s" else tableName.

Definition fieldToSnakeCase (s : string) : string :=
  ToLower (toSnakeLoop s).

(** *** Persisted state and content hash ([unnamed/part_014]) *)

Record FieldState : Type := mkFieldState {
  fs_Name : string; fs_Type : string; fs_Tag : string
}.

Record ModelState : Type := mkModelState {
  ms_Name : string; ms_Hash : string; ms_Fields : list FieldState
}.

Record AppMigrationState : Type := mkAppMigrationState {
  LastHash : string;
  LastMigration : string;
  Models : GoMap.t ModelState
}.

Record MigrationState : Type := mkMigrationState {
  Apps : GoMap.t AppMigrationState
}.

(** [.bourbon/migration_state.json] as the file system and [encoding/json]
    present it. *)
Inductive StateFile : Type :=
| StateNotExist
| StateUnreadable (err : error)   (* os.ReadFile fails *)
| StateMalformed (err : error)    (* json.Unmarshal fails *)
| StateDoc (state : MigrationState).

(** The insertion sort that [sort.Slice] runs on short slices (at most
    twelve elements since Go 1.19): each element moves left while it is less
    than its predecessor.  [rp] is the sorted prefix, last element first.
    On longer slices [sort.Slice] runs a quicksort; both produce the one
    sorted arrangement whenever no two keys are equal. *)
Fixpoint insertBack {A} (lt : A -> A -> bool) (x : A) (rp : list A) : list A :=
  match rp with
  | [] => [x]
  | y :: r => if lt x y then y :: insertBack lt x r else x :: rp
  end.

Definition insertionPasses {A} (lt : A -> A -> bool) (l : list A) : list A :=
  fold_left (fun rp x => insertBack lt x rp) l [].

Definition sortSlice {A} (lt : A -> A -> bool) (l : list A) : list A :=
  rev (insertionPasses lt l).

Definition modelLess (a b : ModelInfo) : bool := less (mi_Name a) (mi_Name b).
Definition fieldLess (a b : FieldInfo) : bool := less (fi_Name a) (fi_Name b).

(** [fmt.Sprintf("%s:%s:%s", field.Name, field.Type, field.Tag)] *)
Definition fieldLine (field : FieldInfo) : string :=
  fi_Name field ++ ":" ++ fi_Type field ++ ":" ++ fi_Tag field.

(** What is written into the hash for one model: its name, then its fields
    sorted by name. *)
Definition modelBytes (model : ModelInfo) : string :=
  mi_Name model ++
  String.concat EmptyString
    (List.map fieldLine (sortSlice fieldLess (mi_Fields model))).

Definition ComputeModelsHash (models : list ModelInfo) : string :=
  Sha256.hexsum
    (String.concat EmptyString
       (List.map modelBytes (sortSlice modelLess models))).

Definition ComputeSingleModelHash (model : ModelInfo) : string :=
  Sha256.hexsum (modelBytes model).

(** [m'] is [m] with its fields in another order. *)
Definition fieldsReordered (m m' : ModelInfo) : Prop :=
  mi_Name m = mi_Name m' /\ Permutation (mi_Fields m) (mi_Fields m').

(** [models'] is [models] in another order, each model with its fields in
    another order. *)
Definition reordered (models models' : list ModelInfo) : Prop :=
  exists models1,
    Forall2 fieldsReordered models models1 /\ Permutation models1 models'.

(** No two fields of the model share a name. *)
Definition distinctFields (m : ModelInfo) : Prop :=
  NoDup (List.map fi_Name (mi_Fields m)).

(** *** The process environment

    What the commands read from outside during one run, and the outcome of
    each fallible system call they make. *)
Record Env : Type := mkEnv {
  response : string;            (* the token fmt.Scanln stores *)
  now : GoTime.Time;            (* time.Now() *)
  mkdirMigrations : option error;  (* os.MkdirAll(migrationsDir, 0755) *)
  writeMigration : option error;   (* os.WriteFile(filePath, ...) *)
  mkdirState : option error;       (* os.MkdirAll(".bourbon", 0755) *)
  writeState : option error        (* os.WriteFile(statePath, ...) *)
}.

(** The files the commands read and write, and standard output. *)
Record World : Type := mkWorld {
  modelsGo : string -> ModelsFile;    (* by application name *)
  stateFile : StateFile;
  dirs : list string;                 (* directories created *)
  files : GoMap.t string;             (* files written: path to content *)
  stdout : list string
}.

Definition print (w : World) (s : string) : World :=
  mkWorld (modelsGo w) (stateFile w) (dirs w) (files w) (stdout w ++ [s]).

Definition println (w : World) (s : string) : World := print w (s ++ nl).

Definition mkdirAll (w : World) (dir : string) : World :=
  mkWorld (modelsGo w) (stateFile w) (dirs w ++ [dir]) (files w) (stdout w).

Definition writeFile (w : World) (path content : string) : World :=
  mkWorld (modelsGo w) (stateFile w) (dirs w)
          (GoMap.set (files w) path content) (stdout w).

Definition putState (w : World) (state : MigrationState) : World :=
  mkWorld (modelsGo w) (StateDoc state) (dirs w) (files w) (stdout w).

Definition ScanModels (w : World) (appName : string)
  : list ModelInfo + error :=
  let modelsPath := pathJoin ["apps"; appName; "models.go"] in
  match modelsGo w appName with
  | ModelsNotExist => inl []
  | ModelsUnparsable err => inr (Errorf "failed to parse models.go: " err)
  | ModelsParsed node =>
      inl (fold_left (inspect (PkgName node) modelsPath) (TypeSpecs node) [])
  end.

Definition LoadMigrationState (w : World) : MigrationState + error :=
  match stateFile w with
  | StateNotExist => inl (mkMigrationState [])
  | StateUnreadable err => inr (Errorf "failed to read state file: " err)
  | StateMalformed err => inr (Errorf "failed to parse state file: " err)
  | StateDoc state => inl state
  end.

(** After a successful write the state file decodes to [state], as
    [encoding/json] has it for strings that are valid UTF-8 (see
    [asciiState]). *)
Definition SaveMigrationState (env : Env) (w : World) (state : MigrationState)
  : option error * World :=
  match mkdirState env with
  | Some err => (Some (Errorf "failed to create .bourbon directory: " err), w)
  | None =>
      let w1 := mkdirAll w ".bourbon" in
      match writeState env with
      | Some err => (Some (Errorf "failed to write state file: " err), w1)
      | None => (None, putState w1 state)
      end
  end.

(** The error with which [SaveMigrationState] fails in this environment,
    if it does. *)
Definition saveFailure (env : Env) : option error :=
  match mkdirState env with
  | Some err => Some (Errorf "failed to create .bourbon directory: " err)
  | None =>
      match writeState env with
      | Some err => Some (Errorf "failed to write state file: " err)
      | None => None
      end
  end.

Definition stateOfField (f : FieldInfo) : FieldState :=
  mkFieldState (fi_Name f) (fi_Type f) (fi_Tag f).

Definition stateOfModel (model : ModelInfo) : ModelState :=
  mkModelState (mi_Name model) (ComputeSingleModelHash model)
               (List.map stateOfField (mi_Fields model)).

(** The models map of an application already in the state is taken to be
    allocated (see [modelsAllocated]). *)
Definition UpdateMigrationState (env : Env) (w : World) (appName : string)
           (models : list ModelInfo) (migrationID : string)
  : option error * World :=
  match LoadMigrationState w with
  | inr err => (Some err, w)
  | inl state =>
      let app :=
        match GoMap.get (Apps state) appName with
        | Some a => a
        | None => mkAppMigrationState EmptyString EmptyString []
        end in
      let storedModels :=
        fold_left (fun m model => GoMap.set m (mi_Name model) (stateOfModel model))
                  models (Models app) in
      let app' :=
        mkAppMigrationState (ComputeModelsHash models) migrationID storedModels in
      SaveMigrationState env w
        (mkMigrationState (GoMap.set (Apps state) appName app'))
  end.

(** *** Change detection ([bourbon/cmd/migration_changes.go]) *)

Record MigrationChanges : Type := mkMigrationChanges {
  NewModels : list ModelInfo;
  DeletedModels : list string;
  NewFields : GoMap.t (list FieldInfo);
  DeletedFields : GoMap.t (list FieldInfo);
  ModifiedFields : GoMap.t (list FieldInfo)
}.

Definition addNewModel (c : MigrationChanges) (m : ModelInfo) :=
  mkMigrationChanges (NewModels c ++ [m]) (DeletedModels c) (NewFields c)
                     (DeletedFields c) (ModifiedFields c).

Definition addDeletedModel (c : MigrationChanges) (name : string) :=
  mkMigrationChanges (NewModels c) (DeletedModels c ++ [name]) (NewFields c)
                     (DeletedFields c) (ModifiedFields c).

Definition addNewField (c : MigrationChanges) (model : string) (f : FieldInfo) :=
  mkMigrationChanges (NewModels c) (DeletedModels c)
                     (GoMap.append (NewFields c) model f)
                     (DeletedFields c) (ModifiedFields c).

Definition addDeletedField (c : MigrationChanges) (model : string) (f : FieldInfo) :=
  mkMigrationChanges (NewModels c) (DeletedModels c) (NewFields c)
                     (GoMap.append (DeletedFields c) model f)
                     (ModifiedFields c).

Definition addModifiedField (c : MigrationChanges) (model : string) (f : FieldInfo) :=
  mkMigrationChanges (NewModels c) (DeletedModels c) (NewFields c)
                     (DeletedFields c)
                     (GoMap.append (ModifiedFields c) model f).

Definition storedFieldMapOf (fields : list FieldState) : GoMap.t FieldState :=
  fold_left (fun m f => GoMap.set m (fs_Name f) f) fields [].

Definition currentFieldMapOf (fields : list FieldInfo) : GoMap.t FieldInfo :=
  fold_left (fun m f => GoMap.set m (fi_Name f) f) fields [].

(** [storedField.Type != currentField.Type || storedField.Tag != currentField.Tag] *)
Definition fieldDiffers (storedField : FieldState) (currentField : FieldInfo)
  : bool :=
  negb (String.eqb (fs_Type storedField) (fi_Type currentField))
  || negb (String.eqb (fs_Tag storedField) (fi_Tag currentField)).

(** [FieldInfo{Name: f.Name, Type: f.Type, Tag: f.Tag}] *)
Definition infoOfState (f : FieldState) : FieldInfo :=
  mkFieldInfo (fs_Name f) (fs_Type f) (fs_Tag f) false.

(** The loop "detect new and modified fields", one field. *)
Definition checkCurrentField (storedFieldMap : GoMap.t FieldState)
           (model : string) (c : MigrationChanges) (currentField : FieldInfo)
  : MigrationChanges :=
  match GoMap.get storedFieldMap (fi_Name currentField) with
  | None => addNewField c model currentField
  | Some storedField =>
      if fieldDiffers storedField currentField
      then addModifiedField c model currentField
      else c
  end.

(** The loop "detect deleted fields", one field. *)
Definition checkStoredField (currentFieldMap : GoMap.t FieldInfo)
           (model : string) (c : MigrationChanges) (storedField : FieldState)
  : MigrationChanges :=
  if negb (GoMap.has currentFieldMap (fs_Name storedField))
  then addDeletedField c model (infoOfState storedField)
  else c.

(** The body of the loop over the current models. *)
Definition checkModel (storedModels : GoMap.t ModelState)
           (c : MigrationChanges) (current : ModelInfo) : MigrationChanges :=
  match GoMap.get storedModels (mi_Name current) with
  | None => addNewModel c current
  | Some stored =>
      let storedFieldMap := storedFieldMapOf (ms_Fields stored) in
      let currentFieldMap := currentFieldMapOf (mi_Fields current) in
      let c1 := fold_left (checkCurrentField storedFieldMap (mi_Name current))
                          (mi_Fields current) c in
      fold_left (checkStoredField currentFieldMap (mi_Name current))
                (ms_Fields stored) c1
  end.

(** What the diff of one stored model with one current model adds to the
    three field maps. *)
Definition newFieldsOf (stored : ModelState) (current : ModelInfo)
  : list FieldInfo :=
  List.filter
    (fun f => negb (GoMap.has (storedFieldMapOf (ms_Fields stored)) (fi_Name f)))
    (mi_Fields current).

Definition modifiedFieldsOf (stored : ModelState) (current : ModelInfo)
  : list FieldInfo :=
  List.filter
    (fun f =>
       match GoMap.get (storedFieldMapOf (ms_Fields stored)) (fi_Name f) with
       | Some storedField => fieldDiffers storedField f
       | None => false
       end)
    (mi_Fields current).

Definition deletedFieldsOf (stored : ModelState) (current : ModelInfo)
  : list FieldInfo :=
  List.map infoOfState
    (List.filter
       (fun f => negb (GoMap.has (currentFieldMapOf (mi_Fields current))
                                 (fs_Name f)))
       (ms_Fields stored)).

(** What the current model [current] adds under the key [n]. *)
Definition contribution (diff : ModelState -> ModelInfo -> list FieldInfo)
           (storedModels : GoMap.t ModelState) (n : string)
           (current : ModelInfo) : list FieldInfo :=
  if String.eqb (mi_Name current) n then
    match GoMap.get storedModels (mi_Name current) with
    | Some stored => diff stored current
    | None => []
    end
  else [].

Definition fieldNames (fields : list FieldInfo) : list string :=
  List.map fi_Name fields.

(** The three lists of the model [n], as predicates on a field name. *)
Definition isNew (c : MigrationChanges) (n x : string) : Prop :=
  In x (fieldNames (GoMap.slice (NewFields c) n)).

Definition isDeleted (c : MigrationChanges) (n x : string) : Prop :=
  In x (fieldNames (GoMap.slice (DeletedFields c) n)).

Definition isModified (c : MigrationChanges) (n x : string) : Prop :=
  In x (fieldNames (GoMap.slice (ModifiedFields c) n)).

Definition currentModelMapOf (models : list ModelInfo) : GoMap.t ModelInfo :=
  fold_left (fun m model => GoMap.set m (mi_Name model) model) models [].

Definition checkStoredModel (currentModelMap : GoMap.t ModelInfo)
           (c : MigrationChanges) (entry : string * ModelState)
  : MigrationChanges :=
  if negb (GoMap.has currentModelMap (fst entry))
  then addDeletedModel c (fst entry)
  else c.

Definition noChanges : MigrationChanges := mkMigrationChanges [] [] [] [] [].

Definition DetectAllChanges (w : World) (appName : string)
           (currentModels : list ModelInfo) : MigrationChanges + error :=
  match LoadMigrationState w with
  | inr err => inr err
  | inl state =>
      match GoMap.get (Apps state) appName with
      | None => inl (mkMigrationChanges currentModels [] [] [] [])
      | Some app =>
          let currentModelMap := currentModelMapOf currentModels in
          let storedModels := Models app in
          let c1 := fold_left (checkModel storedModels) currentModels noChanges in
          inl (fold_left (checkStoredModel currentModelMap) storedModels c1)
      end
  end.

(** The change set [c] with its [ModifiedFields] replaced. *)
Definition withModifiedFields (c : MigrationChanges)
           (m : GoMap.t (list FieldInfo)) : MigrationChanges :=
  mkMigrationChanges (NewModels c) (DeletedModels c) (NewFields c)
                     (DeletedFields c) m.

Definition HasChanges (c : MigrationChanges) : bool :=
  (0 <? List.length (NewModels c))%nat ||
  (0 <? List.length (DeletedModels c))%nat ||
  (0 <? List.length (NewFields c))%nat ||
  (0 <? List.length (DeletedFields c))%nat ||
  (0 <? List.length (ModifiedFields c))%nat.

Definition HasDestructiveChanges (c : MigrationChanges) : bool :=
  (0 <? List.length (DeletedModels c))%nat ||
  (0 <? List.length (DeletedFields c))%nat.

(** *** Code generation ([unnamed/part_012]) *)

Definition t2 : string := tab ++ tab.
Definition t3 : string := tab ++ tab ++ tab.

Definition tagStr (field : FieldInfo) : string :=
  if negb (String.eqb (fi_Tag field) EmptyString)
  then " " ++ fi_Tag field else EmptyString.

(** [fmt.Sprintf("\t\t\t%s %s%s\n", field.Name, field.Type, tagStr)] *)
Definition fieldDecl (field : FieldInfo) : string :=
  t3 ++ fi_Name field ++ " " ++ fi_Type field ++ tagStr field ++ nl.

Definition generateCreateTableCode (model : ModelInfo) : string :=
  t2 ++ "type " ++ fieldToSnakeCase (mi_Name model) ++ " struct {" ++ nl ++
  t3 ++ "ID        uint      `gorm:" ++ dquote ++ "primarykey" ++ dquote ++ "`" ++ nl ++
  t3 ++ "CreatedAt time.Time" ++ nl ++
  t3 ++ "UpdatedAt time.Time" ++ nl ++
  t3 ++ "DeletedAt gorm.DeletedAt `gorm:" ++ dquote ++ "index" ++ dquote ++ "`" ++ nl ++
  String.concat EmptyString (List.map fieldDecl (mi_Fields model)) ++
  t2 ++ "}" ++ nl ++
  t2 ++ "if err := tx.Migrator().CreateTable(&" ++
    fieldToSnakeCase (mi_Name model) ++ "{}); err != nil {" ++ nl ++
  t3 ++ "return err" ++ nl ++
  t2 ++ "}".

Definition columnCode (call modelName : string) (field : FieldInfo) : string :=
  t2 ++ "type " ++ fieldToSnakeCase modelName ++ " struct {" ++ nl ++
  fieldDecl field ++
  t2 ++ "}" ++ nl ++
  t2 ++ "if err := tx.Migrator()." ++ call ++ "(&" ++
    fieldToSnakeCase modelName ++ "{}, " ++ dquote ++ fi_Name field ++ dquote ++
    "); err != nil {" ++ nl ++
  t3 ++ "return err" ++ nl ++
  t2 ++ "}".

Definition generateAddColumnCode (modelName : string) (field : FieldInfo) :=
  columnCode "AddColumn" modelName field.

Definition generateDropColumnCode (modelName : string) (field : FieldInfo) :=
  columnCode "DropColumn" modelName field.

Definition generateDropTableCode (modelName : string) : string :=
  t2 ++ "if err := tx.Migrator().DropTable(" ++ dquote ++
    toSnakeCase modelName ++ dquote ++ "); err != nil {" ++ nl ++
  t3 ++ "return err" ++ nl ++ t2 ++ "}".

(** A loop over a map of field slices that writes [gen modelName field]
    and a newline for every field. *)
Definition eachField (gen : string -> FieldInfo -> string)
           (m : GoMap.t (list FieldInfo)) : string :=
  String.concat EmptyString
    (List.flat_map
       (fun entry => List.map (fun field => (gen (fst entry) field ++ nl)%string)
                              (snd entry))
       m).

Definition finish (result : string) : string :=
  if String.eqb result EmptyString then t2 ++ "return nil"
  else TrimSuffix result nl ++ nl ++ t2 ++ "return nil".

Definition GenerateMigrationCodeFromChanges (changes : MigrationChanges)
  : string :=
  finish
    (String.concat EmptyString
       (List.map (fun model => (generateCreateTableCode model ++ nl)%string)
                 (NewModels changes)) ++
     eachField generateAddColumnCode (NewFields changes) ++
     eachField generateDropColumnCode (DeletedFields changes) ++
     String.concat EmptyString
       (List.map (fun modelName => (generateDropTableCode modelName ++ nl)%string)
                 (DeletedModels changes))).

Definition GenerateRollbackCodeFromChanges (changes : MigrationChanges)
  : string :=
  finish
    (String.concat EmptyString
       (List.map (fun model => (generateDropTableCode (mi_Name model) ++ nl)%string)
                 (NewModels changes)) ++
     eachField generateDropColumnCode (NewFields changes) ++
     eachField generateAddColumnCode (DeletedFields changes) ++
     String.concat EmptyString
       (List.map (fun modelName =>
                    (t2 ++ "// TODO: Recreate table " ++ modelName ++ nl)%string)
                 (DeletedModels changes))).

(** *** The command ([bourbon/cmd/migrations.go]) *)

Definition getModelNames (models : list ModelInfo) : string :=
  Join (List.map mi_Name models) ", ".

Definition cleanName (name : string) : string :=
  ToLower (ReplaceAll name " "%char "_"%char).

Definition migrationIDOf (t : GoTime.Time) (name : string) : string :=
  if String.eqb name EmptyString then GoTime.Format t
  else GoTime.Format t ++ "_" ++ cleanName name.

Definition fileNameOf (t : GoTime.Time) (name : string) : string :=
  if String.eqb name EmptyString then GoTime.Format t ++ ".go"
  else GoTime.Format t ++ "_" ++ cleanName name ++ ".go".

Definition template (timeImport migrationID migrateCode rollbackCode : string)
  : string :=
  "package migrations" ++ nl ++ nl ++
  "import (" ++ nl ++
  timeImport ++ tab ++ dquote ++ "github.com/go-gormigrate/gormigrate/v2" ++ dquote ++ nl ++
  tab ++ dquote ++ "github.com/ishubhamsingh2e/bourbon/bourbon/core" ++ dquote ++ nl ++
  tab ++ dquote ++ "gorm.io/gorm" ++ dquote ++ nl ++
  ")" ++ nl ++ nl ++
  "func init() {" ++ nl ++
  tab ++ "core.RegisterGormigrateMigration(&gormigrate.Migration{" ++ nl ++
  t2 ++ "ID: " ++ dquote ++ migrationID ++ dquote ++ "," ++ nl ++
  t2 ++ "Migrate: func(tx *gorm.DB) error {" ++ nl ++
  migrateCode ++ nl ++
  t2 ++ "}," ++ nl ++
  t2 ++ "Rollback: func(tx *gorm.DB) error {" ++ nl ++
  rollbackCode ++ nl ++
  t2 ++ "}," ++ nl ++
  tab ++ "})" ++ nl ++
  "}" ++ nl.

(** [filePath] of the migration file. *)
Definition filePathOf (appName : string) (t : GoTime.Time) (name : string)
  : string :=
  pathJoin [pathJoin ["apps"; appName; "migrations"]; fileNameOf t name].

(** The content of the migration file: the template, filled in. *)
Definition contentOf (env : Env) (name : string) (changes : MigrationChanges)
  : string :=
  template
    (if (0 <? List.length (NewModels changes))%nat
     then (tab ++ dquote ++ "time" ++ dquote ++ nl ++ nl)%string
     else EmptyString)
    (migrationIDOf (now env) name)
    (GenerateMigrationCodeFromChanges changes)
    (GenerateRollbackCodeFromChanges changes).

(** The warning block shown before the confirmation prompt. *)
Definition warnDestructive (w : World) (changes : MigrationChanges) : World :=
  let w := println w (nl ++ "WARNING: Destructive changes detected!") in
  let w :=
    if (0 <? List.length (DeletedModels changes))%nat then
      fold_left
        (fun w modelName =>
           print w ("  - " ++ modelName ++ " (table: " ++
                    toSnakeCase modelName ++ ")" ++ nl))
        (DeletedModels changes)
        (println w (nl ++ "Models to be DELETED:"))
    else w in
  let w :=
    if (0 <? List.length (DeletedFields changes))%nat then
      fold_left
        (fun w entry =>
           fold_left
             (fun w field =>
                print w ("    - " ++ fi_Name field ++ " " ++ fi_Type field ++ nl))
             (snd entry)
             (print w ("  Model: " ++ fst entry ++ nl)))
        (DeletedFields changes)
        (println w (nl ++ "Fields to be DELETED:"))
    else w in
  let w := println w (nl ++ "These changes CANNOT be undone!") in
  print w (nl ++ "Continue? (y/N): ").

(** Everything after the confirmation gate. *)
Definition writeMigrationFile (env : Env) (w : World) (appName name : string)
           (models : list ModelInfo) (changes : MigrationChanges)
  : option error * World :=
  let migrationsDir := pathJoin ["apps"; appName; "migrations"] in
  match mkdirMigrations env with
  | Some err =>
      (Some (Errorf "failed to create migrations directory: " err), w)
  | None =>
      let w := mkdirAll w migrationsDir in
      let migrationID := migrationIDOf (now env) name in
      let filePath := filePathOf appName (now env) name in
      match writeMigration env with
      | Some err => (Some (Errorf "failed to write migration file: " err), w)
      | None =>
          let w := writeFile w filePath (contentOf env name changes) in
          match UpdateMigrationState env w appName models migrationID with
          | (Some err, w) =>
              (Some (Errorf "failed to update migration state: " err), w)
          | (None, w) =>
              let w := print w ("Created migration: " ++ filePath ++ nl) in
              (None, print w ("  Models: " ++ getModelNames models ++ nl))
          end
      end
  end.

(** Two worlds with the same files, directories and persisted state. *)
Definition sameStore (w w' : World) : Prop :=
  files w' = files w /\ stateFile w' = stateFile w /\ dirs w' = dirs w /\
  modelsGo w' = modelsGo w.

Definition GenerateMigrationForApp (env : Env) (w : World)
           (appName name : string) : option error * World :=
  match ScanModels w appName with
  | inr err => (Some (Errorf "failed to scan models: " err), w)
  | inl models =>
      if (List.length models =? 0)%nat then
        (Some (errorString ("no models found in apps/" ++ appName ++
                            "/models.go - create models first")), w)
      else
        match DetectAllChanges w appName models with
        | inr err => (Some (Errorf "failed to detect changes: " err), w)
        | inl changes =>
            if negb (HasChanges changes) then
              (None, println w "No changes detected - models are up to date")
            else if HasDestructiveChanges changes then
              let w := warnDestructive w changes in
              if negb (String.eqb (ToLower (response env)) "y") then
                (None, println w "Migration cancelled.")
              else writeMigrationFile env w appName name models changes
            else writeMigrationFile env w appName name models changes
        end
  end.

(** *** The default application ([bourbon/cmd/migrations.go]) *)

(** An entry of the directory [apps], as [os.ReadDir] lists it. *)
Record DirEntry : Type := mkDirEntry { de_Name : string; de_IsDir : bool }.

(** [entries] is what [os.ReadDir("apps")] returns, [None] when it fails. *)
Definition getDefaultApp (entries : option (list DirEntry)) : string + error :=
  match entries with
  | None =>
      inr (errorString "apps directory not found. Are you in the project root?")
  | Some entries =>
      (fix loop (entries : list DirEntry) : string + error :=
         match entries with
         | [] => inr (errorString "no apps found in apps/ directory")
         | entry :: rest =>
             if de_IsDir entry then inl (de_Name entry) else loop rest
         end) entries
  end.

Definition GenerateMigration (env : Env) (w : World)
           (entries : option (list DirEntry)) (name : string)
  : option error * World :=
  match getDefaultApp entries with
  | inr err => (Some err, w)
  | inl appName => GenerateMigrationForApp env w appName name
  end.

(** *** Hash-based and name-based detection ([unnamed/part_014]) *)


(** [currentFields[f.Name] = true] for every field. *)
Definition currentFieldsOf (fields : list FieldInfo) : GoMap.t bool :=
  fold_left (fun m f => GoMap.set m (fi_Name f) true) fields [].

(** [currentFields[name]]: false when the key is absent. *)
Definition flag (m : GoMap.t bool) (k : string) : bool :=
  match GoMap.get m k with Some b => b | None => false end.

(** The body of the loop over the stored models. *)
Definition checkStoredEntry (currentModels : GoMap.t ModelInfo)
           (deletedFields : GoMap.t (list string))
           (entry : string * ModelState) : GoMap.t (list string) :=
  match GoMap.get currentModels (fst entry) with
  | None => deletedFields
  | Some currentModel =>
      let currentFields := currentFieldsOf (mi_Fields currentModel) in
      fold_left
        (fun deleted storedField =>
           if negb (flag currentFields (fs_Name storedField))
           then GoMap.append deleted (fst entry) (fs_Name storedField)
           else deleted)
        (ms_Fields (snd entry)) deletedFields
  end.

Definition DetectDeletedFields (w : World) (appName : string)
           (models : list ModelInfo) : GoMap.t (list string) :=
  match LoadMigrationState w with
  | inr _ => []
  | inl state =>
      match GoMap.get (Apps state) appName with
      | None => []
      | Some app =>
          fold_left (checkStoredEntry (currentModelMapOf models)) (Models app) []
      end
  end.

(** What the stored entry [entry] adds to [deletedFields[n]]. *)
Definition deletedNamesOf (currentModels : GoMap.t ModelInfo) (n : string)
           (entry : string * ModelState) : list string :=
  if String.eqb (fst entry) n then
    match GoMap.get currentModels (fst entry) with
    | Some currentModel =>
        List.map fs_Name
          (List.filter
             (fun storedField =>
                negb (flag (currentFieldsOf (mi_Fields currentModel))
                           (fs_Name storedField)))
             (ms_Fields (snd entry)))
    | None => []
    end
  else [].

(** *** States within ASCII

    [encoding/json] writes a string that is valid UTF-8, as every ASCII
    string is, and reads it back unchanged; a byte that is not UTF-8 it
    replaces by U+FFFD.  [StateDoc] holds the document as decoded, so
    [SaveMigrationState] followed by [LoadMigrationState] stands for the
    source on the states below, all of whose strings are ASCII. *)
Definition asciiField (f : FieldInfo) : bool :=
  isASCII (fi_Name f) && isASCII (fi_Type f) && isASCII (fi_Tag f).

Definition asciiModel (m : ModelInfo) : bool :=
  isASCII (mi_Name m) && forallb asciiField (mi_Fields m).

Definition asciiFieldState (f : FieldState) : bool :=
  isASCII (fs_Name f) && isASCII (fs_Type f) && isASCII (fs_Tag f).

Definition asciiModelState (entry : string * ModelState) : bool :=
  isASCII (fst entry) && isASCII (ms_Name (snd entry)) &&
  isASCII (ms_Hash (snd entry)) &&
  forallb asciiFieldState (ms_Fields (snd entry)).

Definition asciiApp (entry : string * AppMigrationState) : bool :=
  isASCII (fst entry) && isASCII (LastHash (snd entry)) &&
  isASCII (LastMigration (snd entry)) &&
  forallb asciiModelState (Models (snd entry)).

Definition asciiState (state : MigrationState) : bool :=
  forallb asciiApp (Apps state).

(** The application is new to the state, or the state holds a model of it:
    then [state.Apps[appName].Models] is an allocated map.  (For an entry
    without a models key it is the nil map, which [UpdateMigrationState]
    cannot assign into; [Models] does not tell the nil map from the empty
    one.) *)
Definition modelsAllocated (state : MigrationState) (appName : string)
  : bool :=
  match GoMap.get (Apps state) appName with
  | None => true
  | Some app => negb (List.length (Models app) =? 0)%nat
  end.

(** The application's stored state, or the fresh one that
    [UpdateMigrationState] starts from when there is none. *)
Definition appOrNew (state : MigrationState) (appName : string)
  : AppMigrationState :=
  match GoMap.get (Apps state) appName with
  | Some a => a
  | None => mkAppMigrationState EmptyString EmptyString []
  end.


(** *** What [ScanModels] reports, struct by struct *)

(** The fields a struct contributes: one per declared name, the embedded
    [BaseModel] left out. *)
Definition fieldsOf (fieldList : list Field) : list FieldInfo :=
  List.flat_map
    (fun field =>
       if isBaseModel field then []
       else List.map
              (fun name =>
                 mkFieldInfo name (exprToString (FType field))
                   (match FTag field with Some v => v | None => EmptyString end)
                   (isStar (FType field)))
              (Names field))
    fieldList.

(** The model a type declaration yields, if any. *)
Definition modelOf (pkg modelsPath : string) (typeSpec : TypeSpec)
  : list ModelInfo :=
  match ts_Struct typeSpec with
  | Some fieldList =>
      if existsb isBaseModel fieldList
      then [mkModelInfo (ts_Name typeSpec) (fieldsOf fieldList) pkg modelsPath]
      else []
  | None => []
  end.

(** *** The statements of a generated body *)

(** One statement per field of a map of field slices, in iteration order. *)
Definition fieldStatements (gen : string -> FieldInfo -> string)
           (m : GoMap.t (list FieldInfo)) : list string :=
  List.flat_map (fun entry => List.map (gen (fst entry)) (snd entry)) m.

(** The statements of the Migrate body, in the order they are written. *)
Definition migrateStatements (c : MigrationChanges) : list string :=
  List.map generateCreateTableCode (NewModels c) ++
  fieldStatements generateAddColumnCode (NewFields c) ++
  fieldStatements generateDropColumnCode (DeletedFields c) ++
  List.map generateDropTableCode (DeletedModels c).

(** The statements of the Rollback body, in the order they are written. *)
Definition rollbackStatements (c : MigrationChanges) : list string :=
  List.map (fun model => generateDropTableCode (mi_Name model)) (NewModels c) ++
  fieldStatements generateDropColumnCode (NewFields c) ++
  fieldStatements generateAddColumnCode (DeletedFields c) ++
  List.map (fun modelName =>
              (tab ++ tab ++ "// TODO: Recreate table " ++ modelName)%string)
           (DeletedModels c).

(** A function body: the statements on lines of their own, then the final
    return. *)
Definition bodyOf (statements : list string) : string :=
  match statements with
  | [] => tab ++ tab ++ "return nil"
  | _ => Join statements nl ++ nl ++ tab ++ tab ++ "return nil"
  end.

(** No byte of the string is an ASCII capital. *)
Definition noUpper (s : string) : bool :=
  forallb (fun c => negb (isUpper c)) (list_ascii_of_string s).

End Cmd.

(** ** Package [core/migration]: the ledger of applied migrations
       ([bourbon/core/migration/migration.go]) *)

Module Migration.

(** A row of the table [bourbon_migrations]. *)
Record DjangoMigration : Type := mkDjangoMigration {
  ID : nat; App : string; Name : string; Applied : GoTime.Time
}.

Inductive Direction : Type := CallUp | CallDown.

Section Runner.

(** The contents of the database other than the ledger table. *)
Variable Schema : Type.

(** The database behind [*gorm.DB].  [faults] holds the outcome of the
    statements still to be sent to it: the next statement takes the head,
    and every statement succeeds once the list is used up. *)
Record DB : Type := mkDB {
  ledger : list DjangoMigration;
  nextID : nat;
  schema : Schema;
  clock : GoTime.Time;
  faults : list (option error)
}.

(** The migration runner's world: the database, standard output, and the
    callbacks invoked so far (a trace kept for the statements below; the
    program does not read it). *)
Record World : Type := mkWorld {
  db : DB;
  stdout : list string;
  calls : list (Direction * string * string)
}.

(** The [Migration] interface. *)
Record Migration : Type := mkMigration {
  Up : DB -> option error * DB;
  Down : DB -> option error * DB;
  MName : string;
  Version : nat;
  MApp : string
}.

(** Sending one statement: its outcome and the database afterwards. *)
Definition exec (d : DB) : option error * DB :=
  match faults d with
  | [] => (None, d)
  | f :: r => (f, mkDB (ledger d) (nextID d) (schema d) (clock d) r)
  end.

(** [WHERE app = ? AND name = ?] *)
Definition matches (app name : string) (row : DjangoMigration) : bool :=
  String.eqb (App row) app && String.eqb (Name row) name.

Definition IsApplied (d : DB) (app name : string)
  : (bool * option error) * DB :=
  match exec d with
  | (Some err, d') => ((false, Some err), d')
  | (None, d') =>
      let count := List.length (List.filter (matches app name) (ledger d')) in
      (((0 <? count)%nat, None), d')
  end.

Definition RecordMigration (d : DB) (app name : string)
  : option error * DB :=
  match exec d with
  | (Some err, d') => (Some err, d')
  | (None, d') =>
      (None,
       mkDB (ledger d' ++ [mkDjangoMigration (nextID d') app name (clock d')])
            (S (nextID d')) (schema d') (clock d') (faults d'))
  end.

Definition RemoveMigration (d : DB) (app name : string)
  : option error * DB :=
  match exec d with
  | (Some err, d') => (Some err, d')
  | (None, d') =>
      (None,
       mkDB (List.filter (fun row => negb (matches app name row)) (ledger d'))
            (nextID d') (schema d') (clock d') (faults d'))
  end.

Definition setDB (w : World) (d : DB) : World :=
  mkWorld d (stdout w) (calls w).

Definition printf (w : World) (s : string) : World :=
  mkWorld (db w) (stdout w ++ [s]) (calls w).

(** Calling [migration.Up(mr.db)] or [migration.Down(mr.db)]. *)
Definition invoke (dir : Direction) (migration : Migration) (w : World)
  : option error * World :=
  let '(err, d) :=
    match dir with
    | CallUp => Up migration (db w)
    | CallDown => Down migration (db w)
    end in
  (err, mkWorld d (stdout w)
                (calls w ++ [(dir, MApp migration, MName migration)])).

Definition RunMigration (w : World) (migration : Migration)
  : option error * World :=
  let app := MApp migration in
  let name := MName migration in
  match IsApplied (db w) app name with
  | ((_, Some err), d) =>
      (Some (Errorf "error checking migration status: " err), setDB w d)
  | ((true, None), d) =>
      (None, printf (setDB w d)
               ("  [SKIP] " ++ app ++ "." ++ name ++ " (already applied)" ++ nl))
  | ((false, None), d) =>
      match invoke CallUp migration (setDB w d) with
      | (Some err, w1) =>
          (Some (Errorf ("error running migration " ++ app ++ "." ++ name ++ ": ")
                        err), w1)
      | (None, w1) =>
          match RecordMigration (db w1) app name with
          | (Some err, d2) =>
              (Some (Errorf ("error recording migration " ++ app ++ "." ++
                             name ++ ": ") err), setDB w1 d2)
          | (None, d2) =>
              (None, printf (setDB w1 d2)
                       ("  [OK] " ++ app ++ "." ++ name ++ nl))
          end
      end
  end.

Definition RollbackMigration (w : World) (migration : Migration)
  : option error * World :=
  let app := MApp migration in
  let name := MName migration in
  match IsApplied (db w) app name with
  | ((_, Some err), d) =>
      (Some (Errorf "error checking migration status: " err), setDB w d)
  | ((false, None), d) =>
      (None, printf (setDB w d)
               ("  [SKIP] " ++ app ++ "." ++ name ++ " (not applied)" ++ nl))
  | ((true, None), d) =>
      match invoke CallDown migration (setDB w d) with
      | (Some err, w1) =>
          (Some (Errorf ("error rolling back migration " ++ app ++ "." ++
                         name ++ ": ") err), w1)
      | (None, w1) =>
          match RemoveMigration (db w1) app name with
          | (Some err, d2) =>
              (Some (Errorf ("error removing migration record " ++ app ++ "." ++
                             name ++ ": ") err), setDB w1 d2)
          | (None, d2) =>
              (None, printf (setDB w1 d2)
                       ("  [ROLLBACK] " ++ app ++ "." ++ name ++ nl))
          end
      end
  end.

(** The pair is recorded in the ledger. *)
Definition recorded (d : DB) (app name : string) : bool :=
  existsb (matches app name) (ledger d).

(** The next statement sent to the database succeeds. *)
Definition nextSucceeds (d : DB) : bool :=
  match faults d with
  | Some _ :: _ => false
  | _ => true
  end.

(** [ORDER BY id ASC]: the rows by ascending primary key. *)
Definition idLess (a b : DjangoMigration) : bool := (ID a <? ID b)%nat.

Definition GetAppliedMigrations (d : DB)
  : (list DjangoMigration * option error) * DB :=
  match exec d with
  | (Some err, d') => (([], Some err), d')
  | (None, d') => ((Cmd.sortSlice idLess (ledger d'), None), d')
  end.

Definition GetAppMigrations (d : DB) (app : string)
  : (list DjangoMigration * option error) * DB :=
  match exec d with
  | (Some err, d') => (([], Some err), d')
  | (None, d') =>
      ((Cmd.sortSlice idLess
          (List.filter (fun row => String.eqb (App row) app) (ledger d')),
        None), d')
  end.

(** The primary keys of the ledger ascend in row order and lie below the
    next key to hand out. *)
Definition ascending (d : DB) : Prop :=
  StronglySorted (fun a b => ID a < ID b) (ledger d) /\
  Forall (fun row => ID row < nextID d) (ledger d).

(** A callback that succeeds and leaves the ledger table, the key counter
    and the pending outcomes alone. *)
Definition quiet (f : DB -> option error * DB) : Prop :=
  forall d,
    fst (f d) = None /\ ledger (snd (f d)) = ledger d /\
    nextID (snd (f d)) = nextID d /\ faults (snd (f d)) = faults d.

(** *** The registry ([unnamed/part_002])

    The package-level registry, passed explicitly: application name to the
    migrations registered for it, in registration order. *)
Definition Registry : Type := GoMap.t (list Migration).

Definition RegisterMigration (registry : Registry) (migration : Migration)
  : Registry :=
  GoMap.append registry (MApp migration) migration.

(** The registry after registering [migrations] one by one. *)
Definition registryOf (migrations : list Migration) : Registry :=
  fold_left RegisterMigration migrations [].

Definition versionLess (a b : Migration) : bool :=
  (Version a <? Version b)%nat.

Definition GetMigrations (registry : Registry) (app : string)
  : list Migration :=
  Cmd.sortSlice versionLess (GoMap.slice registry app).

Definition GetAllApps (registry : Registry) : list string :=
  Cmd.sortSlice GoStrings.less (List.map fst registry).

(** The loop of [RunRegisteredMigrations]. *)
Fixpoint runEach (w : World) (migrations : list Migration) (count : nat)
  : (nat * option error) * World :=
  match migrations with
  | [] => ((count, None), w)
  | migration :: rest =>
      match RunMigration w migration with
      | (Some err, w1) => ((count, Some err), w1)
      | (None, w1) =>
          let '((applied, _), d) :=
            IsApplied (db w1) (MApp migration) (MName migration) in
          runEach (setDB w1 d) rest (if applied then S count else count)
      end
  end.

Definition RunRegisteredMigrations (registry : Registry) (w : World)
           (app : string) : (nat * option error) * World :=
  let migrations := GetMigrations registry app in
  if (List.length migrations =? 0)%nat then ((0, None), w)
  else runEach w migrations 0.

(** The loop of [RunAllRegisteredMigrations]. *)
Fixpoint runApps (registry : Registry) (w : World) (apps : list string)
         (totalCount : nat) : (nat * option error) * World :=
  match apps with
  | [] => ((totalCount, None), w)
  | app :: rest =>
      let w1 := printf w (nl ++ app ++ ":" ++ nl) in
      match RunRegisteredMigrations registry w1 app with
      | ((_, Some err), w2) =>
          ((totalCount, Some (Errorf ("error migrating " ++ app ++ ": ") err)),
           w2)
      | ((count, None), w2) => runApps registry w2 rest (totalCount + count)
      end
  end.

Definition RunAllRegisteredMigrations (registry : Registry) (w : World)
  : (nat * option error) * World :=
  runApps registry w (GetAllApps registry) 0.

End Runner.

Arguments mkDB {Schema}.
Arguments mkWorld {Schema}.
Arguments mkMigration {Schema}.
Arguments ledger {Schema}.
Arguments nextID {Schema}.
Arguments schema {Schema}.
Arguments clock {Schema}.
Arguments faults {Schema}.
Arguments db {Schema}.
Arguments stdout {Schema}.
Arguments calls {Schema}.
Arguments Up {Schema}.
Arguments Down {Schema}.
Arguments MName {Schema}.
Arguments MApp {Schema}.
Arguments Version {Schema}.
Arguments exec {Schema}.
Arguments IsApplied {Schema}.
Arguments RecordMigration {Schema}.
Arguments RemoveMigration {Schema}.
Arguments setDB {Schema}.
Arguments printf {Schema}.
Arguments invoke {Schema}.
Arguments RunMigration {Schema}.
Arguments RollbackMigration {Schema}.
Arguments recorded {Schema}.
Arguments nextSucceeds {Schema}.
Arguments GetAppliedMigrations {Schema}.
Arguments GetAppMigrations {Schema}.
Arguments ascending {Schema}.
Arguments quiet {Schema}.
Arguments RegisterMigration {Schema}.
Arguments registryOf {Schema}.
Arguments versionLess {Schema}.
Arguments GetMigrations {Schema}.
Arguments GetAllApps {Schema}.
Arguments runEach {Schema}.
Arguments RunRegisteredMigrations {Schema}.
Arguments runApps {Schema}.
Arguments RunAllRegisteredMigrations {Schema}.

End Migration.

(** ** Sample data *)

Module Samples.

Import Migration.

Definition t0 : GoTime.Time := GoTime.mkTime 2024 1 2 3 4 5 0.

(** Two instants within the same second, and one in the next second. *)
Definition tEarly : GoTime.Time := GoTime.mkTime 2024 1 2 3 4 5 100.
Definition tLate : GoTime.Time := GoTime.mkTime 2024 1 2 3 4 5 900.
Definition tNext : GoTime.Time := GoTime.mkTime 2024 1 2 3 4 6 0.

Definition boom : error := errorString "boom".

(** Two models of one name, as a package-level and a function-local
    declaration give them. *)
Definition postA : Cmd.ModelInfo :=
  Cmd.mkModelInfo "Post" [Cmd.mkFieldInfo "Title" "string" EmptyString false]
                  "blog" "apps/blog/models.go".

Definition postB : Cmd.ModelInfo :=
  Cmd.mkModelInfo "Post" [Cmd.mkFieldInfo "Body" "string" EmptyString false]
                  "blog" "apps/blog/models.go".

Definition user : Cmd.ModelInfo :=
  Cmd.mkModelInfo "User"
    [Cmd.mkFieldInfo "Name" "string" EmptyString false;
     Cmd.mkFieldInfo "Email" "string" EmptyString false]
    "blog" "apps/blog/models.go".

(** A model with two fields of one name, and the same with the two swapped. *)
Definition twoX : Cmd.ModelInfo :=
  Cmd.mkModelInfo "Item"
    [Cmd.mkFieldInfo "X" "int" EmptyString false;
     Cmd.mkFieldInfo "X" "string" EmptyString false]
    "blog" "apps/blog/models.go".

Definition twoXSwapped : Cmd.ModelInfo :=
  Cmd.mkModelInfo "Item"
    [Cmd.mkFieldInfo "X" "string" EmptyString false;
     Cmd.mkFieldInfo "X" "int" EmptyString false]
    "blog" "apps/blog/models.go".

(** [user] with its fields in the other order. *)
Definition userSwapped : Cmd.ModelInfo :=
  Cmd.mkModelInfo "User"
    [Cmd.mkFieldInfo "Email" "string" EmptyString false;
     Cmd.mkFieldInfo "Name" "string" EmptyString false]
    "blog" "apps/blog/models.go".

Definition emptyDB : DB unit := mkDB [] 1 tt t0 [].

Definition appliedDB : DB unit :=
  mkDB [mkDjangoMigration 1 "blog" "0001_initial" t0] 2 tt t0 [].

(** A migration whose callbacks both fail. *)
Definition failing : Migration unit :=
  mkMigration (fun d => (Some boom, d)) (fun d => (Some boom, d))
              "0001_initial" 1 "blog".

(** A migration whose callbacks succeed. *)
Definition passing : Migration unit :=
  mkMigration (fun d => (None, d)) (fun d => (None, d))
              "0001_initial" 1 "blog".

(** The ledger holds one row; the next statement sent fails. *)
Definition failingDB : DB unit :=
  mkDB [mkDjangoMigration 1 "blog" "0001_initial" t0] 2 tt t0 [Some boom].

(** The status query succeeds, the insert or delete after it fails. *)
Definition secondFailsDB : DB unit := mkDB [] 1 tt t0 [None; Some boom].

Definition secondFailsWorld : World unit := mkWorld secondFailsDB [] [].

(** Three rows, keys ascending. *)
Definition threeRowsDB : DB unit :=
  mkDB [mkDjangoMigration 1 "blog" "0001_initial" t0;
        mkDjangoMigration 2 "shop" "0001_initial" t0;
        mkDjangoMigration 5 "blog" "0002_tags" t0] 6 tt t0 [].

(** A second migration of the application "blog", of a later version,
    registered before the first. *)
Definition tags : Migration unit :=
  mkMigration (fun d => (None, d)) (fun d => (None, d)) "0002_tags" 2 "blog".

Definition blogRegistry : Registry unit := registryOf [tags; passing].

Definition freshWorld : World unit := mkWorld emptyDB [] [].
Definition failingWorld : World unit := mkWorld failingDB [] [].

(** The ledger is empty; the next statement sent fails. *)
Definition unreachableDB : DB unit := mkDB [] 1 tt t0 [Some boom].
Definition unreachableWorld : World unit := mkWorld unreachableDB [] [].
Definition appliedWorld : World unit := mkWorld appliedDB [] [].

(** Package [cmd]: an application "blog" with one model [Post]. *)

Import Cmd.

Definition baseModel : Field :=
  mkField [] (SelectorExpr (Ident "models") "BaseModel") None.
Definition fTitle : Field := mkField ["Title"] (Ident "string") None.
Definition fBody : Field := mkField ["Body"] (Ident "string") None.
Definition fBodyText : Field := mkField ["Body"] (Ident "text") None.

Definition post (fields : list Field) : File :=
  mkFile "blog" [mkTypeSpec "Post" (Some (baseModel :: fields))].

Definition only (f : ModelsFile) : string -> ModelsFile :=
  fun app => if String.eqb app "blog" then f else ModelsNotExist.

Definition storedState : MigrationState :=
  mkMigrationState
    [("blog",
      mkAppMigrationState EmptyString "20240101000000"
        [("Post",
          mkModelState "Post" EmptyString
            [mkFieldState "Title" "string" EmptyString;
             mkFieldState "Body" "string" EmptyString])])].

(** Every system call succeeds; nothing is typed at the prompt. *)
Definition quietEnv : Env := mkEnv EmptyString t0 None None None None.

(** As [quietEnv], but writing the state file fails. *)
Definition stateWriteFails : Env :=
  mkEnv EmptyString t0 None None None (Some boom).

(** First run: models exist, no state yet. *)
Definition firstRun : Cmd.World :=
  Cmd.mkWorld (only (ModelsParsed (post [fTitle; fBody]))) StateNotExist [] [] [].

(** The field [Body] was removed from the model. *)
Definition bodyDropped : Cmd.World :=
  Cmd.mkWorld (only (ModelsParsed (post [fTitle]))) (StateDoc storedState) [] [] [].

(** What [ScanModels] finds in [bodyDropped]. *)
Definition postWithoutBody : ModelInfo :=
  mkModelInfo "Post" [mkFieldInfo "Title" "string" EmptyString false]
              "blog" "apps/blog/models.go".

(** The type of the field [Body] was changed. *)
Definition bodyRetyped : Cmd.World :=
  Cmd.mkWorld (only (ModelsParsed (post [fTitle; fBodyText])))
              (StateDoc storedState) [] [] [].

Definition fContent : Field := mkField ["Content"] (Ident "string") None.

(** The field [Body] was renamed to [Content]. *)
Definition bodyRenamed : Cmd.World :=
  Cmd.mkWorld (only (ModelsParsed (post [fTitle; fContent])))
              (StateDoc storedState) [] [] [].

Definition postRenamed : ModelInfo :=
  mkModelInfo "Post"
    [mkFieldInfo "Title" "string" EmptyString false;
     mkFieldInfo "Content" "string" EmptyString false]
    "blog" "apps/blog/models.go".

Definition fTitleText : Field := mkField ["Title"] (Ident "text") None.

(** [models.go] declares [Post] twice: at package level, and again inside a
    function body, where the declaration shadows the first. *)
Definition postTwice : Cmd.World :=
  Cmd.mkWorld
    (only (ModelsParsed
             (mkFile "blog"
                [mkTypeSpec "Post" (Some [baseModel; fTitleText]);
                 mkTypeSpec "Post" (Some [baseModel; fBody])])))
    (StateDoc storedState) [] [] [].

(** A model with two blank fields was stored; the second blank field has
    since been renamed to [Y]. *)
Definition blankState : MigrationState :=
  mkMigrationState
    [("blog",
      mkAppMigrationState EmptyString "20240101000000"
        [("Pad",
          mkModelState "Pad" EmptyString
            [mkFieldState "_" "int" EmptyString;
             mkFieldState "_" "int" EmptyString])])].

Definition blankRenamed : Cmd.World :=
  Cmd.mkWorld
    (only (ModelsParsed
             (mkFile "blog"
                [mkTypeSpec "Pad"
                   (Some [baseModel; mkField ["_"] (Ident "int") None;
                          mkField ["Y"] (Ident "int") None])])))
    (StateDoc blankState) [] [] [].


(** The model [Post] is gone from [models.go]; a model [Tag] is there. *)
Definition postRemoved : Cmd.World :=
  Cmd.mkWorld
    (only (ModelsParsed
             (mkFile "blog"
                [mkTypeSpec "Tag"
                   (Some [baseModel; mkField ["Label"] (Ident "string") None])])))
    (StateDoc storedState) [] [] [].

Definition tagScanned : ModelInfo :=
  mkModelInfo "Tag" [mkFieldInfo "Label" "string" EmptyString false]
              "blog" "apps/blog/models.go".

(** A file with a model, a struct that embeds nothing, a struct that embeds
    an unqualified [BaseModel], and a type that is no struct. *)
Definition mixedTypes : File :=
  mkFile "blog"
    [mkTypeSpec "Post" (Some [fTitle; baseModel; fBody]);
     mkTypeSpec "Helper" (Some [fTitle]);
     mkTypeSpec "Local" (Some [mkField [] (Ident "BaseModel") None; fTitle]);
     mkTypeSpec "ID" None].

Definition mixedFile : Cmd.World :=
  Cmd.mkWorld (only (ModelsParsed mixedTypes)) StateNotExist [] [] [].

(** The field [Views] was added to the model. *)
Definition viewsAdded : Cmd.World :=
  Cmd.mkWorld
    (only (ModelsParsed
             (post [fTitle; mkField ["Views"] (Ident "int") None; fBody])))
    (StateDoc storedState) [] [] [].

Definition postWithViews : ModelInfo :=
  mkModelInfo "Post"
    [mkFieldInfo "Title" "string" EmptyString false;
     mkFieldInfo "Views" "int" EmptyString false;
     mkFieldInfo "Body" "string" EmptyString false]
    "blog" "apps/blog/models.go".

Definition noModelsFile : Cmd.World :=
  Cmd.mkWorld (only ModelsNotExist) StateNotExist [] [] [].

Definition brokenModelsFile : Cmd.World :=
  Cmd.mkWorld (only (ModelsUnparsable boom)) StateNotExist [] [] [].

End Samples.

(** * Properties *)

(** ** The hash function against known digests *)

Example sha_abc :
  Sha256.hexsum "abc"
  = "ba7816bf8f01cfea414140de5dae2223b00361a396177a9cb410ff61f20015ad".
Proof. vm_compute. reflexivity. Qed.

Example sha_empty :
  Sha256.hexsum EmptyString
  = "e3b0c44298fc1c149afbf4c8996fb92427ae41e4649b934ca495991b7852b855".
Proof. vm_compute. reflexivity. Qed.

Example sha_two_blocks :
  Sha256.hexsum "abcdbcdecdefdefgefghfghighijhijkijkljklmklmnlmnomnopnopq"
  = "248d6a61d20638b8e5c026930c3e6039a33ce45964ff2167f6ecedd419db06c1".
Proof. vm_compute. reflexivity. Qed.

(** ** Maps *)

Module MapFacts.

Import GoMap.

Lemma get_set_same {V} (m : t V) k v : get (set m k v) k = Some v.
Proof.
  induction m as [|[k' v'] m IH]; simpl.
  - rewrite String.eqb_refl. reflexivity.
  - destruct (String.eqb k' k) eqn:E; simpl.
    + rewrite String.eqb_refl. reflexivity.
    + rewrite E. exact IH.
Qed.

Lemma get_set_other {V} (m : t V) k k' v :
  k <> k' -> get (set m k v) k' = get m k'.
Proof.
  intros N. induction m as [|[k0 v0] m IH]; simpl.
  - destruct (String.eqb_spec k k'); [contradiction|reflexivity].
  - destruct (String.eqb_spec k0 k) as [E|E]; simpl.
    + subst k0. destruct (String.eqb_spec k k'); [contradiction|reflexivity].
    + destruct (String.eqb k0 k'); [reflexivity|exact IH].
Qed.

Lemma slice_append {V} (m : t (list V)) k n x :
  slice (append m k x) n
  = slice m n ++ (if String.eqb k n then [x] else []).
Proof.
  unfold slice at 1, append. destruct (String.eqb_spec k n) as [E|E].
  - subst n. rewrite get_set_same. reflexivity.
  - rewrite get_set_other by exact E. rewrite app_nil_r. reflexivity.
Qed.

Lemma mem_In k keys : mem k keys = true <-> In k keys.
Proof.
  unfold mem. rewrite existsb_exists. split.
  - intros [x [I E]]. apply String.eqb_eq in E. subst. exact I.
  - intros I. exists k. split; [exact I | apply String.eqb_refl].
Qed.

Section FoldSet.

Context {A : Type} (key : A -> string).

Lemma get_fold_set_notin (l : list A) (m0 : t A) k :
  ~ In k (List.map key l) ->
  get (fold_left (fun m a => set m (key a) a) l m0) k = get m0 k.
Proof.
  revert m0. induction l as [|a l IH]; intros m0 N; simpl; [reflexivity|].
  simpl in N. rewrite IH by tauto. apply get_set_other. tauto.
Qed.

Lemma get_fold_set_in (l : list A) (m0 : t A) a :
  NoDup (List.map key l) -> In a l ->
  get (fold_left (fun m a => set m (key a) a) l m0) (key a) = Some a.
Proof.
  revert m0. induction l as [|b l IH]; intros m0 D I; simpl; [contradiction|].
  simpl in D. inversion D as [|? ? N D']; subst.
  destruct I as [E|I].
  - subst b. rewrite get_fold_set_notin by exact N. apply get_set_same.
  - apply IH; assumption.
Qed.

Lemma has_fold_set (l : list A) (m0 : t A) k :
  has (fold_left (fun m a => set m (key a) a) l m0) k
  = mem k (List.map key l) || has m0 k.
Proof.
  revert m0. induction l as [|a l IH]; intros m0; simpl; [reflexivity|].
  rewrite IH. unfold has.
  destruct (String.eqb_spec k (key a)) as [E|E].
  - subst k. rewrite get_set_same. simpl. apply orb_true_r.
  - rewrite get_set_other by congruence. reflexivity.
Qed.

End FoldSet.

End MapFacts.

(** ** Migration identifiers *)

Module IdentifierFacts.

Import GoTime Cmd.

Lemma append_empty (s : string) : (s ++ EmptyString)%string = s.
Proof. induction s as [|c s IH]; simpl; [reflexivity | rewrite IH; reflexivity]. Qed.

Lemma length_app (a b : string) :
  String.length (a ++ b) = String.length a + String.length b.
Proof. induction a as [|c a IH]; simpl; [reflexivity | rewrite IH; reflexivity]. Qed.

Lemma ascii_compare_refl (c : ascii) : Ascii.compare c c = Eq.
Proof. unfold Ascii.compare. apply N.compare_refl. Qed.

Lemma compare_refl (s : string) : String.compare s s = Eq.
Proof.
  induction s as [|c s IH]; simpl; [reflexivity|].
  rewrite ascii_compare_refl. exact IH.
Qed.

Lemma compare_app_same (a x y : string) :
  String.compare (a ++ x) (a ++ y) = String.compare x y.
Proof.
  induction a as [|c a IH]; simpl; [reflexivity|].
  rewrite ascii_compare_refl. exact IH.
Qed.

Lemma compare_app_lt (a b x y : string) :
  String.length a = String.length b ->
  String.compare a b = Lt ->
  String.compare (a ++ x) (b ++ y) = Lt.
Proof.
  revert b. induction a as [|c a IH]; intros [|d b]; simpl; try discriminate.
  intros L H. destruct (Ascii.compare c d); try discriminate; [|reflexivity].
  apply IH; [lia | exact H].
Qed.

Lemma fixedWidth_S (w x : nat) :
  fixedWidth (S w) x
  = (fixedWidth w (x / 10) ++ String (digit x) EmptyString)%string.
Proof. reflexivity. Qed.

Lemma fixedWidth_length (w x : nat) : String.length (fixedWidth w x) = w.
Proof.
  revert x. induction w as [|w IH]; intros x; [reflexivity|].
  rewrite fixedWidth_S, length_app, IH. simpl. lia.
Qed.

Lemma digit_lt (x y : nat) :
  x mod 10 < y mod 10 -> Ascii.compare (digit x) (digit y) = Lt.
Proof.
  intros H. unfold Ascii.compare, digit, ascii_of_nat.
  pose proof (Nat.mod_upper_bound x 10 ltac:(lia)) as Bx.
  pose proof (Nat.mod_upper_bound y 10 ltac:(lia)) as By.
  rewrite !N_ascii_embedding by lia.
  apply N.compare_lt_iff. lia.
Qed.

Lemma fixedWidth_lt (w x y : nat) :
  x < y -> y < 10 ^ w ->
  String.compare (fixedWidth w x) (fixedWidth w y) = Lt.
Proof.
  revert x y. induction w as [|w IH]; intros x y Hxy Hy.
  - simpl in Hy. lia.
  - rewrite !fixedWidth_S.
    pose proof (Nat.div_mod_eq x 10) as Dx.
    pose proof (Nat.div_mod_eq y 10) as Dy.
    pose proof (Nat.mod_upper_bound x 10 ltac:(lia)) as Bx.
    pose proof (Nat.mod_upper_bound y 10 ltac:(lia)) as By.
    destruct (Nat.lt_ge_cases (x / 10) (y / 10)) as [Hlt|Hge].
    + apply compare_app_lt; [rewrite !fixedWidth_length; reflexivity|].
      apply IH; [exact Hlt|]. rewrite Nat.pow_succ_r' in Hy.
      apply Nat.Div0.div_lt_upper_bound. exact Hy.
    + assert (E : x / 10 = y / 10) by lia.
      rewrite E, compare_app_same. cbn [String.compare].
      rewrite digit_lt by lia. reflexivity.
Qed.

Lemma Format_fixed (t : Time) :
  valid t = true ->
  Format t = (fixedWidth 4 (Year t) ++ fixedWidth 2 (Month t) ++
              fixedWidth 2 (Day t) ++ fixedWidth 2 (Hour t) ++
              fixedWidth 2 (Minute t) ++ fixedWidth 2 (Second t))%string.
Proof.
  unfold valid. rewrite !andb_true_iff, !Nat.ltb_lt.
  intros [[[[[Hy Hmo] Hd] Hh] Hmi] Hs].
  unfold Format, appendInt.
  assert (Y : (Year t <? 10 ^ 4)%nat = true) by (apply Nat.ltb_lt; exact Hy).
  assert (Mo : (Month t <? 10 ^ 2)%nat = true) by (apply Nat.ltb_lt; simpl; lia).
  assert (D : (Day t <? 10 ^ 2)%nat = true) by (apply Nat.ltb_lt; simpl; lia).
  assert (H : (Hour t <? 10 ^ 2)%nat = true) by (apply Nat.ltb_lt; simpl; lia).
  assert (Mi : (Minute t <? 10 ^ 2)%nat = true) by (apply Nat.ltb_lt; simpl; lia).
  assert (S : (Second t <? 10 ^ 2)%nat = true) by (apply Nat.ltb_lt; simpl; lia).
  rewrite Y, Mo, D, H, Mi, S. reflexivity.
Qed.

Lemma Format_length (t : Time) :
  valid t = true -> String.length (Format t) = 14.
Proof.
  intros V. rewrite (Format_fixed t V).
  rewrite !length_app, !fixedWidth_length. reflexivity.
Qed.

(** One field of the comparison: either it decides, or it is equal and the
    rest decides. *)
Lemma field_step (w a b : nat) (x y : string) (rest : bool) :
  a < 10 ^ w -> b < 10 ^ w ->
  ((a <? b) || ((a =? b) && rest))%nat = true ->
  (rest = true -> String.compare x y = Lt) ->
  String.compare (fixedWidth w a ++ x) (fixedWidth w b ++ y) = Lt.
Proof.
  intros Ha Hb H K.
  destruct (Nat.ltb_spec a b) as [L|G].
  - apply compare_app_lt; [rewrite !fixedWidth_length; reflexivity|].
    apply fixedWidth_lt; assumption.
  - simpl in H. apply andb_true_iff in H. destruct H as [E R].
    apply Nat.eqb_eq in E. subst b. rewrite compare_app_same. apply K, R.
Qed.

Lemma Format_lt (t1 t2 : Time) :
  valid t1 = true -> valid t2 = true -> EarlierSecond t1 t2 = true ->
  String.compare (Format t1) (Format t2) = Lt.
Proof.
  intros V1 V2 E.
  rewrite (Format_fixed t1 V1), (Format_fixed t2 V2).
  unfold valid in V1, V2. rewrite !andb_true_iff, !Nat.ltb_lt in V1, V2.
  destruct V1 as [[[[[Hy1 Hmo1] Hd1] Hh1] Hmi1] Hs1].
  destruct V2 as [[[[[Hy2 Hmo2] Hd2] Hh2] Hmi2] Hs2].
  unfold EarlierSecond, seconds in E. simpl lexlt in E.
  eapply field_step; [exact Hy1 | exact Hy2 | exact E | intros E1].
  eapply field_step; [simpl; lia | simpl; lia | exact E1 | intros E2].
  eapply field_step; [simpl; lia | simpl; lia | exact E2 | intros E3].
  eapply field_step; [simpl; lia | simpl; lia | exact E3 | intros E4].
  eapply field_step; [simpl; lia | simpl; lia | exact E4 | intros E5].
  rewrite <- (append_empty (fixedWidth 2 (Second t1))).
  rewrite <- (append_empty (fixedWidth 2 (Second t2))).
  eapply field_step; [simpl; lia | simpl; lia | exact E5 | discriminate].
Qed.

Lemma migrationIDOf_split (t : Time) (name : string) :
  exists suffix, migrationIDOf t name = (Format t ++ suffix)%string.
Proof.
  unfold migrationIDOf. destruct (String.eqb name EmptyString).
  - exists EmptyString. rewrite append_empty. reflexivity.
  - eexists. reflexivity.
Qed.

(** C2, as stated, fails: two calls within one wall-clock second, the second
    one later, with the same name get the same identifier. *)
Lemma ids_collide_within_one_second :
  Before Samples.tEarly Samples.tLate = true /\
  migrationIDOf Samples.tEarly "add user"
  = migrationIDOf Samples.tLate "add user" /\
  GoStrings.less (migrationIDOf Samples.tEarly "add user")
                 (migrationIDOf Samples.tLate "add user") = false.
Proof. repeat split. Qed.

(** C2, amended.  For instants with four-digit years, the identifier of a
    call made in a later wall-clock second is strictly greater, in Go's
    string order, than the identifier of the earlier call, whatever the two
    names; in particular the two identifiers differ. *)
Theorem ids_increase_across_seconds (t1 t2 : Time) (name1 name2 : string) :
  valid t1 = true -> valid t2 = true ->
  EarlierSecond t1 t2 = true ->
  GoStrings.less (migrationIDOf t1 name1) (migrationIDOf t2 name2) = true /\
  migrationIDOf t1 name1 <> migrationIDOf t2 name2.
Proof.
  intros V1 V2 E.
  destruct (migrationIDOf_split t1 name1) as [s1 E1].
  destruct (migrationIDOf_split t2 name2) as [s2 E2].
  assert (C : String.compare (migrationIDOf t1 name1) (migrationIDOf t2 name2) = Lt).
  { rewrite E1, E2. apply compare_app_lt.
    - rewrite !Format_length by assumption. reflexivity.
    - apply Format_lt; assumption. }
  split.
  - unfold GoStrings.less, String.ltb. rewrite C. reflexivity.
  - intros Heq. rewrite Heq, compare_refl in C. discriminate.
Qed.

Lemma ids_increase_across_seconds_witness :
  GoStrings.less (migrationIDOf Samples.tLate "zz") (migrationIDOf Samples.tNext "aa")
  = true /\
  migrationIDOf Samples.tLate "zz" <> migrationIDOf Samples.tNext "aa".
Proof.
  apply (ids_increase_across_seconds Samples.tLate Samples.tNext "zz" "aa");
    reflexivity.
Defined.

End IdentifierFacts.

(** ** The ledger: [RunMigration] and [RollbackMigration] *)

Module MigrationFacts.

Import Migration.

Lemma exec_ledger (Schema : Type) (d d' : DB Schema) (r : option error) :
  exec d = (r, d') ->
  ledger d' = ledger d /\ schema d' = schema d /\ nextID d' = nextID d.
Proof.
  unfold exec. destruct (faults d) as [|f fs]; intros H; inversion H; subst;
    simpl; auto.
Qed.

Lemma IsApplied_ledger (Schema : Type) (d d' : DB Schema) app name r :
  IsApplied d app name = (r, d') ->
  ledger d' = ledger d /\ schema d' = schema d /\ nextID d' = nextID d.
Proof.
  unfold IsApplied. destruct (exec d) as [[e|] d0] eqn:E; intros H;
    inversion H; subst; eapply exec_ledger; eauto.
Qed.

Lemma IsApplied_true (Schema : Type) (d d' : DB Schema) app name :
  IsApplied d app name = ((true, None), d') ->
  exists row, In row (ledger d) /\ App row = app /\ Name row = name.
Proof.
  unfold IsApplied. destruct (exec d) as [[e|] d0] eqn:E; intros H;
    inversion H; subst; clear H.
  apply exec_ledger in E. destruct E as [El _]. rewrite El in H1.
  destruct (filter (matches app name) (ledger d)) as [|row rs] eqn:F.
  - discriminate.
  - assert (I : In row (filter (matches app name) (ledger d)))
      by (rewrite F; left; reflexivity).
    apply filter_In in I. destruct I as [I M]. unfold matches in M.
    apply andb_true_iff in M. destruct M as [M1 M2].
    apply String.eqb_eq in M1. apply String.eqb_eq in M2. eauto.
Qed.

Lemma IsApplied_false (Schema : Type) (d d' : DB Schema) app name :
  IsApplied d app name = ((false, None), d') ->
  forall row, In row (ledger d) -> ~ (App row = app /\ Name row = name).
Proof.
  unfold IsApplied. destruct (exec d) as [[e|] d0] eqn:E; intros H;
    inversion H; subst; clear H.
  apply exec_ledger in E. destruct E as [El _]. rewrite El in H1.
  intros row I [A B].
  assert (J : In row (filter (matches app name) (ledger d))).
  { apply filter_In. split; [assumption|]. unfold matches.
    rewrite A, B, !String.eqb_refl. reflexivity. }
  destruct (filter (matches app name) (ledger d)); [contradiction|discriminate].
Qed.

(** C6.  If the forward callback of a migration that is not yet applied
    returns an error, [RunMigration] returns an error wrapping it and sends
    no insert: the database, and so the ledger, is as the callback left it
    (unchanged when the callback did not touch the ledger).  If the backward
    callback of an applied migration returns an error, [RollbackMigration]
    returns an error wrapping it and sends no delete: every ledger row the
    callback left is still there. *)
Theorem callback_failure_leaves_ledger :
  (forall (Schema : Type) (w : World Schema) (m : Migration Schema)
          (d d' : DB Schema) (e : error),
      IsApplied (db w) (MApp m) (MName m) = ((false, None), d) ->
      Up m d = (Some e, d') ->
      exists err w',
        RunMigration w m = (Some err, w') /\ Unwrap err = Some e /\
        db w' = d' /\
        (ledger d' = ledger d -> ledger (db w') = ledger (db w))) /\
  (forall (Schema : Type) (w : World Schema) (m : Migration Schema)
          (d d' : DB Schema) (e : error),
      IsApplied (db w) (MApp m) (MName m) = ((true, None), d) ->
      Down m d = (Some e, d') ->
      exists err w',
        RollbackMigration w m = (Some err, w') /\ Unwrap err = Some e /\
        db w' = d' /\
        (ledger d' = ledger d -> ledger (db w') = ledger (db w))).
Proof.
  split; intros Schema w m d d' e HA HC.
  - unfold RunMigration. rewrite HA. unfold invoke. simpl. rewrite HC.
    eexists. eexists. split; [reflexivity|]. simpl.
    repeat split. intros L. rewrite L.
    apply IsApplied_ledger in HA. tauto.
  - unfold RollbackMigration. rewrite HA. unfold invoke. simpl. rewrite HC.
    eexists. eexists. split; [reflexivity|]. simpl.
    repeat split. intros L. rewrite L.
    apply IsApplied_ledger in HA. tauto.
Qed.

Lemma callback_failure_leaves_ledger_witness :
  (exists err w',
      RunMigration Samples.freshWorld Samples.failing = (Some err, w') /\
      Unwrap err = Some Samples.boom /\ db w' = Samples.emptyDB /\
      (ledger Samples.emptyDB = ledger Samples.emptyDB ->
       ledger (db w') = ledger (db Samples.freshWorld))) /\
  (exists err w',
      RollbackMigration Samples.appliedWorld Samples.failing = (Some err, w') /\
      Unwrap err = Some Samples.boom /\ db w' = Samples.appliedDB /\
      (ledger Samples.appliedDB = ledger Samples.appliedDB ->
       ledger (db w') = ledger (db Samples.appliedWorld))).
Proof.
  split.
  - apply (proj1 callback_failure_leaves_ledger unit Samples.freshWorld
                 Samples.failing Samples.emptyDB Samples.emptyDB Samples.boom);
      reflexivity.
  - apply (proj2 callback_failure_leaves_ledger unit Samples.appliedWorld
                 Samples.failing Samples.appliedDB Samples.appliedDB Samples.boom);
      reflexivity.
Defined.

Lemma recorded_IsApplied (Schema : Type) (d : DB Schema) app name :
  nextSucceeds d = true ->
  exists d',
    IsApplied d app name = ((recorded d app name, None), d') /\
    ledger d' = ledger d /\ schema d' = schema d /\ nextID d' = nextID d.
Proof.
  unfold nextSucceeds, IsApplied, exec, recorded. intros H.
  assert (C : forall l : list DjangoMigration,
             (0 <? List.length (filter (matches app name) l))%nat
             = existsb (matches app name) l).
  { induction l as [|row l IH]; simpl; [reflexivity|].
    destruct (matches app name row); simpl; [reflexivity|exact IH]. }
  destruct (faults d) as [|[e|] fs]; try discriminate;
    eexists; simpl; rewrite C; repeat split.
Qed.

(** C7, as stated, fails: the pair is recorded in the ledger, the status
    query fails, and [RunMigration] returns the query's error, not nil. *)
Lemma recorded_apply_fails_with_query :
  recorded Samples.failingDB (MApp Samples.passing) (MName Samples.passing)
  = true /\
  fst (RunMigration Samples.failingWorld Samples.passing)
  = Some (Errorf "error checking migration status: " Samples.boom).
Proof. split; reflexivity. Qed.

(** C7, amended.  When the pair (app, name) of a migration is recorded in
    the ledger and the status query succeeds, [RunMigration] returns nil,
    calls no callback and leaves the ledger and the rest of the database as
    they were.  So after a run that returned nil, a second run returns nil
    too, calls nothing and records nothing more. *)
Theorem apply_is_idempotent :
  (forall (Schema : Type) (w : World Schema) (m : Migration Schema),
      recorded (db w) (MApp m) (MName m) = true ->
      nextSucceeds (db w) = true ->
      exists w',
        RunMigration w m = (None, w') /\ calls w' = calls w /\
        ledger (db w') = ledger (db w) /\ schema (db w') = schema (db w)) /\
  (forall (Schema : Type) (w w1 : World Schema) (m : Migration Schema),
      RunMigration w m = (None, w1) ->
      nextSucceeds (db w1) = true ->
      exists w2,
        RunMigration w1 m = (None, w2) /\ calls w2 = calls w1 /\
        ledger (db w2) = ledger (db w1) /\ schema (db w2) = schema (db w1)).
Proof.
  assert (P1 : forall (Schema : Type) (w : World Schema) (m : Migration Schema),
      recorded (db w) (MApp m) (MName m) = true ->
      nextSucceeds (db w) = true ->
      exists w',
        RunMigration w m = (None, w') /\ calls w' = calls w /\
        ledger (db w') = ledger (db w) /\ schema (db w') = schema (db w)).
  { intros Schema w m R N.
    destruct (recorded_IsApplied Schema (db w) (MApp m) (MName m) N)
      as [d' [E [L [S _]]]].
    unfold RunMigration. rewrite E, R. eexists. split; [reflexivity|].
    simpl. auto. }
  split; [exact P1|].
  intros Schema w w1 m H N. apply P1; [|exact N].
  unfold RunMigration in H.
  destruct (IsApplied (db w) (MApp m) (MName m)) as [[[|] [e|]] d] eqn:E;
    try discriminate.
  - inversion H; subst; clear H. simpl.
    destruct (IsApplied_true _ _ _ _ _ E) as [row [I [A B]]].
    apply IsApplied_ledger in E. destruct E as [L _].
    unfold recorded. rewrite L. apply existsb_exists. exists row.
    split; [assumption|]. unfold matches.
    rewrite A, B, !String.eqb_refl. reflexivity.
  - unfold invoke in H. simpl in H.
    destruct (Up m d) as [[e|] d1]; try discriminate.
    destruct (RecordMigration _ (MApp m) (MName m)) as [[e|] d2] eqn:R;
      try discriminate.
    inversion H; subst; clear H. simpl.
    unfold RecordMigration in R. simpl in R.
    destruct (exec d1) as [[e|] d3]; try discriminate.
    inversion R; subst; clear R. unfold recorded. simpl.
    rewrite existsb_app. simpl. unfold matches. simpl.
    rewrite !String.eqb_refl. simpl. apply orb_true_r.
Qed.

Lemma apply_is_idempotent_witness :
  (exists w',
      RunMigration Samples.appliedWorld Samples.failing = (None, w') /\
      calls w' = calls Samples.appliedWorld /\
      ledger (db w') = ledger (db Samples.appliedWorld) /\
      schema (db w') = schema (db Samples.appliedWorld)) /\
  (exists w2,
      RunMigration (snd (RunMigration Samples.freshWorld Samples.passing))
                   Samples.passing = (None, w2) /\
      calls w2 = calls (snd (RunMigration Samples.freshWorld Samples.passing)) /\
      ledger (db w2)
      = ledger (db (snd (RunMigration Samples.freshWorld Samples.passing))) /\
      schema (db w2)
      = schema (db (snd (RunMigration Samples.freshWorld Samples.passing)))).
Proof.
  split.
  - apply (proj1 apply_is_idempotent unit Samples.appliedWorld Samples.failing);
      reflexivity.
  - apply (proj2 apply_is_idempotent unit Samples.freshWorld _ Samples.passing);
      reflexivity.
Defined.

(** C8, as stated, fails: the pair is not in the ledger, the status query
    fails, and [RollbackMigration] returns the query's error, not nil. *)
Lemma unapplied_rollback_fails_with_query :
  recorded Samples.unreachableDB (MApp Samples.passing) (MName Samples.passing)
  = false /\
  fst (RollbackMigration Samples.unreachableWorld Samples.passing)
  = Some (Errorf "error checking migration status: " Samples.boom).
Proof. split; reflexivity. Qed.

(** C8, amended.  When the pair (app, name) of a migration is not recorded
    in the ledger and the status query succeeds, [RollbackMigration] returns
    nil, calls no callback, leaves the ledger and the rest of the database
    as they were, and prints the "not applied" line. *)
Theorem rollback_of_unapplied_is_noop (Schema : Type) (w : World Schema)
        (m : Migration Schema) :
  recorded (db w) (MApp m) (MName m) = false ->
  nextSucceeds (db w) = true ->
  exists w',
    RollbackMigration w m = (None, w') /\ calls w' = calls w /\
    ledger (db w') = ledger (db w) /\ schema (db w') = schema (db w) /\
    stdout w' = stdout w ++
      [("  [SKIP] " ++ MApp m ++ "." ++ MName m ++ " (not applied)" ++ nl)%string].
Proof.
  intros R N.
  destruct (recorded_IsApplied Schema (db w) (MApp m) (MName m) N)
    as [d' [E [L [S _]]]].
  unfold RollbackMigration. rewrite E, R. eexists. split; [reflexivity|].
  simpl. auto.
Qed.

Lemma rollback_of_unapplied_is_noop_witness :
  exists w',
    RollbackMigration Samples.freshWorld Samples.failing = (None, w') /\
    calls w' = calls Samples.freshWorld /\
    ledger (db w') = ledger (db Samples.freshWorld) /\
    schema (db w') = schema (db Samples.freshWorld) /\
    stdout w' = stdout Samples.freshWorld ++
      [("  [SKIP] " ++ MApp Samples.failing ++ "." ++ MName Samples.failing ++
        " (not applied)" ++ nl)%string].
Proof.
  apply (rollback_of_unapplied_is_noop unit Samples.freshWorld Samples.failing);
    reflexivity.
Defined.

End MigrationFacts.

(** ** The command [GenerateMigrationForApp] *)

Module CommandFacts.

Import Cmd.

Lemma sameStore_refl w : sameStore w w.
Proof. unfold sameStore; auto. Qed.

Lemma sameStore_trans w1 w2 w3 :
  sameStore w1 w2 -> sameStore w2 w3 -> sameStore w1 w3.
Proof. unfold sameStore; intuition congruence. Qed.

Lemma sameStore_print w w1 s : sameStore w w1 -> sameStore w (print w1 s).
Proof. unfold sameStore; simpl; auto. Qed.

Lemma sameStore_println w w1 s : sameStore w w1 -> sameStore w (println w1 s).
Proof. apply sameStore_print. Qed.

Lemma sameStore_if w (b : bool) w1 w2 :
  sameStore w w1 -> sameStore w w2 -> sameStore w (if b then w1 else w2).
Proof. destruct b; auto. Qed.

Lemma sameStore_fold {A} w (f : World -> A -> World) (l : list A) :
  (forall a x, sameStore w a -> sameStore w (f a x)) ->
  forall a, sameStore w a -> sameStore w (fold_left f l a).
Proof.
  intros Hf. induction l as [|x l IH]; intros a Ha; simpl; auto.
Qed.

Ltac same_store :=
  repeat first
    [ assumption
    | apply sameStore_refl
    | apply sameStore_print
    | apply sameStore_println
    | apply sameStore_if
    | apply sameStore_fold; intros ].

Lemma sameStore_warnDestructive w c : sameStore w (warnDestructive w c).
Proof. unfold warnDestructive. cbv zeta. same_store. Qed.

Lemma destructive_HasChanges c :
  HasDestructiveChanges c = true -> HasChanges c = true.
Proof.
  unfold HasDestructiveChanges, HasChanges. intros H.
  apply orb_true_iff in H. destruct H as [H|H]; rewrite H;
    repeat rewrite orb_true_r; reflexivity.
Qed.

(** C3.  When the change set holds a deleted model or a deleted field and
    the answer read at the prompt does not lower-case to "y" (the empty
    answer of a non-interactive run included), [GenerateMigrationForApp]
    returns nil and leaves every file, every directory and the persisted
    state as they were; so if it wrote anything, the answer was "y". *)
Theorem destructive_gate_fail_closed (env : Env) (w : World)
        (appName name : string) (models : list ModelInfo)
        (changes : MigrationChanges) :
  ScanModels w appName = inl models ->
  models <> [] ->
  DetectAllChanges w appName models = inl changes ->
  HasDestructiveChanges changes = true ->
  (GoStrings.ToLower (response env) <> "y" ->
   exists w',
     GenerateMigrationForApp env w appName name = (None, w') /\
     files w' = files w /\ stateFile w' = stateFile w /\ dirs w' = dirs w) /\
  (files (snd (GenerateMigrationForApp env w appName name)) <> files w ->
   GoStrings.ToLower (response env) = "y").
Proof.
  intros HS HM HD HX.
  assert (G : GoStrings.ToLower (response env) <> "y" ->
              exists w',
                GenerateMigrationForApp env w appName name = (None, w') /\
                files w' = files w /\ stateFile w' = stateFile w /\
                dirs w' = dirs w).
  { intros HR. unfold GenerateMigrationForApp. rewrite HS.
    destruct models as [|m0 ms]; [contradiction|]. simpl List.length.
    simpl Nat.eqb. cbv iota. rewrite HD.
    rewrite (destructive_HasChanges _ HX), HX. simpl negb. cbv iota.
    destruct (String.eqb (GoStrings.ToLower (response env)) "y") eqn:E.
    - apply String.eqb_eq in E. contradiction.
    - simpl negb. cbv iota. eexists. split; [reflexivity|].
      pose proof (sameStore_println _ _ "Migration cancelled."
                    (sameStore_warnDestructive w changes)) as S.
      unfold sameStore in S. tauto. }
  split; [exact G|].
  intros HF.
  destruct (string_dec (GoStrings.ToLower (response env)) "y") as [Y|NY];
    [exact Y|].
  destruct (G NY) as [w' [E [F _]]]. rewrite E in HF. simpl in HF.
  contradiction.
Qed.

Lemma destructive_gate_fail_closed_witness :
  (GoStrings.ToLower (response Samples.quietEnv) <> "y" ->
   exists w',
     GenerateMigrationForApp Samples.quietEnv Samples.bodyDropped "blog"
                             EmptyString = (None, w') /\
     files w' = files Samples.bodyDropped /\
     stateFile w' = stateFile Samples.bodyDropped /\
     dirs w' = dirs Samples.bodyDropped) /\
  (files (snd (GenerateMigrationForApp Samples.quietEnv Samples.bodyDropped
                                       "blog" EmptyString))
   <> files Samples.bodyDropped ->
   GoStrings.ToLower (response Samples.quietEnv) = "y").
Proof.
  eapply (destructive_gate_fail_closed Samples.quietEnv Samples.bodyDropped
            "blog" EmptyString).
  - reflexivity.
  - discriminate.
  - reflexivity.
  - reflexivity.
Defined.

(** C10.  When [apps/<app>/models.go] does not exist, [ScanModels] returns
    the empty list and no error; [ScanModels] returns an error exactly when
    the file is there and cannot be parsed, and the error wraps the
    parser's; and [GenerateMigrationForApp] answers an empty model set with
    the "no models found" error, touching nothing. *)
Theorem missing_models_file_is_empty_set :
  (forall (w : World) (appName : string),
      modelsGo w appName = ModelsNotExist -> ScanModels w appName = inl []) /\
  (forall (w : World) (appName : string) (e : error),
      modelsGo w appName = ModelsUnparsable e ->
      exists err, ScanModels w appName = inr err /\ Unwrap err = Some e) /\
  (forall (w : World) (appName : string) (err : error),
      ScanModels w appName = inr err ->
      exists e, modelsGo w appName = ModelsUnparsable e) /\
  (forall (env : Env) (w : World) (appName name : string),
      ScanModels w appName = inl [] ->
      GenerateMigrationForApp env w appName name
      = (Some (errorString ("no models found in apps/" ++ appName ++
                            "/models.go - create models first")), w)).
Proof.
  repeat split.
  - intros w appName H. unfold ScanModels. rewrite H. reflexivity.
  - intros w appName e H. unfold ScanModels. rewrite H.
    eexists. split; reflexivity.
  - intros w appName err. unfold ScanModels.
    destruct (modelsGo w appName) as [|e|node]; try discriminate.
    intros _. exists e. reflexivity.
  - intros env w appName name H. unfold GenerateMigrationForApp.
    rewrite H. reflexivity.
Qed.

Lemma missing_models_file_is_empty_set_witness :
  ScanModels Samples.noModelsFile "blog" = inl [] /\
  (exists err, ScanModels Samples.brokenModelsFile "blog" = inr err /\
               Unwrap err = Some Samples.boom) /\
  (exists e, modelsGo Samples.brokenModelsFile "blog" = ModelsUnparsable e) /\
  GenerateMigrationForApp Samples.quietEnv Samples.noModelsFile "blog" "init"
  = (Some (errorString ("no models found in apps/" ++ "blog" ++
                        "/models.go - create models first")),
     Samples.noModelsFile).
Proof.
  destruct missing_models_file_is_empty_set as [A [B [C D]]].
  split; [|split; [|split]].
  - apply A. reflexivity.
  - apply B. reflexivity.
  - apply (C Samples.brokenModelsFile "blog"
             (Errorf "failed to parse models.go: " Samples.boom)).
    reflexivity.
  - apply D. reflexivity.
Defined.

Lemma Load_stateFile w w' :
  stateFile w' = stateFile w -> LoadMigrationState w' = LoadMigrationState w.
Proof. unfold LoadMigrationState. intros ->. reflexivity. Qed.

Lemma DetectAllChanges_loads w appName models changes :
  DetectAllChanges w appName models = inl changes ->
  exists state, LoadMigrationState w = inl state.
Proof.
  unfold DetectAllChanges.
  destruct (LoadMigrationState w) as [state|err]; [eauto|discriminate].
Qed.

Lemma Save_files env w state :
  files (snd (SaveMigrationState env w state)) = files w.
Proof.
  unfold SaveMigrationState.
  destruct (mkdirState env); [reflexivity|].
  destruct (writeState env); reflexivity.
Qed.

Lemma Update_files env w appName models migrationID :
  files (snd (UpdateMigrationState env w appName models migrationID)) = files w.
Proof.
  unfold UpdateMigrationState.
  destruct (LoadMigrationState w); [apply Save_files|reflexivity].
Qed.

Lemma Update_failure env w appName models migrationID state e :
  LoadMigrationState w = inl state ->
  saveFailure env = Some e ->
  exists w',
    UpdateMigrationState env w appName models migrationID = (Some e, w') /\
    files w' = files w /\ stateFile w' = stateFile w.
Proof.
  intros HL HF. unfold UpdateMigrationState. rewrite HL.
  unfold SaveMigrationState. unfold saveFailure in HF.
  destruct (mkdirState env) as [e1|].
  - inversion HF; subst. eexists. split; [reflexivity|]. auto.
  - destruct (writeState env) as [e2|]; [|discriminate].
    inversion HF; subst. eexists. split; [reflexivity|]. auto.
Qed.

Lemma writeMigrationFile_writes env w appName name models changes :
  mkdirMigrations env = None ->
  writeMigration env = None ->
  GoMap.get (files (snd (writeMigrationFile env w appName name models changes)))
            (filePathOf appName (now env) name)
  = Some (contentOf env name changes).
Proof.
  intros HM HW. unfold writeMigrationFile. rewrite HM, HW.
  match goal with
  | |- context [UpdateMigrationState ?e ?w0 ?a ?m ?i] =>
      pose proof (Update_files e w0 a m i) as U;
      destruct (UpdateMigrationState e w0 a m i) as [[err|] w1]
  end; simpl in U |- *; rewrite U; simpl; apply MapFacts.get_set_same.
Qed.

Lemma writeMigrationFile_save_failure env w appName name models changes state e :
  LoadMigrationState w = inl state ->
  mkdirMigrations env = None ->
  writeMigration env = None ->
  saveFailure env = Some e ->
  exists w',
    writeMigrationFile env w appName name models changes
    = (Some (Errorf "failed to update migration state: " e), w') /\
    stateFile w' = stateFile w.
Proof.
  intros HL HM HW HF. unfold writeMigrationFile. rewrite HM, HW.
  match goal with
  | |- context [UpdateMigrationState ?e0 ?w0 ?a ?m ?i] =>
      destruct (Update_failure e0 w0 a m i state e) as [w1 [E [_ S]]];
      [ rewrite <- HL; apply Load_stateFile; reflexivity | exact HF | ];
      rewrite E
  end.
  eexists. split; [reflexivity|]. rewrite S. reflexivity.
Qed.

(** C1 (as the code behaves).  In every run that reaches the write of the
    migration file, where that write succeeds and saving the state fails
    with [e], [GenerateMigrationForApp] returns an error wrapping [e], not
    nil; the migration file is on disk and the state file is as before. *)
Theorem state_write_failure_is_returned (env : Env) (w : World)
        (appName name : string) (models : list ModelInfo)
        (changes : MigrationChanges) (e : error) :
  ScanModels w appName = inl models ->
  models <> [] ->
  DetectAllChanges w appName models = inl changes ->
  HasChanges changes = true ->
  HasDestructiveChanges changes = false
    \/ GoStrings.ToLower (response env) = "y" ->
  mkdirMigrations env = None ->
  writeMigration env = None ->
  saveFailure env = Some e ->
  fst (GenerateMigrationForApp env w appName name)
  = Some (Errorf "failed to update migration state: " e) /\
  GoMap.get (files (snd (GenerateMigrationForApp env w appName name)))
            (filePathOf appName (now env) name)
  = Some (contentOf env name changes) /\
  stateFile (snd (GenerateMigrationForApp env w appName name)) = stateFile w.
Proof.
  intros HS HN HD HC HG HM HW HF.
  destruct (DetectAllChanges_loads _ _ _ _ HD) as [state HL].
  unfold GenerateMigrationForApp. rewrite HS.
  destruct models as [|m0 ms]; [contradiction|]. simpl List.length.
  simpl Nat.eqb. cbv iota. rewrite HD, HC. simpl negb. cbv iota.
  assert (K : forall w0, stateFile w0 = stateFile w ->
            fst (writeMigrationFile env w0 appName name (m0 :: ms) changes)
            = Some (Errorf "failed to update migration state: " e) /\
            GoMap.get
              (files (snd (writeMigrationFile env w0 appName name (m0 :: ms)
                                              changes)))
              (filePathOf appName (now env) name)
            = Some (contentOf env name changes) /\
            stateFile (snd (writeMigrationFile env w0 appName name (m0 :: ms)
                                               changes)) = stateFile w).
  { intros w0 S0.
    destruct (writeMigrationFile_save_failure env w0 appName name (m0 :: ms)
                changes state e) as [w' [E S]]; auto.
    - rewrite <- HL. apply Load_stateFile. exact S0.
    - split; [rewrite E; reflexivity|]. split.
      + apply writeMigrationFile_writes; assumption.
      + rewrite E. simpl. congruence. }
  destruct (HasDestructiveChanges changes) eqn:X.
  - destruct HG as [HG|HG]; [discriminate|]. rewrite HG. simpl negb. cbv iota.
    apply K. apply (sameStore_warnDestructive w changes).
  - apply K. reflexivity.
Qed.

Lemma state_write_failure_is_returned_witness :
  fst (GenerateMigrationForApp Samples.stateWriteFails Samples.firstRun
                               "blog" "Add Posts")
  = Some (Errorf "failed to update migration state: "
                 (Errorf "failed to write state file: " Samples.boom)) /\
  GoMap.get
    (files (snd (GenerateMigrationForApp Samples.stateWriteFails
                                         Samples.firstRun "blog" "Add Posts")))
    (filePathOf "blog" (now Samples.stateWriteFails) "Add Posts")
  = Some (contentOf Samples.stateWriteFails "Add Posts"
            (mkMigrationChanges
               [mkModelInfo "Post"
                  [mkFieldInfo "Title" "string" EmptyString false;
                   mkFieldInfo "Body" "string" EmptyString false]
                  "blog" "apps/blog/models.go"] [] [] [] [])) /\
  stateFile (snd (GenerateMigrationForApp Samples.stateWriteFails
                                          Samples.firstRun "blog" "Add Posts"))
  = stateFile Samples.firstRun.
Proof.
  eapply (state_write_failure_is_returned Samples.stateWriteFails
            Samples.firstRun "blog" "Add Posts").
  - reflexivity.
  - discriminate.
  - reflexivity.
  - reflexivity.
  - left. reflexivity.
  - reflexivity.
  - reflexivity.
  - reflexivity.
Defined.

(** C9.  The generated Migrate and Rollback bodies do not depend on the
    modified fields: replacing [ModifiedFields] by the empty map leaves both
    unchanged.  A change set holding modified fields only
    counts as a change, is not destructive, and generates the two bodies
    "return nil"; when the directory and the file can be written, the
    migration file with these bodies is created. *)
Theorem modified_fields_generate_no_code :
  (forall (c : MigrationChanges),
      GenerateMigrationCodeFromChanges (withModifiedFields c [])
      = GenerateMigrationCodeFromChanges c /\
      GenerateRollbackCodeFromChanges (withModifiedFields c [])
      = GenerateRollbackCodeFromChanges c) /\
  (forall (m : GoMap.t (list FieldInfo)),
      m <> [] ->
      GenerateMigrationCodeFromChanges (mkMigrationChanges [] [] [] [] m)
      = (tab ++ tab ++ "return nil")%string /\
      GenerateRollbackCodeFromChanges (mkMigrationChanges [] [] [] [] m)
      = (tab ++ tab ++ "return nil")%string /\
      HasChanges (mkMigrationChanges [] [] [] [] m) = true /\
      HasDestructiveChanges (mkMigrationChanges [] [] [] [] m) = false) /\
  (forall (env : Env) (w : World) (appName name : string)
          (models : list ModelInfo) (m : GoMap.t (list FieldInfo)),
      ScanModels w appName = inl models ->
      models <> [] ->
      DetectAllChanges w appName models
      = inl (mkMigrationChanges [] [] [] [] m) ->
      m <> [] ->
      mkdirMigrations env = None ->
      writeMigration env = None ->
      GoMap.get (files (snd (GenerateMigrationForApp env w appName name)))
                (filePathOf appName (now env) name)
      = Some (template EmptyString (migrationIDOf (now env) name)
                       (tab ++ tab ++ "return nil")
                       (tab ++ tab ++ "return nil"))).
Proof.
  split; [|split].
  - intros c. split; reflexivity.
  - intros m Hm. destruct m as [|entry m]; [contradiction|].
    repeat split; reflexivity.
  - intros env w appName name models m HS HN HD Hm HM HW.
    unfold GenerateMigrationForApp. rewrite HS.
    destruct models as [|m0 ms]; [contradiction|]. simpl List.length.
    simpl Nat.eqb. cbv iota. rewrite HD.
    destruct m as [|entry m]; [contradiction|].
    change (HasChanges (mkMigrationChanges [] [] [] [] (entry :: m)))
      with true.
    change (HasDestructiveChanges (mkMigrationChanges [] [] [] [] (entry :: m)))
      with false.
    simpl negb. cbv iota.
    rewrite writeMigrationFile_writes by assumption. reflexivity.
Qed.

Lemma modified_fields_generate_no_code_witness :
  (GenerateMigrationCodeFromChanges (mkMigrationChanges [] [] [] []
      [("Post", [mkFieldInfo "Body" "text" EmptyString false])])
   = (tab ++ tab ++ "return nil")%string /\
   GenerateRollbackCodeFromChanges (mkMigrationChanges [] [] [] []
      [("Post", [mkFieldInfo "Body" "text" EmptyString false])])
   = (tab ++ tab ++ "return nil")%string /\
   HasChanges (mkMigrationChanges [] [] [] []
      [("Post", [mkFieldInfo "Body" "text" EmptyString false])]) = true /\
   HasDestructiveChanges (mkMigrationChanges [] [] [] []
      [("Post", [mkFieldInfo "Body" "text" EmptyString false])]) = false) /\
  GoMap.get
    (files (snd (GenerateMigrationForApp Samples.quietEnv Samples.bodyRetyped
                                         "blog" EmptyString)))
    (filePathOf "blog" (now Samples.quietEnv) EmptyString)
  = Some (template EmptyString (migrationIDOf (now Samples.quietEnv) EmptyString)
                   (tab ++ tab ++ "return nil") (tab ++ tab ++ "return nil")).
Proof.
  destruct modified_fields_generate_no_code as [_ [B C]].
  split.
  - apply B. discriminate.
  - eapply (C Samples.quietEnv Samples.bodyRetyped "blog" EmptyString).
    + reflexivity.
    + discriminate.
    + reflexivity.
    + discriminate.
    + reflexivity.
    + reflexivity.
Defined.

End CommandFacts.

(** ** Change detection *)

Module ChangeFacts.

Import Cmd MapFacts.

Ltac by_key name n :=
  destruct (String.eqb name n); simpl;
  rewrite ?app_nil_r, <- ?app_assoc; auto.

Lemma fold_checkCurrentField sfm name fields : forall c n,
  GoMap.slice (NewFields (fold_left (checkCurrentField sfm name) fields c)) n
  = GoMap.slice (NewFields c) n ++
    (if String.eqb name n
     then List.filter (fun f => negb (GoMap.has sfm (fi_Name f))) fields
     else []) /\
  GoMap.slice (ModifiedFields (fold_left (checkCurrentField sfm name) fields c)) n
  = GoMap.slice (ModifiedFields c) n ++
    (if String.eqb name n
     then List.filter
            (fun f => match GoMap.get sfm (fi_Name f) with
                      | Some storedField => fieldDiffers storedField f
                      | None => false
                      end) fields
     else []) /\
  DeletedFields (fold_left (checkCurrentField sfm name) fields c)
  = DeletedFields c.
Proof.
  induction fields as [|a fields IH]; intros c n; simpl.
  - repeat split; by_key name n.
  - destruct (IH (checkCurrentField sfm name c a) n) as [H1 [H2 H3]].
    rewrite H1, H2, H3. clear IH H1 H2 H3.
    unfold checkCurrentField, GoMap.has.
    destruct (GoMap.get sfm (fi_Name a)) as [sf|]; simpl.
    + destruct (fieldDiffers sf a); simpl; repeat split;
        rewrite ?slice_append; by_key name n.
    + repeat split; rewrite ?slice_append; by_key name n.
Qed.

Lemma fold_checkStoredField cfm name fields : forall c n,
  GoMap.slice (DeletedFields (fold_left (checkStoredField cfm name) fields c)) n
  = GoMap.slice (DeletedFields c) n ++
    (if String.eqb name n
     then List.map infoOfState
            (List.filter (fun f => negb (GoMap.has cfm (fs_Name f))) fields)
     else []) /\
  NewFields (fold_left (checkStoredField cfm name) fields c) = NewFields c /\
  ModifiedFields (fold_left (checkStoredField cfm name) fields c)
  = ModifiedFields c.
Proof.
  induction fields as [|a fields IH]; intros c n; simpl.
  - repeat split; by_key name n.
  - destruct (IH (checkStoredField cfm name c a) n) as [H1 [H2 H3]].
    rewrite H1, H2, H3. clear IH H1 H2 H3.
    unfold checkStoredField.
    destruct (GoMap.has cfm (fs_Name a)); simpl; repeat split;
      rewrite ?slice_append; by_key name n.
Qed.

Lemma checkModel_slices sm c current n :
  GoMap.slice (NewFields (checkModel sm c current)) n
  = GoMap.slice (NewFields c) n ++ contribution newFieldsOf sm n current /\
  GoMap.slice (ModifiedFields (checkModel sm c current)) n
  = GoMap.slice (ModifiedFields c) n ++ contribution modifiedFieldsOf sm n current /\
  GoMap.slice (DeletedFields (checkModel sm c current)) n
  = GoMap.slice (DeletedFields c) n ++ contribution deletedFieldsOf sm n current.
Proof.
  unfold checkModel, contribution.
  destruct (GoMap.get sm (mi_Name current)) as [stored|].
  - cbv zeta.
    destruct (fold_checkStoredField (currentFieldMapOf (mi_Fields current))
                (mi_Name current) (ms_Fields stored)
                (fold_left (checkCurrentField (storedFieldMapOf (ms_Fields stored))
                                              (mi_Name current))
                           (mi_Fields current) c) n) as [D [N M]].
    destruct (fold_checkCurrentField (storedFieldMapOf (ms_Fields stored))
                (mi_Name current) (mi_Fields current) c n) as [N' [M' D']].
    rewrite D, N, M, N', M', D'. repeat split.
  - simpl. repeat split; by_key (mi_Name current) n.
Qed.

Lemma fold_checkModel sm models : forall c n,
  GoMap.slice (NewFields (fold_left (checkModel sm) models c)) n
  = GoMap.slice (NewFields c) n
    ++ List.flat_map (contribution newFieldsOf sm n) models /\
  GoMap.slice (ModifiedFields (fold_left (checkModel sm) models c)) n
  = GoMap.slice (ModifiedFields c) n
    ++ List.flat_map (contribution modifiedFieldsOf sm n) models /\
  GoMap.slice (DeletedFields (fold_left (checkModel sm) models c)) n
  = GoMap.slice (DeletedFields c) n
    ++ List.flat_map (contribution deletedFieldsOf sm n) models.
Proof.
  induction models as [|m models IH]; intros c n; simpl.
  - rewrite !app_nil_r. auto.
  - destruct (IH (checkModel sm c m) n) as [H1 [H2 H3]].
    destruct (checkModel_slices sm c m n) as [K1 [K2 K3]].
    rewrite H1, H2, H3, K1, K2, K3, <- !app_assoc. auto.
Qed.

Lemma fold_checkStoredModel cmm entries : forall c,
  NewFields (fold_left (checkStoredModel cmm) entries c) = NewFields c /\
  ModifiedFields (fold_left (checkStoredModel cmm) entries c) = ModifiedFields c /\
  DeletedFields (fold_left (checkStoredModel cmm) entries c) = DeletedFields c.
Proof.
  induction entries as [|e entries IH]; intros c; simpl; [auto|].
  destruct (IH (checkStoredModel cmm c e)) as [H1 [H2 H3]].
  rewrite H1, H2, H3. unfold checkStoredModel.
  destruct (GoMap.has cmm (fst e)); simpl; auto.
Qed.

(** With a persisted state for the application, each of the three field maps
    holds, under a model name, what the current models of that name add. *)
Lemma DetectAllChanges_fields w appName models state app :
  LoadMigrationState w = inl state ->
  GoMap.get (Apps state) appName = Some app ->
  exists changes,
    DetectAllChanges w appName models = inl changes /\
    forall n,
      GoMap.slice (NewFields changes) n
      = List.flat_map (contribution newFieldsOf (Models app) n) models /\
      GoMap.slice (ModifiedFields changes) n
      = List.flat_map (contribution modifiedFieldsOf (Models app) n) models /\
      GoMap.slice (DeletedFields changes) n
      = List.flat_map (contribution deletedFieldsOf (Models app) n) models.
Proof.
  intros HL HA. unfold DetectAllChanges. rewrite HL, HA.
  eexists. split; [reflexivity|]. intros n.
  destruct (fold_checkStoredModel (currentModelMapOf models) (Models app)
              (fold_left (checkModel (Models app)) models noChanges))
    as [H1 [H2 H3]].
  rewrite H1, H2, H3.
  destruct (fold_checkModel (Models app) models noChanges n) as [K1 [K2 K3]].
  rewrite K1, K2, K3. auto.
Qed.

Lemma has_storedFieldMapOf fields k :
  GoMap.has (storedFieldMapOf fields) k = GoMap.mem k (List.map fs_Name fields).
Proof.
  unfold storedFieldMapOf. rewrite (has_fold_set fs_Name). apply orb_false_r.
Qed.

Lemma has_currentFieldMapOf fields k :
  GoMap.has (currentFieldMapOf fields) k = GoMap.mem k (fieldNames fields).
Proof.
  unfold currentFieldMapOf. rewrite (has_fold_set fi_Name). apply orb_false_r.
Qed.

Lemma filter_none {A} (p : A -> bool) (l : list A) :
  (forall x, In x l -> p x = false) -> List.filter p l = [].
Proof.
  induction l as [|a l IH]; intros H; simpl; [reflexivity|].
  rewrite (H a) by (left; reflexivity). apply IH. intros x I. apply H.
  right. exact I.
Qed.

Lemma filter_one {A} (p : A -> bool) (l1 l2 : list A) (x : A) :
  (forall y, In y l1 -> p y = false) -> p x = true ->
  (forall y, In y l2 -> p y = false) ->
  List.filter p (l1 ++ x :: l2) = [x].
Proof.
  intros H1 Hx H2. rewrite filter_app. simpl.
  rewrite Hx, (filter_none p l1 H1), (filter_none p l2 H2). reflexivity.
Qed.

Lemma not_mem k keys : ~ In k keys -> GoMap.mem k keys = false.
Proof.
  intros N. destruct (GoMap.mem k keys) eqn:E; [|reflexivity].
  apply mem_In in E. contradiction.
Qed.

Lemma flat_map_other (diff : ModelState -> ModelInfo -> list FieldInfo)
      sm n models :
  ~ In n (List.map mi_Name models) ->
  List.flat_map (contribution diff sm n) models = [].
Proof.
  induction models as [|m models IH]; intros N; simpl; [reflexivity|].
  simpl in N. rewrite IH by tauto. unfold contribution.
  destruct (String.eqb_spec (mi_Name m) n); [tauto|reflexivity].
Qed.

Lemma stateOfField_name l :
  List.map fs_Name (List.map stateOfField l) = fieldNames l.
Proof. unfold fieldNames. rewrite map_map. reflexivity. Qed.

(** The rename half of C5. *)
Lemma rename_fields w appName state app stored before current after
      f f' cpre cpost :
  LoadMigrationState w = inl state ->
  GoMap.get (Apps state) appName = Some app ->
  GoMap.get (Models app) (mi_Name current) = Some stored ->
  ms_Fields stored
  = List.map stateOfField cpre ++ f :: List.map stateOfField cpost ->
  mi_Fields current = cpre ++ f' :: cpost ->
  fi_Name f' <> fs_Name f ->
  NoDup (List.map fs_Name (ms_Fields stored)) ->
  ~ In (fi_Name f') (fieldNames (cpre ++ cpost)) ->
  ~ In (mi_Name current) (List.map mi_Name (before ++ after)) ->
  exists changes,
    DetectAllChanges w appName (before ++ current :: after) = inl changes /\
    GoMap.slice (NewFields changes) (mi_Name current) = [f'] /\
    GoMap.slice (DeletedFields changes) (mi_Name current) = [infoOfState f] /\
    GoMap.slice (ModifiedFields changes) (mi_Name current) = [].
Proof.
  intros HL HA HG HS HC Hne HD Hfresh Hother.
  destruct (DetectAllChanges_fields w appName (before ++ current :: after)
              state app HL HA) as [changes [E F]].
  exists changes. split; [exact E|].
  destruct (F (mi_Name current)) as [FN [FM FD]]. clear F.
  rewrite map_app, in_app_iff in Hother.
  assert (One : forall diff,
             List.flat_map (contribution diff (Models app) (mi_Name current))
                           (before ++ current :: after)
             = diff stored current).
  { intros diff. rewrite flat_map_app. simpl.
    rewrite !flat_map_other by tauto. unfold contribution.
    rewrite String.eqb_refl, HG, app_nil_r. reflexivity. }
  rewrite One in FN, FM, FD. rewrite FN, FM, FD. clear One FN FM FD E.
  assert (Names : List.map fs_Name (ms_Fields stored)
                  = fieldNames cpre ++ fs_Name f :: fieldNames cpost).
  { rewrite HS, map_app. simpl. rewrite !stateOfField_name. reflexivity. }
  assert (CNames : fieldNames (mi_Fields current)
                   = fieldNames cpre ++ fi_Name f' :: fieldNames cpost).
  { rewrite HC. unfold fieldNames. rewrite map_app. reflexivity. }
  unfold fieldNames in Hfresh. rewrite map_app, in_app_iff in Hfresh.
  fold (fieldNames cpre) in Hfresh. fold (fieldNames cpost) in Hfresh.
  assert (Old : forall g, In g cpre \/ In g cpost ->
                  In (fi_Name g) (List.map fs_Name (ms_Fields stored)) /\
                  In (fi_Name g) (fieldNames (mi_Fields current)) /\
                  GoMap.get (storedFieldMapOf (ms_Fields stored)) (fi_Name g)
                  = Some (stateOfField g)).
  { intros g I.
    assert (In (fi_Name g) (fieldNames cpre) \/ In (fi_Name g) (fieldNames cpost))
      as J by (unfold fieldNames; destruct I as [I|I]; [left|right];
               apply in_map; exact I).
    split; [|split].
    - rewrite Names, in_app_iff. simpl. tauto.
    - rewrite CNames, in_app_iff. simpl. tauto.
    - unfold storedFieldMapOf.
      apply (get_fold_set_in fs_Name (ms_Fields stored) [] (stateOfField g) HD).
      rewrite HS, in_app_iff. simpl.
      destruct I as [I|I]; [left|right; right]; apply in_map; exact I. }
  assert (Fresh : ~ In (fi_Name f') (List.map fs_Name (ms_Fields stored))).
  { rewrite Names, in_app_iff. simpl. intros [I|[I|I]]; try tauto.
    apply Hne. symmetry. exact I. }
  split; [|split].
  - unfold newFieldsOf. rewrite HC. apply filter_one.
    + intros g I. rewrite has_storedFieldMapOf.
      destruct (Old g (or_introl I)) as [I1 _].
      apply mem_In in I1. rewrite I1. reflexivity.
    + rewrite has_storedFieldMapOf, not_mem by exact Fresh. reflexivity.
    + intros g I. rewrite has_storedFieldMapOf.
      destruct (Old g (or_intror I)) as [I1 _].
      apply mem_In in I1. rewrite I1. reflexivity.
  - unfold deletedFieldsOf. rewrite HS.
    rewrite (filter_one _ (List.map stateOfField cpre) (List.map stateOfField cpost) f);
      [reflexivity| | |].
    + intros sf I. apply in_map_iff in I. destruct I as [g [Eg I]]. subst sf.
      rewrite has_currentFieldMapOf.
      destruct (Old g (or_introl I)) as [_ [I2 _]].
      apply mem_In in I2. simpl. rewrite I2. reflexivity.
    + rewrite has_currentFieldMapOf, not_mem; [reflexivity|].
      rewrite CNames, in_app_iff. simpl.
      rewrite Names in HD. apply NoDup_remove_2 in HD.
      rewrite in_app_iff in HD. intros [I|[I|I]]; tauto.
    + intros sf I. apply in_map_iff in I. destruct I as [g [Eg I]]. subst sf.
      rewrite has_currentFieldMapOf.
      destruct (Old g (or_intror I)) as [_ [I2 _]].
      apply mem_In in I2. simpl. rewrite I2. reflexivity.
  - unfold modifiedFieldsOf. apply filter_none. intros g I.
    rewrite HC, in_app_iff in I. simpl in I.
    assert (Same : forall g0, fieldDiffers (stateOfField g0) g0 = false).
    { intros g0. unfold fieldDiffers, stateOfField. simpl.
      rewrite !String.eqb_refl. reflexivity. }
    destruct I as [I|[I|I]].
    + destruct (Old g (or_introl I)) as [_ [_ G]]. rewrite G. apply Same.
    + subst g. pose proof (has_storedFieldMapOf (ms_Fields stored) (fi_Name f')) as H.
      rewrite not_mem in H by exact Fresh. unfold GoMap.has in H.
      destruct (GoMap.get (storedFieldMapOf (ms_Fields stored)) (fi_Name f'));
        [discriminate|reflexivity].
    + destruct (Old g (or_intror I)) as [_ [_ G]]. rewrite G. apply Same.
Qed.

Lemma single_model sm n models :
  NoDup (List.map mi_Name models) ->
  (forall diff, List.flat_map (contribution diff sm n) models = []) \/
  (exists current stored,
      forall diff, List.flat_map (contribution diff sm n) models
                   = diff stored current).
Proof.
  induction models as [|m models IH]; intros D; simpl; [left; reflexivity|].
  simpl in D. inversion D as [|? ? N D']; subst.
  unfold contribution at 1 3. destruct (String.eqb_spec (mi_Name m) n) as [E|E].
  - subst n. destruct (GoMap.get sm (mi_Name m)) as [stored|].
    + right. exists m, stored. intros diff.
      rewrite flat_map_other by exact N. apply app_nil_r.
    + left. intros diff. rewrite flat_map_other by exact N. reflexivity.
  - destruct (IH D') as [H|[current [stored H]]].
    + left. intros diff. simpl. apply H.
    + right. exists current, stored. intros diff. simpl. apply H.
Qed.

Lemma new_name stored current x :
  In x (fieldNames (newFieldsOf stored current)) ->
  GoMap.has (storedFieldMapOf (ms_Fields stored)) x = false.
Proof.
  unfold fieldNames, newFieldsOf. intros I.
  apply in_map_iff in I. destruct I as [f [E I]]. subst x.
  apply filter_In in I. destruct I as [_ I].
  apply negb_true_iff in I. exact I.
Qed.

Lemma modified_name stored current x :
  In x (fieldNames (modifiedFieldsOf stored current)) ->
  GoMap.has (storedFieldMapOf (ms_Fields stored)) x = true /\
  GoMap.has (currentFieldMapOf (mi_Fields current)) x = true.
Proof.
  unfold fieldNames at 1, modifiedFieldsOf. intros I.
  apply in_map_iff in I. destruct I as [f [E I]]. subst x.
  apply filter_In in I. destruct I as [I G]. split.
  - unfold GoMap.has.
    destruct (GoMap.get (storedFieldMapOf (ms_Fields stored)) (fi_Name f));
      [reflexivity|discriminate].
  - rewrite has_currentFieldMapOf. apply mem_In. unfold fieldNames.
    apply in_map. exact I.
Qed.

Lemma deleted_name stored current x :
  In x (fieldNames (deletedFieldsOf stored current)) ->
  GoMap.has (storedFieldMapOf (ms_Fields stored)) x = true /\
  GoMap.has (currentFieldMapOf (mi_Fields current)) x = false.
Proof.
  unfold fieldNames at 1, deletedFieldsOf. intros I.
  apply in_map_iff in I. destruct I as [g [E I]]. subst x.
  apply in_map_iff in I. destruct I as [sf [E I]]. subst g. simpl.
  apply filter_In in I. destruct I as [I G]. split.
  - rewrite has_storedFieldMapOf. apply mem_In. apply in_map. exact I.
  - apply negb_true_iff in G. exact G.
Qed.

Lemma categories_exclusive w appName models changes :
  NoDup (List.map mi_Name models) ->
  DetectAllChanges w appName models = inl changes ->
  forall n x,
    ~ (isNew changes n x /\ isDeleted changes n x) /\
    ~ (isNew changes n x /\ isModified changes n x) /\
    ~ (isDeleted changes n x /\ isModified changes n x).
Proof.
  intros D H n x. unfold isNew, isDeleted, isModified.
  destruct (LoadMigrationState w) as [state|err] eqn:HL;
    [|unfold DetectAllChanges in H; rewrite HL in H; discriminate].
  destruct (GoMap.get (Apps state) appName) as [app|] eqn:HA.
  - destruct (DetectAllChanges_fields w appName models state app HL HA)
      as [changes' [E F]].
    rewrite E in H. inversion H; subst changes'. clear H E.
    destruct (F n) as [FN [FM FD]]. rewrite FN, FM, FD. clear F FN FM FD.
    destruct (single_model (Models app) n models D)
      as [Z|[current [stored Z]]]; rewrite !Z.
    + simpl. tauto.
    + repeat split; intros [A B].
      * apply new_name in A. apply deleted_name in B. destruct B. congruence.
      * apply new_name in A. apply modified_name in B. destruct B. congruence.
      * apply deleted_name in A. apply modified_name in B.
        destruct A, B. congruence.
  - unfold DetectAllChanges in H. rewrite HL, HA in H.
    inversion H; subst changes. simpl. tauto.
Qed.

(** C5, as stated, fails: when two current models share a name, one field
    name can be listed as modified and as deleted. *)
Lemma shadowed_model_field_in_two_categories :
  exists models changes,
    ScanModels Samples.postTwice "blog" = inl models /\
    DetectAllChanges Samples.postTwice "blog" models = inl changes /\
    isModified changes "Post" "Title" /\ isDeleted changes "Post" "Title".
Proof.
  eexists. eexists. split; [reflexivity|]. split; [reflexivity|].
  unfold isModified, isDeleted. simpl. tauto.
Qed.

(** A renamed field is not listed as deleted while another stored field
    has its old name: of two blank fields the second is renamed to [Y], and
    the change set holds [Y] as new and no deleted field. *)
Lemma renamed_blank_field_is_not_deleted :
  exists models changes,
    ScanModels Samples.blankRenamed "blog" = inl models /\
    DetectAllChanges Samples.blankRenamed "blog" models = inl changes /\
    fieldNames (GoMap.slice (NewFields changes) "Pad") = ["Y"] /\
    GoMap.slice (DeletedFields changes) "Pad" = [].
Proof. eexists. eexists. repeat split. Qed.

(** C5, amended.  Field diffing is keyed by name.  When the fields of a
    stored model have pairwise distinct names, a current model differs from
    it in that one field has another name (a name no field of the model had
    or has otherwise), and no other current model has the model's name,
    [DetectAllChanges] lists under that model exactly the renamed field as
    new, exactly the old field as deleted, and nothing as modified.  When
    the names of the current models are pairwise distinct, no field name is
    in more than one of the new, deleted and modified lists of a model. *)
Theorem field_diff_is_name_keyed :
  (forall (w : World) (appName : string) (state : MigrationState)
          (app : AppMigrationState) (stored : ModelState)
          (before : list ModelInfo) (current : ModelInfo)
          (after : list ModelInfo) (f : FieldState) (f' : FieldInfo)
          (cpre cpost : list FieldInfo),
      LoadMigrationState w = inl state ->
      GoMap.get (Apps state) appName = Some app ->
      GoMap.get (Models app) (mi_Name current) = Some stored ->
      ms_Fields stored
      = List.map stateOfField cpre ++ f :: List.map stateOfField cpost ->
      mi_Fields current = cpre ++ f' :: cpost ->
      fi_Name f' <> fs_Name f ->
      NoDup (List.map fs_Name (ms_Fields stored)) ->
      ~ In (fi_Name f') (fieldNames (cpre ++ cpost)) ->
      ~ In (mi_Name current) (List.map mi_Name (before ++ after)) ->
      exists changes,
        DetectAllChanges w appName (before ++ current :: after) = inl changes /\
        GoMap.slice (NewFields changes) (mi_Name current) = [f'] /\
        GoMap.slice (DeletedFields changes) (mi_Name current) = [infoOfState f] /\
        GoMap.slice (ModifiedFields changes) (mi_Name current) = []) /\
  (forall (w : World) (appName : string) (models : list ModelInfo)
          (changes : MigrationChanges),
      NoDup (List.map mi_Name models) ->
      DetectAllChanges w appName models = inl changes ->
      forall n x,
        ~ (isNew changes n x /\ isDeleted changes n x) /\
        ~ (isNew changes n x /\ isModified changes n x) /\
        ~ (isDeleted changes n x /\ isModified changes n x)).
Proof.
  split.
  - intros. eapply rename_fields; eassumption.
  - intros. eapply categories_exclusive; eassumption.
Qed.

Lemma field_diff_is_name_keyed_witness :
  (exists changes,
      DetectAllChanges Samples.bodyRenamed "blog" ([] ++ Samples.postRenamed :: [])
      = inl changes /\
      GoMap.slice (NewFields changes) "Post"
      = [mkFieldInfo "Content" "string" EmptyString false] /\
      GoMap.slice (DeletedFields changes) "Post"
      = [infoOfState (mkFieldState "Body" "string" EmptyString)] /\
      GoMap.slice (ModifiedFields changes) "Post" = []) /\
  (forall n x,
      ~ (isNew (mkMigrationChanges [] [] [] []
                  [("Post", [mkFieldInfo "Body" "text" EmptyString false])]) n x /\
         isDeleted (mkMigrationChanges [] [] [] []
                  [("Post", [mkFieldInfo "Body" "text" EmptyString false])]) n x) /\
      ~ (isNew (mkMigrationChanges [] [] [] []
                  [("Post", [mkFieldInfo "Body" "text" EmptyString false])]) n x /\
         isModified (mkMigrationChanges [] [] [] []
                  [("Post", [mkFieldInfo "Body" "text" EmptyString false])]) n x) /\
      ~ (isDeleted (mkMigrationChanges [] [] [] []
                  [("Post", [mkFieldInfo "Body" "text" EmptyString false])]) n x /\
         isModified (mkMigrationChanges [] [] [] []
                  [("Post", [mkFieldInfo "Body" "text" EmptyString false])]) n x)).
Proof.
  destruct field_diff_is_name_keyed as [R X]. split.
  - apply (R Samples.bodyRenamed "blog" Samples.storedState
             (mkAppMigrationState EmptyString "20240101000000"
                [("Post",
                  mkModelState "Post" EmptyString
                    [mkFieldState "Title" "string" EmptyString;
                     mkFieldState "Body" "string" EmptyString])])
             (mkModelState "Post" EmptyString
                [mkFieldState "Title" "string" EmptyString;
                 mkFieldState "Body" "string" EmptyString])
             [] Samples.postRenamed []
             (mkFieldState "Body" "string" EmptyString)
             (mkFieldInfo "Content" "string" EmptyString false)
             [mkFieldInfo "Title" "string" EmptyString false] []).
    + reflexivity.
    + reflexivity.
    + reflexivity.
    + reflexivity.
    + reflexivity.
    + discriminate.
    + simpl. repeat constructor; simpl; intuition discriminate.
    + simpl. intuition discriminate.
    + simpl. tauto.
  - apply (X Samples.bodyRetyped "blog"
             [mkModelInfo "Post"
                [mkFieldInfo "Title" "string" EmptyString false;
                 mkFieldInfo "Body" "text" EmptyString false]
                "blog" "apps/blog/models.go"]).
    + simpl. repeat constructor; simpl; tauto.
    + reflexivity.
Defined.

End ChangeFacts.

(** ** The content hash *)

Module HashFacts.

Import Cmd.

(** Go's order on strings is a strict total order. *)

Lemma less_irrefl (s : string) : GoStrings.less s s = false.
Proof.
  unfold GoStrings.less, String.ltb.
  rewrite IdentifierFacts.compare_refl. reflexivity.
Qed.

Lemma compare_lt_trans (a b c : string) :
  String.compare a b = Lt -> String.compare b c = Lt -> String.compare a c = Lt.
Proof.
  revert b c. induction a as [|x a IH]; intros [|y b] [|z c]; simpl;
    try discriminate; auto.
  destruct (Ascii.compare x y) eqn:E1; try discriminate;
    destruct (Ascii.compare y z) eqn:E2; try discriminate; intros H1 H2.
  - apply Ascii.compare_eq_iff in E1. subst y. rewrite E2. eauto.
  - apply Ascii.compare_eq_iff in E1. subst y. rewrite E2. reflexivity.
  - apply Ascii.compare_eq_iff in E2. subst z. rewrite E1. reflexivity.
  - unfold Ascii.compare in *. rewrite N.compare_lt_iff in *.
    assert (L : (N_of_ascii x < N_of_ascii z)%N) by (eapply N.lt_trans; eauto).
    apply N.compare_lt_iff in L. rewrite L. reflexivity.
Qed.

Lemma less_trans (a b c : string) :
  GoStrings.less a b = true -> GoStrings.less b c = true ->
  GoStrings.less a c = true.
Proof.
  unfold GoStrings.less, String.ltb. intros H1 H2.
  destruct (String.compare a b) eqn:E1; try discriminate.
  destruct (String.compare b c) eqn:E2; try discriminate.
  rewrite (compare_lt_trans a b c E1 E2). reflexivity.
Qed.

Lemma less_total (a b : string) :
  a <> b -> GoStrings.less a b = false -> GoStrings.less b a = true.
Proof.
  unfold GoStrings.less, String.ltb. intros N H.
  rewrite String.compare_antisym.
  destruct (String.compare a b) eqn:E; simpl; try discriminate; [|reflexivity].
  apply String.compare_eq_iff in E. contradiction.
Qed.

Section Sorting.

Context {A : Type} (key : A -> string).

Let lt (a b : A) : bool := GoStrings.less (key a) (key b).

(** [b] comes before [a] in the sorted prefix held last element first. *)
Let above (a b : A) : Prop := GoStrings.less (key b) (key a) = true.

Lemma insertBack_perm (x : A) (rp : list A) :
  Permutation (insertBack lt x rp) (x :: rp).
Proof.
  induction rp as [|y rp IH]; simpl; [reflexivity|].
  destruct (lt x y); [|reflexivity].
  rewrite IH. apply perm_swap.
Qed.

Lemma fold_insertBack_perm (l : list A) : forall rp,
  Permutation (fold_left (fun rp x => insertBack lt x rp) l rp) (rev l ++ rp).
Proof.
  induction l as [|x l IH]; intros rp; simpl; [reflexivity|].
  rewrite IH, insertBack_perm, <- app_assoc. simpl.
  apply Permutation_app_head. reflexivity.
Qed.

Lemma passes_perm (l : list A) : Permutation (insertionPasses lt l) l.
Proof.
  unfold insertionPasses. rewrite fold_insertBack_perm, app_nil_r.
  symmetry. apply Permutation_rev.
Qed.

Lemma insertBack_sorted (x : A) (rp : list A) :
  ~ In (key x) (List.map key rp) ->
  StronglySorted above rp ->
  StronglySorted above (insertBack lt x rp).
Proof.
  induction rp as [|y rp IH]; intros N S; simpl.
  - constructor; constructor.
  - simpl in N. inversion S as [|? ? S' F]; subst.
    destruct (lt x y) eqn:E.
    + constructor; [apply IH; tauto|].
      apply Forall_forall. intros z I.
      apply (Permutation_in _ (insertBack_perm x rp)) in I.
      destruct I as [I|I]; [subst z; exact E|].
      rewrite Forall_forall in F. apply F. exact I.
    + assert (Y : above x y).
      { unfold above. apply less_total; [intros Q; apply N; left; symmetry; exact Q|].
        exact E. }
      constructor; [exact S|]. constructor; [exact Y|].
      apply Forall_forall. intros z I. rewrite Forall_forall in F.
      unfold above in *. eapply less_trans; [apply F; exact I | exact Y].
Qed.

Lemma fold_insertBack_sorted (l : list A) : forall rp,
  NoDup (List.map key (l ++ rp)) ->
  StronglySorted above rp ->
  StronglySorted above (fold_left (fun rp x => insertBack lt x rp) l rp).
Proof.
  induction l as [|x l IH]; intros rp D S; simpl; [exact S|].
  simpl in D. inversion D as [|? ? N D']; subst.
  rewrite map_app, in_app_iff in N.
  apply IH.
  - apply (Permutation_NoDup (l := List.map key (x :: l ++ rp))).
    + simpl. rewrite !map_app.
      rewrite (Permutation_map key (insertBack_perm x rp)). simpl.
      apply Permutation_middle.
    + simpl. constructor; [rewrite map_app, in_app_iff; exact N | exact D'].
  - apply insertBack_sorted; [tauto | exact S].
Qed.

Lemma passes_sorted (l : list A) :
  NoDup (List.map key l) -> StronglySorted above (insertionPasses lt l).
Proof.
  intros D. unfold insertionPasses.
  apply fold_insertBack_sorted; [rewrite app_nil_r; exact D|].
  constructor.
Qed.

Lemma sorted_unique (l1 : list A) : forall l2,
  StronglySorted above l1 -> StronglySorted above l2 ->
  Permutation l1 l2 -> l1 = l2.
Proof.
  induction l1 as [|a l1 IH]; intros l2 S1 S2 P.
  - apply Permutation_nil in P. symmetry. exact P.
  - destruct l2 as [|b l2];
      [symmetry in P; apply Permutation_nil in P; discriminate|].
    inversion S1 as [|? ? S1' F1]; inversion S2 as [|? ? S2' F2]; subst.
    rewrite Forall_forall in F1, F2.
    assert (E : a = b).
    { assert (Ia : In a (b :: l2))
        by (apply (Permutation_in _ P); left; reflexivity).
      assert (Ib : In b (a :: l1))
        by (apply (Permutation_in _ (Permutation_sym P)); left; reflexivity).
      destruct Ia as [Ia|Ia]; [symmetry; exact Ia|].
      destruct Ib as [Ib|Ib]; [exact Ib|].
      pose proof (F2 a Ia) as H1. pose proof (F1 b Ib) as H2.
      unfold above in H1, H2.
      pose proof (less_trans _ _ _ H1 H2) as H3.
      rewrite less_irrefl in H3. discriminate. }
    subst b. f_equal. apply IH; try assumption.
    eapply Permutation_cons_inv. exact P.
Qed.

(** On slices without equal keys, the sorted slice does not depend on the
    order of the input. *)
Lemma sortSlice_perm_invariant (l l' : list A) :
  NoDup (List.map key l) -> Permutation l l' ->
  sortSlice lt l = sortSlice lt l'.
Proof.
  intros D P. unfold sortSlice. f_equal.
  change (insertionPasses lt l = insertionPasses lt l').
  assert (D' : NoDup (List.map key l'))
    by (eapply Permutation_NoDup; [apply Permutation_map; exact P | exact D]).
  apply sorted_unique.
  - apply passes_sorted. exact D.
  - apply passes_sorted. exact D'.
  - rewrite !passes_perm. exact P.
Qed.

End Sorting.

Section Related.

(** Sorting two slices related element by element, by a relation that
    preserves the order of keys, gives slices related element by element. *)

Context {A : Type} (lt : A -> A -> bool) (R : A -> A -> Prop).

Hypothesis R_lt :
  forall a a1 b b1, R a a1 -> R b b1 -> lt a b = lt a1 b1.

Lemma insertBack_related (x x1 : A) (rp rp1 : list A) :
  R x x1 -> Forall2 R rp rp1 ->
  Forall2 R (insertBack lt x rp) (insertBack lt x1 rp1).
Proof.
  intros Hx F. induction F as [|y y1 rp rp1 Hy F IH]; simpl.
  - constructor; [exact Hx | constructor].
  - rewrite (R_lt x x1 y y1 Hx Hy).
    destruct (lt x1 y1); constructor; auto.
Qed.

Lemma fold_insertBack_related (l l1 : list A) :
  Forall2 R l l1 ->
  forall rp rp1, Forall2 R rp rp1 ->
  Forall2 R (fold_left (fun rp x => insertBack lt x rp) l rp)
            (fold_left (fun rp x => insertBack lt x rp) l1 rp1).
Proof.
  intros F. induction F as [|x x1 l l1 Hx F IH]; intros rp rp1 G; simpl.
  - exact G.
  - apply IH. apply insertBack_related; assumption.
Qed.

Lemma Forall2_rev_related (l l1 : list A) :
  Forall2 R l l1 -> Forall2 R (rev l) (rev l1).
Proof.
  intros F. induction F as [|x x1 l l1 Hx F IH]; simpl; [constructor|].
  apply Forall2_app; [exact IH|]. constructor; [exact Hx | constructor].
Qed.

Lemma sortSlice_related (l l1 : list A) :
  Forall2 R l l1 -> Forall2 R (sortSlice lt l) (sortSlice lt l1).
Proof.
  intros F. unfold sortSlice, insertionPasses. apply Forall2_rev_related.
  apply fold_insertBack_related; [exact F | constructor].
Qed.

End Related.

Lemma modelBytes_reordered (m m' : ModelInfo) :
  distinctFields m -> fieldsReordered m m' -> modelBytes m = modelBytes m'.
Proof.
  intros D [N P]. unfold modelBytes. rewrite N.
  rewrite (sortSlice_perm_invariant fi_Name (mi_Fields m) (mi_Fields m') D P
           : sortSlice fieldLess (mi_Fields m) = sortSlice fieldLess (mi_Fields m')).
  reflexivity.
Qed.

Lemma Forall2_names (l l1 : list ModelInfo) :
  Forall2 fieldsReordered l l1 -> List.map mi_Name l = List.map mi_Name l1.
Proof.
  intros F. induction F as [|m m1 l l1 [N _] F IH]; simpl; [reflexivity|].
  rewrite N, IH. reflexivity.
Qed.

Lemma Forall2_with_distinct (l l1 : list ModelInfo) :
  Forall distinctFields l -> Forall2 fieldsReordered l l1 ->
  Forall2 (fun m m1 => fieldsReordered m m1 /\ distinctFields m) l l1.
Proof.
  intros D F. induction F as [|m m1 l l1 H F IH]; [constructor|].
  inversion D; subst. constructor; auto.
Qed.

Lemma map_modelBytes_related (l l1 : list ModelInfo) :
  Forall2 (fun m m1 => fieldsReordered m m1 /\ distinctFields m) l l1 ->
  List.map modelBytes l = List.map modelBytes l1.
Proof.
  intros F. induction F as [|m m1 l l1 [H D] F IH]; simpl; [reflexivity|].
  rewrite IH, (modelBytes_reordered m m1 D H). reflexivity.
Qed.

(** C4, as stated, fails: two models of one name hash differently in the two
    orders, and so does a model with two fields of one name. *)
Lemma hash_depends_on_order_of_equal_names :
  (reordered [Samples.postA; Samples.postB] [Samples.postB; Samples.postA] /\
   ComputeModelsHash [Samples.postA; Samples.postB]
   <> ComputeModelsHash [Samples.postB; Samples.postA]) /\
  (fieldsReordered Samples.twoX Samples.twoXSwapped /\
   ComputeSingleModelHash Samples.twoX
   <> ComputeSingleModelHash Samples.twoXSwapped).
Proof.
  split; split.
  - exists [Samples.postA; Samples.postB]. split.
    + repeat constructor; reflexivity.
    + apply perm_swap.
  - intros H. vm_compute in H. discriminate H.
  - split; [reflexivity | apply perm_swap].
  - intros H. vm_compute in H. discriminate H.
Qed.

(** C4, amended.  For models with pairwise distinct names whose fields have
    pairwise distinct names, [ComputeModelsHash] gives the same value on the
    list in any order with the fields of each model in any order; and
    [ComputeSingleModelHash] gives the same value on a model with distinct
    field names whatever the order of its fields. *)
Theorem hash_order_independent :
  (forall (models models' : list ModelInfo),
      NoDup (List.map mi_Name models) ->
      Forall distinctFields models ->
      reordered models models' ->
      ComputeModelsHash models = ComputeModelsHash models') /\
  (forall (m m' : ModelInfo),
      distinctFields m ->
      fieldsReordered m m' ->
      ComputeSingleModelHash m = ComputeSingleModelHash m').
Proof.
  split.
  - intros models models' DN DF [models1 [F P]].
    unfold ComputeModelsHash. do 2 f_equal.
    assert (DN1 : NoDup (List.map mi_Name models1))
      by (rewrite <- (Forall2_names _ _ F); exact DN).
    rewrite <- (sortSlice_perm_invariant mi_Name models1 models' DN1 P
                : sortSlice modelLess models1 = sortSlice modelLess models').
    apply map_modelBytes_related.
    apply (sortSlice_related modelLess).
    + intros a a1 b b1 [[Na _] _] [[Nb _] _]. unfold modelLess.
      rewrite Na, Nb. reflexivity.
    + apply Forall2_with_distinct; assumption.
  - intros m m' D H. unfold ComputeSingleModelHash.
    rewrite (modelBytes_reordered m m' D H). reflexivity.
Qed.

Lemma hash_order_independent_witness :
  ComputeModelsHash [Samples.user; Samples.postA]
  = ComputeModelsHash [Samples.postA; Samples.userSwapped] /\
  ComputeSingleModelHash Samples.user
  = ComputeSingleModelHash Samples.userSwapped.
Proof.
  assert (D : distinctFields Samples.user).
  { unfold distinctFields. simpl. repeat constructor; simpl; intuition discriminate. }
  assert (R : fieldsReordered Samples.user Samples.userSwapped).
  { split; [reflexivity | apply perm_swap]. }
  split.
  - apply (proj1 hash_order_independent).
    + simpl. repeat constructor; simpl; intuition discriminate.
    + constructor; [exact D|]. constructor; [|constructor].
      unfold distinctFields. simpl. repeat constructor; simpl; tauto.
    + exists [Samples.userSwapped; Samples.postA]. split.
      * constructor; [exact R|]. constructor; [|constructor].
        split; reflexivity.
      * apply perm_swap.
  - apply (proj2 hash_order_independent); assumption.
Defined.

End HashFacts.

(** ** The ledger: recording, removing and listing *)

Module LedgerFacts.

Import Migration.

Lemma exec_cases (Schema : Type) (d d' : DB Schema) (r : option error) :
  exec d = (r, d') ->
  ledger d' = ledger d /\ schema d' = schema d /\ nextID d' = nextID d /\
  clock d' = clock d /\ faults d' = tl (faults d) /\
  (r = None <-> nextSucceeds d = true).
Proof.
  unfold exec, nextSucceeds.
  destruct (faults d) as [|[e|] fs] eqn:F; intros H; inversion H; subst;
    simpl; rewrite ?F; repeat split; auto; try (intros; discriminate).
Qed.




Lemma filter_unrecorded (app name : string) (l : list DjangoMigration) :
  existsb (matches app name) l = false ->
  List.filter (fun row => negb (matches app name row)) l = l.
Proof.
  induction l as [|row l IH]; simpl; [reflexivity|].
  intros H. apply orb_false_iff in H. destruct H as [M H].
  rewrite M. simpl. rewrite IH by exact H. reflexivity.
Qed.

(** X1.  A successful [RecordMigration] adds exactly one row: afterwards the
    pair is recorded, every other pair is recorded exactly when it was
    before, and the ledger is one row longer.  A failed one leaves the
    ledger as it was. *)
Theorem record_adds_the_pair :
  (forall (Schema : Type) (d d' : DB Schema) (app name : string),
      RecordMigration d app name = (None, d') ->
      recorded d' app name = true /\
      (forall app' name',
          (app', name') <> (app, name) ->
          recorded d' app' name' = recorded d app' name') /\
      List.length (ledger d') = S (List.length (ledger d))) /\
  (forall (Schema : Type) (d d' : DB Schema) (app name : string) (e : error),
      RecordMigration d app name = (Some e, d') -> ledger d' = ledger d).
Proof.
  split; intros Schema d d' app name.
  - unfold RecordMigration. destruct (exec d) as [[e|] d0] eqn:E;
      [discriminate|].
    intros H. inversion H; subst; clear H.
    apply exec_cases in E. destruct E as [L _]. unfold recorded. simpl.
    rewrite L. repeat split.
    + rewrite existsb_app. simpl. unfold matches at 2. simpl.
      rewrite !String.eqb_refl. apply orb_true_r.
    + intros app' name' N. rewrite existsb_app. simpl.
      unfold matches at 2. simpl.
      destruct (String.eqb_spec app app') as [A|A];
        destruct (String.eqb_spec name name') as [B|B]; simpl;
        rewrite ?orb_false_r; try reflexivity.
      subst. contradiction N. reflexivity.
    + rewrite length_app. simpl. lia.
  - intros e. unfold RecordMigration. destruct (exec d) as [[e0|] d0] eqn:E;
      intros H; inversion H; subst.
    apply exec_cases in E. tauto.
Qed.

Lemma record_adds_the_pair_witness :
  (recorded (snd (RecordMigration Samples.emptyDB "blog" "0001_initial"))
            "blog" "0001_initial" = true /\
   (forall app' name',
       (app', name') <> ("blog", "0001_initial") ->
       recorded (snd (RecordMigration Samples.emptyDB "blog" "0001_initial"))
                app' name'
       = recorded Samples.emptyDB app' name') /\
   List.length (ledger (snd (RecordMigration Samples.emptyDB "blog"
                                             "0001_initial")))
   = S (List.length (ledger Samples.emptyDB))) /\
  ledger (snd (RecordMigration Samples.failingDB "blog" "0001_initial"))
  = ledger Samples.failingDB.
Proof.
  split.
  - apply (proj1 record_adds_the_pair unit Samples.emptyDB). reflexivity.
  - apply (proj2 record_adds_the_pair unit Samples.failingDB _ "blog"
                 "0001_initial" Samples.boom). reflexivity.
Defined.



Lemma sorted_filter {A} (R : A -> A -> Prop) (p : A -> bool) (l : list A) :
  StronglySorted R l -> StronglySorted R (List.filter p l).
Proof.
  induction 1 as [|a l S IH F]; simpl; [constructor|].
  destruct (p a); [|exact IH]. constructor; [exact IH|].
  rewrite Forall_forall in *. intros x I. apply filter_In in I. apply F, I.
Qed.

Lemma sorted_snoc {A} (R : A -> A -> Prop) (l : list A) (x : A) :
  StronglySorted R l -> Forall (fun a => R a x) l ->
  StronglySorted R (l ++ [x]).
Proof.
  induction 1 as [|a l S IH F]; intros H; simpl.
  - constructor; constructor.
  - inversion H; subst. constructor; [apply IH; assumption|].
    apply Forall_app. split; [exact F|]. constructor; [assumption|constructor].
Qed.

Lemma exec_ascending (Schema : Type) (d d' : DB Schema) r :
  exec d = (r, d') -> ascending d -> ascending d'.
Proof.
  intros E. apply exec_cases in E. destruct E as [L [_ [N _]]].
  unfold ascending. rewrite L, N. tauto.
Qed.

Lemma IsApplied_ascending (Schema : Type) (d d' : DB Schema) app name r :
  IsApplied d app name = (r, d') -> ascending d -> ascending d'.
Proof.
  unfold IsApplied. destruct (exec d) as [[e|] d0] eqn:E; intros H;
    inversion H; subst; eapply exec_ascending; eauto.
Qed.

Lemma Record_ascending (Schema : Type) (d d' : DB Schema) app name r :
  RecordMigration d app name = (r, d') -> ascending d -> ascending d'.
Proof.
  unfold RecordMigration. destruct (exec d) as [[e|] d0] eqn:E; intros H A;
    inversion H; subst; clear H; pose proof (exec_ascending _ _ _ _ E A) as A0;
    [exact A0|].
  destruct A0 as [S F]. split; simpl.
  - apply sorted_snoc; assumption.
  - apply Forall_app. split.
    + eapply Forall_impl; [|exact F]. simpl. intros. lia.
    + constructor; [simpl; lia | constructor].
Qed.

Lemma Remove_ascending (Schema : Type) (d d' : DB Schema) app name r :
  RemoveMigration d app name = (r, d') -> ascending d -> ascending d'.
Proof.
  unfold RemoveMigration. destruct (exec d) as [[e|] d0] eqn:E; intros H A;
    inversion H; subst; clear H; pose proof (exec_ascending _ _ _ _ E A) as A0;
    [exact A0|].
  destruct A0 as [S F]. split; simpl.
  - apply sorted_filter. exact S.
  - rewrite Forall_forall in *. intros x I. apply filter_In in I. apply F, I.
Qed.

(** X3.  The primary keys of the ledger stay strictly ascending in row order
    and below the next key (so no two rows share a key) through
    [RunMigration] and [RollbackMigration], whenever the migration's
    callbacks keep them so. *)
Theorem ledger_keys_stay_ascending (Schema : Type) (w : World Schema)
        (m : Migration Schema) :
  (forall d, ascending d -> ascending (snd (Up m d))) ->
  (forall d, ascending d -> ascending (snd (Down m d))) ->
  ascending (db w) ->
  ascending (db (snd (RunMigration w m))) /\
  ascending (db (snd (RollbackMigration w m))).
Proof.
  intros HU HD A. split.
  - unfold RunMigration.
    destruct (IsApplied (db w) (MApp m) (MName m)) as [[[|] [e|]] d] eqn:E;
      pose proof (IsApplied_ascending _ _ _ _ _ _ E A) as A1;
      try exact A1.
    unfold invoke. simpl. pose proof (HU d A1) as A2.
    destruct (Up m d) as [[e|] d1]; simpl in *; [exact A2|].
    destruct (RecordMigration d1 (MApp m) (MName m)) as [[e|] d2] eqn:R;
      simpl; eapply Record_ascending; eauto.
  - unfold RollbackMigration.
    destruct (IsApplied (db w) (MApp m) (MName m)) as [[[|] [e|]] d] eqn:E;
      pose proof (IsApplied_ascending _ _ _ _ _ _ E A) as A1;
      try exact A1.
    unfold invoke. simpl. pose proof (HD d A1) as A2.
    destruct (Down m d) as [[e|] d1]; simpl in *; [exact A2|].
    destruct (RemoveMigration d1 (MApp m) (MName m)) as [[e|] d2] eqn:R;
      simpl; eapply Remove_ascending; eauto.
Qed.

Lemma threeRows_ascending : ascending Samples.threeRowsDB.
Proof.
  unfold ascending. simpl. split.
  - repeat constructor; simpl; lia.
  - repeat constructor; simpl; lia.
Qed.

Lemma ledger_keys_stay_ascending_witness :
  ascending (db (snd (RunMigration (mkWorld Samples.threeRowsDB [] [])
                                   Samples.passing))) /\
  ascending (db (snd (RollbackMigration (mkWorld Samples.threeRowsDB [] [])
                                        Samples.passing))).
Proof.
  apply (ledger_keys_stay_ascending unit (mkWorld Samples.threeRowsDB [] [])
           Samples.passing).
  - intros d A. exact A.
  - intros d A. exact A.
  - exact threeRows_ascending.
Defined.

Lemma passes_ascending (l : list DjangoMigration) : forall rp,
  StronglySorted (fun a b => ID a < ID b) l ->
  (forall a b, In a rp -> In b l -> ID a < ID b) ->
  fold_left (fun rp x => Cmd.insertBack idLess x rp) l rp = rev l ++ rp.
Proof.
  induction l as [|x l IH]; intros rp S H; simpl; [reflexivity|].
  inversion S as [|? ? S' F]; subst. rewrite Forall_forall in F.
  assert (E : Cmd.insertBack idLess x rp = x :: rp).
  { destruct rp as [|y rp]; [reflexivity|]. simpl.
    assert (L : ID y < ID x) by (apply H; left; reflexivity).
    unfold idLess. destruct (Nat.ltb_spec (ID x) (ID y)); [lia|reflexivity]. }
  rewrite E, IH; [rewrite <- app_assoc; reflexivity | exact S' |].
  intros a b [Ia|Ia] Ib; [subst a; apply F, Ib|].
  apply H; [exact Ia | right; exact Ib].
Qed.

Lemma orderByID_ascending (l : list DjangoMigration) :
  StronglySorted (fun a b => ID a < ID b) l -> Cmd.sortSlice idLess l = l.
Proof.
  intros S. unfold Cmd.sortSlice, Cmd.insertionPasses.
  rewrite passes_ascending; [|exact S|intros a b []].
  rewrite app_nil_r. apply rev_involutive.
Qed.

(** X4.  On a ledger whose keys ascend in row order, [GetAppliedMigrations]
    lists the rows in the order they were recorded, and [GetAppMigrations]
    lists exactly the rows of the application, in that same order; when the
    query fails both return the error and no rows. *)
Theorem listing_follows_application_order :
  (forall (Schema : Type) (d : DB Schema) (app : string),
      ascending d -> nextSucceeds d = true ->
      fst (GetAppliedMigrations d) = (ledger d, None) /\
      fst (GetAppMigrations d app)
      = (List.filter (fun row => String.eqb (App row) app) (ledger d), None)) /\
  (forall (Schema : Type) (d : DB Schema) (app : string),
      nextSucceeds d = false ->
      exists e,
        fst (GetAppliedMigrations d) = ([], Some e) /\
        fst (GetAppMigrations d app) = ([], Some e)).
Proof.
  split; intros Schema d app.
  - intros [S _] N. unfold GetAppliedMigrations, GetAppMigrations.
    destruct (exec d) as [r d'] eqn:E. apply exec_cases in E.
    destruct E as [L [_ [_ [_ [_ I]]]]]. apply I in N. subst r. simpl.
    rewrite L. rewrite orderByID_ascending by exact S.
    rewrite orderByID_ascending by (apply sorted_filter; exact S).
    split; reflexivity.
  - intros N. unfold GetAppliedMigrations, GetAppMigrations.
    destruct (exec d) as [[e|] d'] eqn:E.
    + exists e. split; reflexivity.
    + apply exec_cases in E. destruct E as [_ [_ [_ [_ [_ I]]]]].
      rewrite (proj1 I eq_refl) in N. discriminate.
Qed.

Lemma listing_follows_application_order_witness :
  (fst (GetAppliedMigrations Samples.threeRowsDB)
   = (ledger Samples.threeRowsDB, None) /\
   fst (GetAppMigrations Samples.threeRowsDB "blog")
   = (List.filter (fun row => String.eqb (App row) "blog")
                  (ledger Samples.threeRowsDB), None)) /\
  (exists e,
      fst (GetAppliedMigrations Samples.failingDB) = ([], Some e) /\
      fst (GetAppMigrations Samples.failingDB "blog") = ([], Some e)).
Proof.
  split.
  - apply (proj1 listing_follows_application_order unit Samples.threeRowsDB).
    + exact threeRows_ascending.
    + reflexivity.
  - apply (proj2 listing_follows_application_order unit Samples.failingDB).
    reflexivity.
Defined.

Lemma IsApplied_no_faults (Schema : Type) (d : DB Schema) app name :
  faults d = [] ->
  IsApplied d app name = ((recorded d app name, None), d).
Proof.
  intros F. unfold IsApplied, exec, recorded. rewrite F. f_equal. f_equal.
  induction (ledger d) as [|row l IH]; simpl; [reflexivity|].
  destruct (matches app name row); simpl; [reflexivity|exact IH].
Qed.

Lemma Record_no_faults (Schema : Type) (d : DB Schema) app name :
  faults d = [] ->
  RecordMigration d app name
  = (None, mkDB (ledger d ++ [mkDjangoMigration (nextID d) app name (clock d)])
                (S (nextID d)) (schema d) (clock d) (faults d)).
Proof.
  unfold RecordMigration, exec.
  destruct (faults d) eqn:F; [intros _; cbn; rewrite F; reflexivity | discriminate].
Qed.

Lemma Remove_no_faults (Schema : Type) (d : DB Schema) app name :
  faults d = [] ->
  RemoveMigration d app name
  = (None, mkDB (List.filter (fun row => negb (matches app name row)) (ledger d))
                (nextID d) (schema d) (clock d) (faults d)).
Proof.
  unfold RemoveMigration, exec.
  destruct (faults d) eqn:F; [intros _; cbn; rewrite F; reflexivity | discriminate].
Qed.

(** A run that applies: the world afterwards. *)
Lemma Run_quiet (Schema : Type) (w : World Schema) (m : Migration Schema) :
  quiet (Up m) -> faults (db w) = [] ->
  recorded (db w) (MApp m) (MName m) = false ->
  exists w1,
    RunMigration w m = (None, w1) /\
    ledger (db w1)
    = ledger (db w) ++ [mkDjangoMigration (nextID (db w)) (MApp m) (MName m)
                                          (clock (db w1))] /\
    nextID (db w1) = S (nextID (db w)) /\ faults (db w1) = [] /\
    calls w1 = calls w ++ [(CallUp, MApp m, MName m)].
Proof.
  intros QU F R.
  unfold RunMigration. rewrite (IsApplied_no_faults _ _ _ _ F), R.
  unfold invoke. cbn [db stdout calls setDB].
  destruct (QU (db w)) as [U1 [U2 [U3 U4]]].
  destruct (Up m (db w)) as [r1 d1]. cbn [fst snd] in *. subst r1.
  cbn [db]. rewrite Record_no_faults by (rewrite U4; exact F).
  eexists. split; [reflexivity|]. cbn [db printf setDB ledger nextID faults calls].
  rewrite U2, U3, U4, F. auto.
Qed.

(** A rollback that applies: the world afterwards. *)
Lemma Rollback_quiet (Schema : Type) (w : World Schema) (m : Migration Schema) :
  quiet (Down m) -> faults (db w) = [] ->
  recorded (db w) (MApp m) (MName m) = true ->
  exists w1,
    RollbackMigration w m = (None, w1) /\
    ledger (db w1)
    = List.filter (fun row => negb (matches (MApp m) (MName m) row))
                  (ledger (db w)) /\
    nextID (db w1) = nextID (db w) /\ faults (db w1) = [] /\
    calls w1 = calls w ++ [(CallDown, MApp m, MName m)].
Proof.
  intros QD F R.
  unfold RollbackMigration. rewrite (IsApplied_no_faults _ _ _ _ F), R.
  unfold invoke. cbn [db stdout calls setDB].
  destruct (QD (db w)) as [U1 [U2 [U3 U4]]].
  destruct (Down m (db w)) as [r1 d1]. cbn [fst snd] in *. subst r1.
  cbn [db]. rewrite Remove_no_faults by (rewrite U4; exact F).
  eexists. split; [reflexivity|]. cbn [db printf setDB ledger nextID faults calls].
  rewrite U2, U3, U4, F. auto.
Qed.

(** X5.  When every statement succeeds and both callbacks succeed without
    touching the ledger, running a migration that is not recorded and then
    rolling it back calls Up and then Down, once each, and leaves the ledger
    exactly as it was; in between the migration is recorded. *)
Theorem rollback_undoes_run (Schema : Type) (w : World Schema)
        (m : Migration Schema) :
  quiet (Up m) -> quiet (Down m) ->
  faults (db w) = [] ->
  recorded (db w) (MApp m) (MName m) = false ->
  exists w1 w2,
    RunMigration w m = (None, w1) /\
    recorded (db w1) (MApp m) (MName m) = true /\
    RollbackMigration w1 m = (None, w2) /\
    ledger (db w2) = ledger (db w) /\
    calls w2 = calls w ++ [(CallUp, MApp m, MName m);
                           (CallDown, MApp m, MName m)].
Proof.
  intros QU QD F R.
  destruct (Run_quiet Schema w m QU F R) as [w1 [E1 [L1 [_ [F1 C1]]]]].
  assert (R1 : recorded (db w1) (MApp m) (MName m) = true).
  { unfold recorded. rewrite L1, existsb_app. cbn [existsb].
    unfold matches at 2. cbn [App Name]. rewrite !String.eqb_refl.
    apply orb_true_r. }
  destruct (Rollback_quiet Schema w1 m QD F1 R1) as [w2 [E2 [L2 [_ [_ C2]]]]].
  exists w1, w2. repeat split; try assumption.
  - rewrite L2, L1, filter_app. cbn [List.filter]. unfold matches at 2.
    cbn [App Name]. rewrite !String.eqb_refl. cbn [andb negb].
    rewrite app_nil_r. apply filter_unrecorded. exact R.
  - rewrite C2, C1, <- app_assoc. reflexivity.
Qed.

Lemma rollback_undoes_run_witness :
  exists w1 w2,
    RunMigration Samples.freshWorld Samples.passing = (None, w1) /\
    recorded (db w1) (MApp Samples.passing) (MName Samples.passing) = true /\
    RollbackMigration w1 Samples.passing = (None, w2) /\
    ledger (db w2) = ledger (db Samples.freshWorld) /\
    calls w2 = calls Samples.freshWorld
               ++ [(CallUp, MApp Samples.passing, MName Samples.passing);
                   (CallDown, MApp Samples.passing, MName Samples.passing)].
Proof.
  apply (rollback_undoes_run unit Samples.freshWorld Samples.passing).
  - intros d. repeat split.
  - intros d. repeat split.
  - reflexivity.
  - reflexivity.
Defined.

(** X6.  [RunMigration] is not atomic: when Up succeeds and the insert into
    the ledger then fails, the error is returned, what Up did to the database
    stays, and nothing is recorded; so the next run, finding the migration
    unrecorded, calls Up again. *)
Theorem failed_insert_repeats_up (Schema : Type) (w : World Schema)
        (m : Migration Schema) (d d1 : DB Schema) (e : error) :
  IsApplied (db w) (MApp m) (MName m) = ((false, None), d) ->
  Up m d = (None, d1) ->
  hd None (faults d1) = Some e ->
  exists err w',
    RunMigration w m = (Some err, w') /\ Unwrap err = Some e /\
    schema (db w') = schema d1 /\ ledger (db w') = ledger d1 /\
    calls w' = calls w ++ [(CallUp, MApp m, MName m)] /\
    (recorded d1 (MApp m) (MName m) = false ->
     nextSucceeds (db w') = true ->
     calls (snd (RunMigration w' m))
     = calls w' ++ [(CallUp, MApp m, MName m)]).
Proof.
  intros HA HU HF.
  assert (RF : exists d2,
             RecordMigration d1 (MApp m) (MName m) = (Some e, d2) /\
             ledger d2 = ledger d1 /\ schema d2 = schema d1).
  { unfold RecordMigration, exec.
    destruct (faults d1) as [|f fs] eqn:F; cbn [hd] in HF; [discriminate|].
    subst f. eexists. split; [reflexivity|]. split; reflexivity. }
  destruct RF as [d2 [RF [L2 S2]]].
  unfold RunMigration at 1. rewrite HA. unfold invoke.
  cbn [db setDB stdout calls]. rewrite HU. cbn [db]. rewrite RF.
  eexists. eexists. split; [reflexivity|].
  cbn [db setDB stdout calls Unwrap Errorf].
  repeat split; try assumption. intros R N.
  destruct (MigrationFacts.recorded_IsApplied Schema d2 (MApp m) (MName m) N)
    as [d' [E _]].
  unfold RunMigration. cbn [db setDB]. rewrite E.
  unfold recorded in *. rewrite L2, R.
  unfold invoke. cbn [db setDB stdout calls].
  destruct (Up m d') as [[e'|] d3]; cbn [snd calls]; [reflexivity|].
  cbn [db]. destruct (RecordMigration d3 (MApp m) (MName m)) as [[e'|] d4];
    reflexivity.
Qed.

Lemma failed_insert_repeats_up_witness :
  exists err w',
    RunMigration Samples.secondFailsWorld Samples.passing = (Some err, w') /\
    Unwrap err = Some Samples.boom /\
    schema (db w') = schema (mkDB [] 1 tt Samples.t0 [Some Samples.boom]) /\
    ledger (db w') = ledger (mkDB [] 1 tt Samples.t0 [Some Samples.boom]) /\
    calls w' = calls Samples.secondFailsWorld
               ++ [(CallUp, MApp Samples.passing, MName Samples.passing)] /\
    (recorded (mkDB [] 1 tt Samples.t0 [Some Samples.boom])
              (MApp Samples.passing) (MName Samples.passing) = false ->
     nextSucceeds (db w') = true ->
     calls (snd (RunMigration w' Samples.passing))
     = calls w' ++ [(CallUp, MApp Samples.passing, MName Samples.passing)]).
Proof.
  apply (failed_insert_repeats_up unit Samples.secondFailsWorld Samples.passing
           (mkDB [] 1 tt Samples.t0 [Some Samples.boom])
           (mkDB [] 1 tt Samples.t0 [Some Samples.boom]) Samples.boom);
    reflexivity.
Defined.

End LedgerFacts.

(** ** Sorting by any order *)

Module SortFacts.

Import Cmd.

Section AnyOrder.

Context {A : Type} (lt : A -> A -> bool).

Lemma insert_perm (x : A) (rp : list A) :
  Permutation (insertBack lt x rp) (x :: rp).
Proof.
  induction rp as [|y rp IH]; simpl; [reflexivity|].
  destruct (lt x y); [|reflexivity].
  rewrite IH. apply perm_swap.
Qed.

Lemma passes_permutation (l : list A) : forall rp,
  Permutation (fold_left (fun rp x => insertBack lt x rp) l rp) (rev l ++ rp).
Proof.
  induction l as [|x l IH]; intros rp; simpl; [reflexivity|].
  rewrite IH, insert_perm, <- app_assoc. simpl.
  apply Permutation_app_head. reflexivity.
Qed.

Lemma sortSlice_permutation (l : list A) : Permutation (sortSlice lt l) l.
Proof.
  unfold sortSlice, insertionPasses.
  rewrite <- (Permutation_rev (fold_left _ l [])).
  rewrite passes_permutation, app_nil_r. symmetry. apply Permutation_rev.
Qed.

(** [a] is not after [b]. *)
Let le (a b : A) : Prop := lt b a = false.

Hypothesis lt_asym : forall a b, lt a b = true -> lt b a = false.
Hypothesis le_trans : forall a b c, le a b -> le b c -> le a c.

Lemma insert_sorted (x : A) (rp : list A) :
  StronglySorted (fun a b => le b a) rp ->
  StronglySorted (fun a b => le b a) (insertBack lt x rp).
Proof.
  induction rp as [|y rp IH]; intros S; simpl.
  - constructor; constructor.
  - inversion S as [|? ? S' F]; subst. rewrite Forall_forall in F.
    destruct (lt x y) eqn:E.
    + constructor; [apply IH; exact S'|].
      apply Forall_forall. intros z I.
      apply (Permutation_in _ (insert_perm x rp)) in I.
      destruct I as [I|I]; [subst z; apply lt_asym; exact E|].
      apply F. exact I.
    + constructor; [exact S|]. constructor; [exact E|].
      apply Forall_forall. intros z I.
      apply (le_trans z y x); [apply F; exact I | exact E].
Qed.

Lemma passes_sorted_desc (l : list A) : forall rp,
  StronglySorted (fun a b => le b a) rp ->
  StronglySorted (fun a b => le b a)
                 (fold_left (fun rp x => insertBack lt x rp) l rp).
Proof.
  induction l as [|x l IH]; intros rp S; simpl; [exact S|].
  apply IH. apply insert_sorted. exact S.
Qed.

Lemma sorted_rev (R : A -> A -> Prop) (l : list A) :
  StronglySorted (fun a b => R b a) l -> StronglySorted R (rev l).
Proof.
  induction 1 as [|a l S IH F]; simpl; [constructor|].
  apply LedgerFacts.sorted_snoc; [exact IH|].
  rewrite Forall_forall in *. intros z I. apply F. apply in_rev. exact I.
Qed.

(** The sorted slice is in order: no element is less than one before it. *)
Lemma sortSlice_sorted (l : list A) : StronglySorted le (sortSlice lt l).
Proof.
  unfold sortSlice, insertionPasses. apply sorted_rev.
  apply passes_sorted_desc. constructor.
Qed.

End AnyOrder.

End SortFacts.

(** ** The registry and the batch runner *)

Module RegistryFacts.

Import Migration.

Lemma keys_set {V} (m : GoMap.t V) k v :
  List.map fst (GoMap.set m k v)
  = if GoMap.has m k then List.map fst m else List.map fst m ++ [k].
Proof.
  unfold GoMap.has. induction m as [|[k' v'] m IH]; simpl; [reflexivity|].
  destruct (String.eqb_spec k' k) as [E|E]; simpl.
  - subst. reflexivity.
  - rewrite IH. destruct (GoMap.get m k); reflexivity.
Qed.

Lemma has_keys {V} (m : GoMap.t V) k :
  GoMap.has m k = true <-> In k (List.map fst m).
Proof.
  unfold GoMap.has. induction m as [|[k' v'] m IH]; simpl.
  - split; [discriminate|tauto].
  - destruct (String.eqb_spec k' k) as [E|E].
    + split; auto.
    + rewrite IH. split; [auto|]. intros [H|H]; [contradiction|exact H].
Qed.

Lemma keys_set_NoDup {V} (m : GoMap.t V) k v :
  NoDup (List.map fst m) -> NoDup (List.map fst (GoMap.set m k v)).
Proof.
  intros D. rewrite keys_set. destruct (GoMap.has m k) eqn:H; [exact D|].
  apply NoDup_app; [exact D | repeat constructor; simpl; tauto |].
  intros x I [J|[]]. subst x. apply has_keys in I. congruence.
Qed.

Lemma sorted_weaken {A} (R R' : A -> A -> Prop) (l : list A) :
  (forall a b, R a b -> R' a b) -> StronglySorted R l -> StronglySorted R' l.
Proof.
  intros H. induction 1 as [|a l S IH F]; constructor; [exact IH|].
  eapply Forall_impl; [|exact F]. intros b. apply H.
Qed.

Lemma filter_none_by {A} (p : A -> bool) (l : list A) :
  (forall x, In x l -> p x = false) -> List.filter p l = [].
Proof.
  induction l as [|a l IH]; intros H; simpl; [reflexivity|].
  rewrite (H a) by (left; reflexivity). apply IH. intros x I. apply H.
  right. exact I.
Qed.

Section Registered.

Context {Schema : Type}.

Lemma slice_registered (ms : list (Migration Schema)) : forall r app,
  GoMap.slice (fold_left RegisterMigration ms r) app
  = GoMap.slice r app ++ List.filter (fun m => String.eqb (MApp m) app) ms.
Proof.
  induction ms as [|m ms IH]; intros r app; simpl.
  - rewrite app_nil_r. reflexivity.
  - rewrite IH. unfold RegisterMigration.
    rewrite MapFacts.slice_append.
    destruct (String.eqb (MApp m) app); rewrite <- app_assoc; reflexivity.
Qed.

Lemma keys_registered (ms : list (Migration Schema)) : forall r,
  NoDup (List.map fst r) ->
  NoDup (List.map fst (fold_left RegisterMigration ms r)) /\
  (forall app,
      In app (List.map fst (fold_left RegisterMigration ms r)) <->
      In app (List.map fst r) \/ exists m, In m ms /\ MApp m = app).
Proof.
  induction ms as [|m ms IH]; intros r D; simpl.
  - split; [exact D|]. intros app. split; [auto|].
    intros [H|[m [[] _]]]. exact H.
  - assert (D' : NoDup (List.map fst (RegisterMigration r m)))
      by (apply keys_set_NoDup; exact D).
    destruct (IH _ D') as [N I]. split; [exact N|].
    intros app. rewrite I. unfold RegisterMigration, GoMap.append.
    rewrite keys_set. split.
    + intros [H|[m' [Hm E]]].
      * destruct (GoMap.has r (MApp m)); [left; exact H|].
        rewrite in_app_iff in H. destruct H as [H|[H|[]]]; [left; exact H|].
        right. exists m. split; [left; reflexivity | exact H].
      * right. exists m'. split; [right; exact Hm | exact E].
    + intros [H|[m' [[Hm|Hm] E]]].
      * left. destruct (GoMap.has r (MApp m)); [exact H|].
        rewrite in_app_iff. left. exact H.
      * subst m'. left. destruct (GoMap.has r (MApp m)) eqn:Hh.
        -- apply has_keys in Hh. rewrite <- E. exact Hh.
        -- rewrite in_app_iff. right. left. exact E.
      * right. exists m'. split; [exact Hm | exact E].
Qed.

(** X7.  After any sequence of registrations, [GetMigrations] returns for an
    application exactly the migrations registered with that application
    name (so none for an application without registrations), each as often
    as it was registered, in non-decreasing order of version. *)
Theorem registered_migrations_by_version (ms : list (Migration Schema))
        (app : string) :
  Permutation (GetMigrations (registryOf ms) app)
              (List.filter (fun m => String.eqb (MApp m) app) ms) /\
  StronglySorted (fun a b => Version a <= Version b)
                 (GetMigrations (registryOf ms) app).
Proof.
  unfold GetMigrations, registryOf. rewrite slice_registered.
  change (GoMap.slice [] app) with (@nil (Migration Schema)).
  cbn [List.app]. split; [apply SortFacts.sortSlice_permutation|].
  - apply (sorted_weaken (fun a b => versionLess b a = false)).
    + intros a b H. unfold versionLess in H. apply Nat.ltb_ge in H. exact H.
    + apply SortFacts.sortSlice_sorted.
      * intros a b H. unfold versionLess in *.
        apply Nat.ltb_lt in H. apply Nat.ltb_ge. lia.
      * intros a b c H1 H2. unfold versionLess in *.
        apply Nat.ltb_ge in H1, H2. apply Nat.ltb_ge. lia.
Qed.

(** X8.  After any sequence of registrations, [GetAllApps] lists exactly the
    application names that have a registered migration, each once, in
    strictly ascending string order. *)
Theorem registered_apps_sorted (ms : list (Migration Schema)) :
  StronglySorted (fun a b => GoStrings.less a b = true)
                 (GetAllApps (registryOf ms)) /\
  (forall app,
      In app (GetAllApps (registryOf ms)) <->
      exists m, In m ms /\ MApp m = app).
Proof.
  unfold GetAllApps, registryOf.
  destruct (keys_registered ms [] (NoDup_nil _)) as [D I]. split.
  - unfold Cmd.sortSlice. apply SortFacts.sorted_rev.
    apply (HashFacts.passes_sorted (fun x : string => x)).
    rewrite map_id. exact D.
  - intros app. split.
    + intros H.
      apply (Permutation_in _ (SortFacts.sortSlice_permutation _ _)) in H.
      apply I in H. destruct H as [[]|H]. exact H.
    + intros H.
      apply (Permutation_in _
               (Permutation_sym (SortFacts.sortSlice_permutation _ _))).
      apply I. right. exact H.
Qed.

Lemma recorded_snoc (d : list DjangoMigration) (row : DjangoMigration)
      (app name : string) :
  existsb (matches app name) (d ++ [row])
  = existsb (matches app name) d || matches app name row.
Proof. rewrite existsb_app. simpl. rewrite orb_false_r. reflexivity. Qed.

Lemma runEach_quiet : forall (ms : list (Migration Schema))
                             (w : World Schema) (count : nat),
  faults (db w) = [] ->
  (forall m, In m ms -> quiet (Up m)) ->
  NoDup (List.map (fun m => (MApp m, MName m)) ms) ->
  exists w',
    runEach w ms count = ((count + List.length ms, None), w') /\
    faults (db w') = [] /\
    calls w'
    = calls w ++
      List.map (fun m => (CallUp, MApp m, MName m))
        (List.filter (fun m => negb (recorded (db w) (MApp m) (MName m))) ms) /\
    List.map (fun row => (App row, Name row)) (ledger (db w'))
    = List.map (fun row => (App row, Name row)) (ledger (db w)) ++
      List.map (fun m => (MApp m, MName m))
        (List.filter (fun m => negb (recorded (db w) (MApp m) (MName m))) ms).
Proof.
  induction ms as [|m ms IH]; intros w count F Q D.
  - exists w. cbn [runEach List.length List.filter List.map].
    rewrite Nat.add_0_r, !app_nil_r. auto.
  - cbn [List.map] in D. inversion D as [|? ? N D']; subst.
    assert (Q' : forall m0, In m0 ms -> quiet (Up m0))
      by (intros m0 I; apply Q; right; exact I).
    cbn [runEach List.filter List.length].
    destruct (recorded (db w) (MApp m) (MName m)) eqn:R.
    + (* already recorded: skipped, and counted *)
      unfold RunMigration.
      rewrite (LedgerFacts.IsApplied_no_faults _ _ _ _ F), R.
      cbn [db printf setDB].
      rewrite (LedgerFacts.IsApplied_no_faults _ _ _ _ F), R.
      match goal with
      | |- context [runEach ?w0 ms ?c] =>
          destruct (IH w0 c F Q' D') as [w' [E [F' [C L]]]]
      end.
      exists w'. cbn [db setDB calls] in *. rewrite E.
      cbn [negb]. repeat split; try assumption. f_equal. f_equal. lia.
    + (* not recorded: applied *)
      assert (QU : quiet (Up m)) by (apply Q; left; reflexivity).
      destruct (LedgerFacts.Run_quiet Schema w m QU F R)
        as [w1 [E1 [L1 [_ [F1 C1]]]]].
      rewrite E1.
      assert (R1 : recorded (db w1) (MApp m) (MName m) = true).
      { unfold recorded. rewrite L1, recorded_snoc. unfold matches at 2.
        cbn [App Name]. rewrite !String.eqb_refl. apply orb_true_r. }
      rewrite (LedgerFacts.IsApplied_no_faults _ _ _ _ F1), R1.
      destruct (IH (setDB w1 (db w1)) (S count) F1 Q' D')
        as [w' [E [F' [C L]]]].
      exists w'. rewrite E. cbn [db setDB calls] in *.
      assert (Same : List.filter
                       (fun m0 => negb (recorded (db w1) (MApp m0) (MName m0))) ms
                     = List.filter
                       (fun m0 => negb (recorded (db w) (MApp m0) (MName m0))) ms).
      { apply filter_ext_in. intros m0 I. f_equal.
        unfold recorded. rewrite L1, recorded_snoc.
        unfold matches at 2. cbn [App Name].
        destruct (String.eqb_spec (MApp m) (MApp m0)) as [A|A];
          destruct (String.eqb_spec (MName m) (MName m0)) as [B|B];
          cbn [andb]; rewrite ?orb_false_r; try reflexivity.
        exfalso. apply N. apply in_map_iff. exists m0.
        split; [rewrite A, B; reflexivity | exact I]. }
      rewrite Same in C, L. cbn [negb List.map].
      repeat split; try assumption.
      * f_equal. f_equal. lia.
      * rewrite C, C1, <- app_assoc. reflexivity.
      * rewrite L, L1, map_app, <- app_assoc. reflexivity.
Qed.

(** X9.  When every statement succeeds, the forward callbacks succeed without
    touching the ledger, and no two migrations of the application share a
    name, [RunRegisteredMigrations] returns nil and the number of all
    migrations registered for the application, those skipped as already
    applied included; it calls Up exactly for the migrations not yet
    recorded, in order of version, and records exactly those. *)
Theorem batch_counts_skipped_too (registry : Registry Schema)
        (w : World Schema) (app : string) :
  faults (db w) = [] ->
  (forall m, In m (GetMigrations registry app) -> quiet (Up m)) ->
  NoDup (List.map (fun m => (MApp m, MName m)) (GetMigrations registry app)) ->
  exists w',
    RunRegisteredMigrations registry w app
    = ((List.length (GoMap.slice registry app), None), w') /\
    calls w'
    = calls w ++
      List.map (fun m => (CallUp, MApp m, MName m))
        (List.filter (fun m => negb (recorded (db w) (MApp m) (MName m)))
                     (GetMigrations registry app)) /\
    List.map (fun row => (App row, Name row)) (ledger (db w'))
    = List.map (fun row => (App row, Name row)) (ledger (db w)) ++
      List.map (fun m => (MApp m, MName m))
        (List.filter (fun m => negb (recorded (db w) (MApp m) (MName m)))
                     (GetMigrations registry app)).
Proof.
  intros F Q D. unfold RunRegisteredMigrations. cbv zeta.
  assert (Len : List.length (GetMigrations registry app)
                = List.length (GoMap.slice registry app))
    by (apply Permutation_length, SortFacts.sortSlice_permutation).
  destruct (GetMigrations registry app) as [|m ms] eqn:G.
  - exists w. cbn [List.length Nat.eqb List.filter List.map].
    rewrite <- Len, !app_nil_r. auto.
  - cbn [List.length Nat.eqb].
    destruct (runEach_quiet (m :: ms) w 0 F Q D) as [w' [E [_ [C L]]]].
    exists w'. rewrite E, <- Len. auto.
Qed.

End Registered.

Lemma batch_counts_skipped_too_witness :
  exists w',
    RunRegisteredMigrations Samples.blogRegistry Samples.appliedWorld "blog"
    = ((List.length (GoMap.slice Samples.blogRegistry "blog"), None), w') /\
    calls w'
    = calls Samples.appliedWorld ++
      List.map (fun m => (CallUp, MApp m, MName m))
        (List.filter
           (fun m => negb (recorded (db Samples.appliedWorld) (MApp m) (MName m)))
           (GetMigrations Samples.blogRegistry "blog")) /\
    List.map (fun row => (App row, Name row)) (ledger (db w'))
    = List.map (fun row => (App row, Name row))
               (ledger (db Samples.appliedWorld)) ++
      List.map (fun m => (MApp m, MName m))
        (List.filter
           (fun m => negb (recorded (db Samples.appliedWorld) (MApp m) (MName m)))
           (GetMigrations Samples.blogRegistry "blog")).
Proof.
  apply (batch_counts_skipped_too Samples.blogRegistry Samples.appliedWorld
                                  "blog").
  - reflexivity.
  - intros m I d. simpl in I.
    destruct I as [I|[I|[]]]; subst m; repeat split.
  - simpl. repeat constructor; simpl; intuition discriminate.
Defined.

End RegistryFacts.

(** ** The persisted state across runs *)

Module StateFacts.

Import Cmd GoStrings.

Section FoldSetVal.

Context {A V : Type} (key : A -> string) (val : A -> V).

Lemma get_fold_val_notin (l : list A) : forall (m0 : GoMap.t V) k,
  ~ In k (List.map key l) ->
  GoMap.get (fold_left (fun m a => GoMap.set m (key a) (val a)) l m0) k
  = GoMap.get m0 k.
Proof.
  induction l as [|a l IH]; intros m0 k N; simpl; [reflexivity|].
  simpl in N. rewrite IH by tauto. apply MapFacts.get_set_other. tauto.
Qed.

Lemma get_fold_val_in (l : list A) : forall (m0 : GoMap.t V) a,
  NoDup (List.map key l) -> In a l ->
  GoMap.get (fold_left (fun m a => GoMap.set m (key a) (val a)) l m0) (key a)
  = Some (val a).
Proof.
  induction l as [|b l IH]; intros m0 a D I; simpl; [contradiction|].
  simpl in D. inversion D as [|? ? N D']; subst.
  destruct I as [E|I].
  - subst b. rewrite get_fold_val_notin by exact N.
    apply MapFacts.get_set_same.
  - apply IH; assumption.
Qed.

Lemma keys_fold_val (l : list A) : forall (m0 : GoMap.t V) k,
  In k (List.map fst (fold_left (fun m a => GoMap.set m (key a) (val a)) l m0))
  <-> In k (List.map fst m0) \/ In k (List.map key l).
Proof.
  induction l as [|a l IH]; intros m0 k; simpl; [tauto|].
  rewrite IH, RegistryFacts.keys_set.
  destruct (GoMap.has m0 (key a)) eqn:H.
  - apply RegistryFacts.has_keys in H. split; [tauto|].
    intros [I|[E|I]]; auto. subst k. auto.
  - rewrite in_app_iff. simpl. tauto.
Qed.

End FoldSetVal.

Lemma Update_success env w appName models migrationID w' :
  UpdateMigrationState env w appName models migrationID = (None, w') ->
  exists state,
    LoadMigrationState w = inl state /\
    LoadMigrationState w'
    = inl (mkMigrationState
             (GoMap.set (Apps state) appName
                (mkAppMigrationState (ComputeModelsHash models) migrationID
                   (fold_left
                      (fun m model =>
                         GoMap.set m (mi_Name model) (stateOfModel model))
                      models (Models (appOrNew state appName)))))) /\
    files w' = files w /\ modelsGo w' = modelsGo w.
Proof.
  unfold UpdateMigrationState, appOrNew.
  destruct (LoadMigrationState w) as [state|err]; [|discriminate].
  unfold SaveMigrationState.
  destruct (mkdirState env); [discriminate|].
  destruct (writeState env); [discriminate|].
  intros H. inversion H; subst; clear H.
  exists state. repeat split.
Qed.

(** The digest bytes are bytes, and their hexadecimal digits are ASCII. *)
Lemma be_bytes_below (n : nat) (x : N) :
  Forall (fun b => (b < 256)%N) (Sha256.be_bytes n x).
Proof.
  induction n as [|n IH]; cbn [Sha256.be_bytes]; constructor; [|exact IH].
  change 255%N with (N.ones 8). rewrite N.land_ones.
  apply N.mod_lt. discriminate.
Qed.

Lemma Sum256_below (msg : list N) :
  Forall (fun b => (b < 256)%N) (Sha256.Sum256 msg).
Proof.
  unfold Sha256.Sum256. cbv zeta.
  generalize (fold_left Sha256.compress
                (Sha256.chunks (List.length (Sha256.pad msg)) 64
                               (Sha256.pad msg)) Sha256.H0).
  intros h. induction h as [|x h IH]; cbn [flat_map]; [constructor|].
  apply Forall_app. split; [apply be_bytes_below | exact IH].
Qed.

Lemma hexDigit_below (n : N) :
  (n < 16)%N -> (nat_of_ascii (Sha256.hexDigit n) <? 128)%nat = true.
Proof.
  intros H.
  assert (C : In n [0; 1; 2; 3; 4; 5; 6; 7; 8; 9; 10; 11; 12; 13; 14; 15]%N).
  { simpl. lia. }
  simpl in C.
  repeat (destruct C as [C|C]; [subst n; reflexivity|]). destruct C.
Qed.

Lemma isASCII_hex (bs : list N) :
  Forall (fun b => (b < 256)%N) bs -> isASCII (Sha256.hex bs) = true.
Proof.
  unfold isASCII. induction 1 as [|b bs B _ IH]; [reflexivity|].
  cbn [Sha256.hex list_ascii_of_string forallb].
  rewrite !hexDigit_below, IH; [reflexivity| |].
  - apply N.mod_lt. discriminate.
  - apply N.Div0.div_lt_upper_bound. exact B.
Qed.

Lemma isASCII_hexsum (s : string) : isASCII (Sha256.hexsum s) = true.
Proof. apply isASCII_hex, Sum256_below. Qed.

Lemma forallb_set {V} (P : string * V -> bool) (m : GoMap.t V) k v :
  forallb P m = true -> P (k, v) = true -> forallb P (GoMap.set m k v) = true.
Proof.
  intros H K. induction m as [|[k' v'] m IH]; simpl in *.
  - rewrite K. reflexivity.
  - apply andb_true_iff in H. destruct H as [H1 H2].
    destruct (String.eqb k' k); simpl.
    + rewrite K. exact H2.
    + rewrite H1. apply IH. exact H2.
Qed.

Lemma asciiModel_stored (m : ModelInfo) :
  asciiModel m = true -> asciiModelState (mi_Name m, stateOfModel m) = true.
Proof.
  unfold asciiModel, asciiModelState. cbn [fst snd stateOfModel ms_Name ms_Hash ms_Fields].
  intros H. apply andb_true_iff in H. destruct H as [N F].
  rewrite N. unfold ComputeSingleModelHash. rewrite isASCII_hexsum.
  cbn [andb]. rewrite forallb_forall in *. intros sf I.
  apply in_map_iff in I. destruct I as [f [E I]]. subst sf.
  exact (F f I).
Qed.

Lemma asciiModels_stored (models : list ModelInfo) :
  forall stored : GoMap.t ModelState,
  forallb asciiModel models = true ->
  forallb asciiModelState stored = true ->
  forallb asciiModelState
    (fold_left (fun m model => GoMap.set m (mi_Name model) (stateOfModel model))
               models stored) = true.
Proof.
  induction models as [|m models IH]; intros stored A S; [exact S|].
  cbn [forallb] in A. apply andb_true_iff in A. destruct A as [A1 A2].
  cbn [fold_left]. apply IH; [exact A2|].
  apply forallb_set; [exact S | apply asciiModel_stored; exact A1].
Qed.

Lemma asciiState_app (state : MigrationState) (appName : string) :
  asciiState state = true ->
  forallb asciiModelState (Models (appOrNew state appName)) = true.
Proof.
  unfold asciiState, appOrNew. intros A.
  destruct (GoMap.get (Apps state) appName) as [a|] eqn:G; [|reflexivity].
  assert (I : In (appName, a) (Apps state)).
  { clear A. induction (Apps state) as [|[k v] l IH]; simpl in G;
      [discriminate|].
    destruct (String.eqb_spec k appName) as [E|E].
    - inversion G; subst. left. reflexivity.
    - right. apply IH. exact G. }
  rewrite forallb_forall in A. specialize (A _ I). unfold asciiApp in A.
  cbn [fst snd] in A. apply andb_true_iff in A. apply A.
Qed.

(** X10.  Within ASCII, where [encoding/json] reads back what it wrote, and
    for an application that is new to the state or has a model stored (so its
    map of models is allocated): after a successful [UpdateMigrationState],
    loading the state gives a state within ASCII again that holds, for the
    application, the given migration identifier, the hash of the models, and
    (model names being distinct) for every model its name, hash and fields;
    a stored model that is not among the models stays as it was, and so does
    every other application. *)
Theorem update_then_load env w appName models migrationID w' state :
  LoadMigrationState w = inl state ->
  asciiState state = true ->
  modelsAllocated state appName = true ->
  isASCII appName = true ->
  isASCII migrationID = true ->
  forallb asciiModel models = true ->
  UpdateMigrationState env w appName models migrationID = (None, w') ->
  exists state' app',
    LoadMigrationState w' = inl state' /\
    asciiState state' = true /\
    GoMap.get (Apps state') appName = Some app' /\
    LastMigration app' = migrationID /\
    LastHash app' = ComputeModelsHash models /\
    (NoDup (List.map mi_Name models) ->
     forall m, In m models ->
       GoMap.get (Models app') (mi_Name m) = Some (stateOfModel m)) /\
    (forall k, ~ In k (List.map mi_Name models) ->
       GoMap.get (Models app') k
       = GoMap.get (Models (appOrNew state appName)) k) /\
    (forall other, other <> appName ->
       GoMap.get (Apps state') other = GoMap.get (Apps state) other).
Proof.
  intros L AS _ AN AI AM H.
  destruct (Update_success _ _ _ _ _ _ H) as [state0 [L0 [L' _]]].
  rewrite L in L0. inversion L0; subst state0; clear L0.
  eexists. eexists. split; [exact L'|].
  split.
  { unfold asciiState. cbn [Apps]. apply forallb_set; [exact AS|].
    unfold asciiApp. cbn [fst snd LastHash LastMigration Models].
    rewrite AN, AI. unfold ComputeModelsHash. rewrite isASCII_hexsum.
    cbn [andb]. apply asciiModels_stored; [exact AM|].
    apply asciiState_app. exact AS. }
  cbn [Apps]. split; [apply MapFacts.get_set_same|].
  cbn [LastMigration LastHash Models]. repeat split.
  - intros D m I. apply (get_fold_val_in mi_Name stateOfModel); assumption.
  - intros k N. apply (get_fold_val_notin mi_Name stateOfModel). exact N.
  - intros other N. apply MapFacts.get_set_other. congruence.
Qed.

Lemma update_then_load_witness :
  exists state' app',
    LoadMigrationState
      (snd (UpdateMigrationState Samples.quietEnv Samples.bodyDropped "blog"
                                 [Samples.user] "20240102030405"))
    = inl state' /\
    asciiState state' = true /\
    GoMap.get (Apps state') "blog" = Some app' /\
    LastMigration app' = "20240102030405" /\
    LastHash app' = ComputeModelsHash [Samples.user] /\
    (NoDup (List.map mi_Name [Samples.user]) ->
     forall m, In m [Samples.user] ->
       GoMap.get (Models app') (mi_Name m) = Some (stateOfModel m)) /\
    (forall k, ~ In k (List.map mi_Name [Samples.user]) ->
       GoMap.get (Models app') k
       = GoMap.get (Models (appOrNew Samples.storedState "blog")) k) /\
    (forall other, other <> "blog" ->
       GoMap.get (Apps state') other
       = GoMap.get (Apps Samples.storedState) other).
Proof.
  apply (update_then_load Samples.quietEnv Samples.bodyDropped "blog"
           [Samples.user] "20240102030405" _ Samples.storedState);
    reflexivity.
Defined.



Lemma fold_left_fixed {S E} (f : S -> E -> S) (l : list E) (c : S) :
  (forall x, In x l -> f c x = c) -> fold_left f l c = c.
Proof.
  induction l as [|x l IH]; intros H; simpl; [reflexivity|].
  rewrite (H x) by (left; reflexivity). apply IH. intros y I. apply H.
  right. exact I.
Qed.





Lemma fold_left_keeps {S E P} (proj : S -> P) (f : S -> E -> S) (l : list E) :
  (forall c x, proj (f c x) = proj c) ->
  forall c, proj (fold_left f l c) = proj c.
Proof.
  intros H. induction l as [|x l IH]; intros c; simpl; [reflexivity|].
  rewrite IH. apply H.
Qed.

Lemma checkModel_DeletedModels sm c m :
  DeletedModels (checkModel sm c m) = DeletedModels c.
Proof.
  unfold checkModel. destruct (GoMap.get sm (mi_Name m)); [|reflexivity].
  cbv zeta. rewrite (fold_left_keeps DeletedModels).
  - apply (fold_left_keeps DeletedModels). intros c0 f. unfold checkCurrentField.
    destruct (GoMap.get _ (fi_Name f)); [|reflexivity].
    destruct (fieldDiffers _ f); reflexivity.
  - intros c0 f. unfold checkStoredField.
    destruct (negb _); reflexivity.
Qed.

Lemma checkStoredModel_DeletedModels cmm entries : forall c k,
  In k (DeletedModels (fold_left (checkStoredModel cmm) entries c)) <->
  In k (DeletedModels c) \/
  (In k (List.map fst entries) /\ GoMap.has cmm k = false).
Proof.
  induction entries as [|e entries IH]; intros c k; simpl; [tauto|].
  rewrite IH. unfold checkStoredModel.
  destruct (GoMap.has cmm (fst e)) eqn:H; cbn [negb].
  - split; [tauto|]. intros [I|[[E|I] N]]; auto. subst k. congruence.
  - cbn [addDeletedModel DeletedModels]. rewrite in_app_iff. simpl.
    split.
    + intros [[I|[E|[]]]|[I N]]; auto.
      right. subst k. auto.
    + intros [I|[[E|I] N]]; auto.
Qed.

(** X13.  [UpdateMigrationState] never drops a model from the persisted
    state: a stored model that is missing from the models stays stored after
    a successful update, so the next [DetectAllChanges] for the same models
    lists it as deleted again and the change set counts as destructive. *)
Theorem deleted_model_is_reported_again env w appName models migrationID w'
        state k :
  UpdateMigrationState env w appName models migrationID = (None, w') ->
  LoadMigrationState w = inl state ->
  In k (List.map fst (Models (appOrNew state appName))) ->
  ~ In k (List.map mi_Name models) ->
  exists changes,
    DetectAllChanges w' appName models = inl changes /\
    In k (DeletedModels changes) /\
    HasDestructiveChanges changes = true.
Proof.
  intros H L I N.
  destruct (Update_success _ _ _ _ _ _ H) as [state0 [L0 [L' _]]].
  rewrite L in L0. inversion L0; subst state0; clear L0.
  unfold DetectAllChanges. rewrite L'. cbn [Apps].
  rewrite MapFacts.get_set_same. cbn [Models].
  eexists. split; [reflexivity|].
  match goal with
  | |- In k (DeletedModels ?c) /\ _ =>
      assert (D : In k (DeletedModels c))
  end.
  { apply checkStoredModel_DeletedModels. right. split.
    - apply (keys_fold_val mi_Name stateOfModel). left. exact I.
    - unfold currentModelMapOf. rewrite (MapFacts.has_fold_set mi_Name).
      rewrite ChangeFacts.not_mem by exact N. reflexivity. }
  split; [exact D|]. unfold HasDestructiveChanges.
  match goal with
  | |- context [DeletedModels ?c] => destruct (DeletedModels c)
  end; [contradiction|reflexivity].
Qed.

Lemma deleted_model_is_reported_again_witness :
  exists changes,
    DetectAllChanges
      (snd (UpdateMigrationState Samples.quietEnv Samples.postRemoved "blog"
                                 [Samples.tagScanned] "20240102030405"))
      "blog" [Samples.tagScanned] = inl changes /\
    In "Post" (DeletedModels changes) /\
    HasDestructiveChanges changes = true.
Proof.
  apply (deleted_model_is_reported_again Samples.quietEnv Samples.postRemoved
           "blog" [Samples.tagScanned] "20240102030405" _ Samples.storedState).
  - reflexivity.
  - reflexivity.
  - simpl. tauto.
  - simpl. intuition discriminate.
Defined.

End StateFacts.

(** ** Scanning and naming *)

Module ScanFacts.

Import Cmd GoStrings.

Lemma fold_scanField (fieldList : list Field) : forall b acc,
  fold_left scanField fieldList (b, acc)
  = (b || existsb isBaseModel fieldList, acc ++ fieldsOf fieldList).
Proof.
  induction fieldList as [|field rest IH]; intros b acc; simpl.
  - rewrite orb_false_r, app_nil_r. reflexivity.
  - unfold scanField at 2. unfold fieldsOf. cbn [List.flat_map fst snd].
    destruct (isBaseModel field); rewrite IH; unfold fieldsOf.
    + rewrite orb_true_r. reflexivity.
    + rewrite <- app_assoc. reflexivity.
Qed.

Lemma fold_inspect pkg path (specs : list TypeSpec) : forall models,
  fold_left (inspect pkg path) specs models
  = models ++ List.flat_map (modelOf pkg path) specs.
Proof.
  induction specs as [|ts specs IH]; intros models; simpl.
  - rewrite app_nil_r. reflexivity.
  - rewrite IH. unfold inspect, modelOf.
    destruct (ts_Struct ts) as [fieldList|]; [|reflexivity].
    rewrite fold_scanField. cbn [orb List.app].
    destruct (existsb isBaseModel fieldList);
      rewrite <- ?app_assoc; reflexivity.
Qed.

(** X14.  From a file that parses, [ScanModels] reports, in the order of the
    declarations, one model for every struct type that embeds a qualified
    [BaseModel], wherever the embedding stands among the fields, and nothing
    for any other type; the model's fields are the struct's named fields in
    order, one per declared name, without the embedded [BaseModel]. *)
Theorem scan_reports_base_model_structs (w : World) (appName : string)
        (node : File) :
  modelsGo w appName = ModelsParsed node ->
  ScanModels w appName
  = inl (List.flat_map
           (modelOf (PkgName node) (pathJoin ["apps"; appName; "models.go"]))
           (TypeSpecs node)).
Proof.
  intros H. unfold ScanModels. rewrite H. rewrite fold_inspect. reflexivity.
Qed.

Lemma scan_reports_base_model_structs_witness :
  ScanModels Samples.mixedFile "blog"
  = inl (List.flat_map
           (modelOf "blog" (pathJoin ["apps"; "blog"; "models.go"]))
           (TypeSpecs Samples.mixedTypes)).
Proof.
  apply (scan_reports_base_model_structs Samples.mixedFile "blog"
           Samples.mixedTypes).
  reflexivity.
Defined.

Lemma isUpper_lowerByte (c : ascii) : isUpper (lowerByte c) = false.
Proof.
  destruct c as [b0 b1 b2 b3 b4 b5 b6 b7].
  destruct b0, b1, b2, b3, b4, b5, b6, b7; reflexivity.
Qed.

Lemma noUpper_ToLower (s : string) : noUpper (ToLower s) = true.
Proof.
  unfold noUpper. induction s as [|c s IH]; simpl; [reflexivity|].
  rewrite isUpper_lowerByte. exact IH.
Qed.

Lemma noUpper_app (a b : string) :
  noUpper (a ++ b) = noUpper a && noUpper b.
Proof.
  unfold noUpper. induction a as [|c a IH]; simpl; [reflexivity|].
  rewrite IH. apply andb_assoc.
Qed.

Lemma ToLower_noUpper (s : string) : noUpper s = true -> ToLower s = s.
Proof.
  unfold noUpper. induction s as [|c s IH]; simpl; [reflexivity|].
  intros H. apply andb_true_iff in H. destruct H as [U H].
  unfold lowerByte. apply negb_true_iff in U. rewrite U, IH by exact H.
  reflexivity.
Qed.

Lemma toSnakeLoop_noUpper (s : string) : noUpper s = true -> toSnakeLoop s = s.
Proof.
  intros H. unfold toSnakeLoop.
  enough (G : forall first,
             (fix go (first : bool) (s : string) : string :=
                match s with
                | EmptyString => EmptyString
                | String r rest =>
                    if negb first && isUpper r
                    then String "_"%char (String r (go false rest))
                    else String r (go false rest)
                end) first s = s) by apply G.
  revert H. unfold noUpper.
  induction s as [|c s IH]; intros H first; [reflexivity|].
  simpl in H. apply andb_true_iff in H. destruct H as [U H].
  apply negb_true_iff in U. rewrite U, andb_false_r.
  f_equal. apply IH. exact H.
Qed.

Lemma HasSuffix_snoc (x : string) : HasSuffix (x ++ "s") "s" = true.
Proof.
  unfold HasSuffix. cbn [String.length].
  assert (L : String.length (x ++ "s") = S (String.length x)).
  { induction x as [|c x IH]; simpl; [reflexivity | rewrite IH; reflexivity]. }
  rewrite L. cbn [Nat.leb Nat.sub]. rewrite Nat.sub_0_r. clear L.
  assert (E : substring (String.length x) 1 (x ++ "s") = "s").
  { induction x as [|c x IH]; simpl; [reflexivity | exact IH]. }
  rewrite E. reflexivity.
Qed.

Lemma isASCII_app (a b : string) :
  isASCII (a ++ b) = isASCII a && isASCII b.
Proof.
  unfold isASCII. induction a as [|c a IH]; simpl; [reflexivity|].
  rewrite IH. apply andb_assoc.
Qed.

Lemma lowerByte_below (c : ascii) :
  (nat_of_ascii c <? 128)%nat = true ->
  (nat_of_ascii (lowerByte c) <? 128)%nat = true.
Proof.
  intros H. unfold lowerByte, isUpper.
  destruct ((65 <=? nat_of_ascii c) && (nat_of_ascii c <=? 90))%nat eqn:U;
    [|exact H].
  apply andb_true_iff in U. destruct U as [A B].
  apply Nat.leb_le in A, B.
  rewrite nat_ascii_embedding by lia. apply Nat.ltb_lt. lia.
Qed.

Lemma isASCII_ToLower (s : string) :
  isASCII s = true -> isASCII (ToLower s) = true.
Proof.
  unfold isASCII. induction s as [|c s IH]; simpl; [reflexivity|].
  intros H. apply andb_true_iff in H. destruct H as [C H].
  rewrite (lowerByte_below _ C). apply IH. exact H.
Qed.

Lemma isASCII_toSnakeLoop (s : string) :
  isASCII s = true -> isASCII (toSnakeLoop s) = true.
Proof.
  intros H. unfold toSnakeLoop.
  enough (G : forall first,
             isASCII
               ((fix go (first : bool) (s : string) : string :=
                   match s with
                   | EmptyString => EmptyString
                   | String r rest =>
                       if negb first && isUpper r
                       then String "_"%char (String r (go false rest))
                       else String r (go false rest)
                   end) first s) = true) by apply G.
  revert H. unfold isASCII.
  induction s as [|c s IH]; intros H first; [reflexivity|].
  simpl in H. apply andb_true_iff in H. destruct H as [C H].
  destruct (negb first && isUpper c); simpl; rewrite C; apply IH; exact H.
Qed.

(** X15.  On an ASCII name, where the bytes are the runes: a table name
    ([toSnakeCase]) is ASCII, has no capital and always ends in "s"; a column
    name ([fieldToSnakeCase]) is ASCII and has no capital.  Both functions
    are idempotent there, so a name that is already in snake case, and for
    tables already plural, is left as it is. *)
Theorem snake_case_names (s : string) :
  isASCII s = true ->
  isASCII (fieldToSnakeCase s) = true /\
  isASCII (toSnakeCase s) = true /\
  noUpper (fieldToSnakeCase s) = true /\
  noUpper (toSnakeCase s) = true /\
  HasSuffix (toSnakeCase s) "s" = true /\
  fieldToSnakeCase (fieldToSnakeCase s) = fieldToSnakeCase s /\
  toSnakeCase (toSnakeCase s) = toSnakeCase s.
Proof.
  intros A.
  assert (AF : isASCII (fieldToSnakeCase s) = true)
    by (apply isASCII_ToLower, isASCII_toSnakeLoop; exact A).
  assert (AT : isASCII (toSnakeCase s) = true).
  { unfold toSnakeCase. cbv zeta. fold (fieldToSnakeCase s).
    destruct (HasSuffix (fieldToSnakeCase s) "s"); cbn [negb];
      [exact AF | rewrite isASCII_app, AF; reflexivity]. }
  assert (F : noUpper (fieldToSnakeCase s) = true)
    by apply noUpper_ToLower.
  assert (T : noUpper (toSnakeCase s) = true).
  { unfold toSnakeCase. cbv zeta.
    destruct (HasSuffix (ToLower (toSnakeLoop s)) "s"); cbn [negb].
    - apply noUpper_ToLower.
    - rewrite noUpper_app, noUpper_ToLower. reflexivity. }
  assert (P : HasSuffix (toSnakeCase s) "s" = true).
  { unfold toSnakeCase. cbv zeta.
    destruct (HasSuffix (ToLower (toSnakeLoop s)) "s") eqn:H; cbn [negb].
    - exact H.
    - apply HasSuffix_snoc. }
  assert (I : forall x, noUpper x = true -> fieldToSnakeCase x = x).
  { intros x H. unfold fieldToSnakeCase.
    rewrite toSnakeLoop_noUpper by exact H. apply ToLower_noUpper. exact H. }
  repeat split; try assumption.
  - apply I. exact F.
  - unfold toSnakeCase at 1. cbv zeta.
    change (ToLower (toSnakeLoop (toSnakeCase s)))
      with (fieldToSnakeCase (toSnakeCase s)).
    rewrite (I _ T), P. reflexivity.
Qed.

Lemma snake_case_names_witness :
  isASCII (fieldToSnakeCase "UserProfile") = true /\
  isASCII (toSnakeCase "UserProfile") = true /\
  noUpper (fieldToSnakeCase "UserProfile") = true /\
  noUpper (toSnakeCase "UserProfile") = true /\
  HasSuffix (toSnakeCase "UserProfile") "s" = true /\
  fieldToSnakeCase (fieldToSnakeCase "UserProfile")
  = fieldToSnakeCase "UserProfile" /\
  toSnakeCase (toSnakeCase "UserProfile") = toSnakeCase "UserProfile".
Proof. apply (snake_case_names "UserProfile"). reflexivity. Defined.

End ScanFacts.

(** ** The generated code *)

Module GeneratorFacts.

Import Cmd GoStrings.

Lemma app_assoc_s (a b c : string) : ((a ++ b) ++ c = a ++ (b ++ c))%string.
Proof. induction a as [|x a IH]; simpl; [reflexivity | rewrite IH; reflexivity]. Qed.

Lemma substring_prefix (x y : string) :
  substring 0 (String.length x) (x ++ y) = x.
Proof.
  induction x as [|c x IH]; simpl.
  - destruct y; reflexivity.
  - rewrite IH. reflexivity.
Qed.

Lemma substring_suffix (x y : string) :
  substring (String.length x) (String.length y) (x ++ y) = y.
Proof.
  induction x as [|c x IH]; simpl; [|exact IH].
  induction y as [|d y IHy]; simpl; [reflexivity | rewrite IHy; reflexivity].
Qed.

Lemma TrimSuffix_app (x suffix : string) :
  TrimSuffix (x ++ suffix) suffix = x.
Proof.
  unfold TrimSuffix, HasSuffix.
  rewrite IdentifierFacts.length_app.
  replace (String.length x + String.length suffix - String.length suffix)
    with (String.length x) by lia.
  rewrite substring_suffix, String.eqb_refl.
  replace (String.length suffix <=? String.length x + String.length suffix)%nat
    with true by (symmetry; apply Nat.leb_le; lia).
  cbn [andb]. apply substring_prefix.
Qed.

Lemma app_nl_nonempty (x r : string) :
  String.eqb ((x ++ nl) ++ r) EmptyString = false.
Proof. destruct x; reflexivity. Qed.

(** Writing every statement followed by a newline, then finishing. *)
Lemma finish_lines (statements : list string) :
  finish (String.concat EmptyString
            (List.map (fun s => (s ++ nl)%string) statements))
  = bodyOf statements.
Proof.
  unfold finish, bodyOf. destruct statements as [|s0 rest]; [reflexivity|].
  assert (E : forall l s,
             String.concat EmptyString
               (List.map (fun s => (s ++ nl)%string) (s :: l))
             = (Join (s :: l) nl ++ nl)%string).
  { induction l as [|s1 l IH]; intros s.
    - reflexivity.
    - change (String.concat EmptyString
                (List.map (fun s => (s ++ nl)%string) (s :: s1 :: l)))
        with ((s ++ nl) ++ EmptyString ++
              String.concat EmptyString
                (List.map (fun s => (s ++ nl)%string) (s1 :: l)))%string.
      rewrite IH. cbn [Join append]. rewrite !app_assoc_s. reflexivity. }
  rewrite E.
  assert (N : String.eqb (Join (s0 :: rest) nl ++ nl) EmptyString = false).
  { destruct (Join (s0 :: rest) nl); reflexivity. }
  rewrite N, TrimSuffix_app. reflexivity.
Qed.

Lemma concat_app_s (l1 l2 : list string) :
  String.concat EmptyString (l1 ++ l2)
  = (String.concat EmptyString l1 ++ String.concat EmptyString l2)%string.
Proof.
  induction l1 as [|a l1 IH]; [reflexivity|].
  destruct l1 as [|b l1].
  - cbn [List.app]. destruct l2 as [|c l2].
    + cbn. rewrite IdentifierFacts.append_empty. reflexivity.
    + reflexivity.
  - change (String.concat EmptyString ((a :: b :: l1) ++ l2))
      with (a ++ EmptyString ++ String.concat EmptyString ((b :: l1) ++ l2))%string.
    rewrite IH.
    change (String.concat EmptyString (a :: b :: l1))
      with (a ++ EmptyString ++ String.concat EmptyString (b :: l1))%string.
    cbn [append]. rewrite app_assoc_s. reflexivity.
Qed.

Lemma eachField_lines gen m :
  eachField gen m
  = String.concat EmptyString
      (List.map (fun s => (s ++ nl)%string) (fieldStatements gen m)).
Proof.
  unfold eachField, fieldStatements. f_equal.
  induction m as [|e m IH]; simpl; [reflexivity|].
  rewrite map_app, IH, map_map. reflexivity.
Qed.

Lemma migrate_body_lines (c : MigrationChanges) :
  GenerateMigrationCodeFromChanges c = bodyOf (migrateStatements c).
Proof.
  unfold GenerateMigrationCodeFromChanges, migrateStatements.
  rewrite !eachField_lines, <- finish_lines. f_equal.
  rewrite !map_app, !concat_app_s, !map_map. reflexivity.
Qed.

Lemma rollback_body_lines (c : MigrationChanges) :
  GenerateRollbackCodeFromChanges c = bodyOf (rollbackStatements c).
Proof.
  unfold GenerateRollbackCodeFromChanges, rollbackStatements.
  rewrite !eachField_lines, <- finish_lines. f_equal.
  rewrite !map_app, !concat_app_s, !map_map. reflexivity.
Qed.

(** X16.  Both generated bodies are their statements, each on lines of its
    own and in a fixed order, followed by the final return: Migrate creates
    the new tables, adds the new columns, drops the deleted columns and drops
    the deleted tables; Rollback drops the new tables, drops the new columns,
    adds the deleted columns back, and for a deleted table writes only a
    comment. *)
Theorem generated_bodies (c : MigrationChanges) :
  GenerateMigrationCodeFromChanges c = bodyOf (migrateStatements c) /\
  GenerateRollbackCodeFromChanges c = bodyOf (rollbackStatements c).
Proof.
  split; [apply migrate_body_lines | apply rollback_body_lines].
Qed.

End GeneratorFacts.

(** ** One added field, from detection to generated code *)

Module AddedFieldFacts.

Import Cmd.

Lemma stored_lookup (fields : list FieldInfo) (g : FieldInfo) :
  NoDup (fieldNames fields) -> In g fields ->
  GoMap.get (storedFieldMapOf (List.map stateOfField fields)) (fi_Name g)
  = Some (stateOfField g).
Proof.
  intros D I. unfold storedFieldMapOf.
  change (fi_Name g) with (fs_Name (stateOfField g)).
  apply (MapFacts.get_fold_set_in fs_Name).
  - rewrite ChangeFacts.stateOfField_name. exact D.
  - apply in_map. exact I.
Qed.

Lemma same_field (g : FieldInfo) : fieldDiffers (stateOfField g) g = false.
Proof.
  unfold fieldDiffers, stateOfField. cbn [fs_Type fs_Tag].
  rewrite !String.eqb_refl. reflexivity.
Qed.

(** A model whose stored fields are its own is diffed to nothing. *)
Lemma checkModel_same_fields sm c m stored :
  distinctFields m ->
  GoMap.get sm (mi_Name m) = Some stored ->
  ms_Fields stored = List.map stateOfField (mi_Fields m) ->
  checkModel sm c m = c.
Proof.
  intros D G F. unfold checkModel. rewrite G. cbv zeta. rewrite F.
  rewrite (StateFacts.fold_left_fixed (checkCurrentField _ _)).
  - apply StateFacts.fold_left_fixed. intros sf I. unfold checkStoredField.
    rewrite ChangeFacts.has_currentFieldMapOf.
    apply in_map_iff in I. destruct I as [f [E I]]. subst sf.
    assert (M : GoMap.mem (fi_Name f) (fieldNames (mi_Fields m)) = true)
      by (apply MapFacts.mem_In; unfold fieldNames; apply in_map; exact I).
    cbn [stateOfField fs_Name]. rewrite M. reflexivity.
  - intros f I. unfold checkCurrentField.
    rewrite (stored_lookup _ _ D I), same_field. reflexivity.
Qed.

Lemma NoDup_remove_middle {A} (l1 l2 : list A) (x : A) :
  NoDup (l1 ++ x :: l2) -> NoDup (l1 ++ l2) /\ ~ In x (l1 ++ l2).
Proof.
  intros D. split; [eapply NoDup_remove_1 | eapply NoDup_remove_2]; exact D.
Qed.

(** A model with one field more than its stored state is diffed to that one
    new field. *)
Lemma checkModel_added_field sm c m stored pre f post :
  GoMap.get sm (mi_Name m) = Some stored ->
  mi_Fields m = pre ++ f :: post ->
  ms_Fields stored = List.map stateOfField (pre ++ post) ->
  NoDup (fieldNames (mi_Fields m)) ->
  checkModel sm c m = addNewField c (mi_Name m) f.
Proof.
  intros G FM FS D. unfold checkModel. rewrite G. cbv zeta. rewrite FS, FM.
  rewrite FM in D. unfold fieldNames in D. rewrite map_app in D.
  cbn [List.map] in D. destruct (NoDup_remove_middle _ _ _ D) as [D' N].
  rewrite <- map_app in D', N. fold (fieldNames (pre ++ post)) in D', N.
  assert (Old : forall g, In g (pre ++ post) ->
                  forall c0,
                    checkCurrentField
                      (storedFieldMapOf (List.map stateOfField (pre ++ post)))
                      (mi_Name m) c0 g = c0).
  { intros g I c0. unfold checkCurrentField.
    rewrite (stored_lookup _ _ D' I), same_field. reflexivity. }
  assert (New : forall c0,
             checkCurrentField
               (storedFieldMapOf (List.map stateOfField (pre ++ post)))
               (mi_Name m) c0 f = addNewField c0 (mi_Name m) f).
  { intros c0. unfold checkCurrentField.
    pose proof (ChangeFacts.has_storedFieldMapOf
                  (List.map stateOfField (pre ++ post)) (fi_Name f)) as H.
    rewrite ChangeFacts.stateOfField_name in H.
    rewrite ChangeFacts.not_mem in H by exact N. unfold GoMap.has in H.
    destruct (GoMap.get _ (fi_Name f)); [discriminate|reflexivity]. }
  rewrite fold_left_app. cbn [fold_left].
  rewrite (StateFacts.fold_left_fixed (checkCurrentField _ _) pre)
    by (intros g I; apply Old; apply in_or_app; left; exact I).
  rewrite New.
  rewrite (StateFacts.fold_left_fixed (checkCurrentField _ _) post)
    by (intros g I; apply Old; apply in_or_app; right; exact I).
  apply StateFacts.fold_left_fixed. intros sf I. unfold checkStoredField.
  rewrite ChangeFacts.has_currentFieldMapOf.
  apply in_map_iff in I. destruct I as [g [E I]]. subst sf.
  assert (M : GoMap.mem (fi_Name g) (fieldNames (pre ++ f :: post)) = true).
  { apply MapFacts.mem_In. unfold fieldNames. apply in_map.
    apply in_app_iff in I. apply in_or_app. simpl. tauto. }
  cbn [stateOfField fs_Name]. rewrite M. reflexivity.
Qed.

(** X17.  When one model gained exactly one field since the state was saved
    and nothing else changed, [DetectAllChanges] reports that one field as
    new and nothing else; the change set is not destructive, the Migrate
    body adds exactly that column and the Rollback body drops exactly that
    column. *)
Theorem added_field_adds_one_column (w : World) (appName : string)
        (state : MigrationState) (app : AppMigrationState)
        (stored : ModelState) (before after : list ModelInfo)
        (m : ModelInfo) (pre post : list FieldInfo) (f : FieldInfo) :
  LoadMigrationState w = inl state ->
  GoMap.get (Apps state) appName = Some app ->
  GoMap.get (Models app) (mi_Name m) = Some stored ->
  mi_Fields m = pre ++ f :: post ->
  ms_Fields stored = List.map stateOfField (pre ++ post) ->
  NoDup (fieldNames (mi_Fields m)) ->
  (forall other, In other (before ++ after) ->
     distinctFields other /\
     exists st, GoMap.get (Models app) (mi_Name other) = Some st /\
                ms_Fields st = List.map stateOfField (mi_Fields other)) ->
  (forall k, In k (List.map fst (Models app)) ->
             In k (List.map mi_Name (before ++ m :: after))) ->
  DetectAllChanges w appName (before ++ m :: after)
  = inl (mkMigrationChanges [] [] [(mi_Name m, [f])] [] []) /\
  HasDestructiveChanges (mkMigrationChanges [] [] [(mi_Name m, [f])] [] [])
  = false /\
  GenerateMigrationCodeFromChanges
    (mkMigrationChanges [] [] [(mi_Name m, [f])] [] [])
  = bodyOf [generateAddColumnCode (mi_Name m) f] /\
  GenerateRollbackCodeFromChanges
    (mkMigrationChanges [] [] [(mi_Name m, [f])] [] [])
  = bodyOf [generateDropColumnCode (mi_Name m) f].
Proof.
  intros L GA GM FM FS D Others Keys.
  split; [|split; [reflexivity|split;
    [apply GeneratorFacts.migrate_body_lines
    |apply GeneratorFacts.rollback_body_lines]]].
  unfold DetectAllChanges. rewrite L, GA. f_equal.
  assert (Same : forall other c0, In other (before ++ after) ->
                   checkModel (Models app) c0 other = c0).
  { intros other c0 I. destruct (Others other I) as [DO [st [GO FO]]].
    eapply checkModel_same_fields; eassumption. }
  rewrite fold_left_app. cbn [fold_left].
  rewrite (StateFacts.fold_left_fixed (checkModel _) before)
    by (intros o I; apply Same; apply in_or_app; left; exact I).
  rewrite (checkModel_added_field _ _ _ _ _ _ _ GM FM FS D).
  rewrite (StateFacts.fold_left_fixed (checkModel _) after)
    by (intros o I; apply Same; apply in_or_app; right; exact I).
  apply StateFacts.fold_left_fixed. intros [k st] I. unfold checkStoredModel.
  cbn [fst]. unfold currentModelMapOf. rewrite (MapFacts.has_fold_set mi_Name).
  assert (K : In k (List.map mi_Name (before ++ m :: after)))
    by (apply Keys; apply in_map_iff; exists (k, st); split;
        [reflexivity | exact I]).
  apply MapFacts.mem_In in K. rewrite K. reflexivity.
Qed.

Lemma added_field_adds_one_column_witness :
  DetectAllChanges Samples.viewsAdded "blog" ([] ++ Samples.postWithViews :: [])
  = inl (mkMigrationChanges [] []
           [("Post", [mkFieldInfo "Views" "int" EmptyString false])] [] []) /\
  HasDestructiveChanges
    (mkMigrationChanges [] []
       [("Post", [mkFieldInfo "Views" "int" EmptyString false])] [] [])
  = false /\
  GenerateMigrationCodeFromChanges
    (mkMigrationChanges [] []
       [("Post", [mkFieldInfo "Views" "int" EmptyString false])] [] [])
  = bodyOf [generateAddColumnCode "Post"
              (mkFieldInfo "Views" "int" EmptyString false)] /\
  GenerateRollbackCodeFromChanges
    (mkMigrationChanges [] []
       [("Post", [mkFieldInfo "Views" "int" EmptyString false])] [] [])
  = bodyOf [generateDropColumnCode "Post"
              (mkFieldInfo "Views" "int" EmptyString false)].
Proof.
  apply (added_field_adds_one_column Samples.viewsAdded "blog"
           Samples.storedState
           (mkAppMigrationState EmptyString "20240101000000"
              [("Post",
                mkModelState "Post" EmptyString
                  [mkFieldState "Title" "string" EmptyString;
                   mkFieldState "Body" "string" EmptyString])])
           (mkModelState "Post" EmptyString
              [mkFieldState "Title" "string" EmptyString;
               mkFieldState "Body" "string" EmptyString])
           [] [] Samples.postWithViews
           [mkFieldInfo "Title" "string" EmptyString false]
           [mkFieldInfo "Body" "string" EmptyString false]
           (mkFieldInfo "Views" "int" EmptyString false)).
  - reflexivity.
  - reflexivity.
  - reflexivity.
  - reflexivity.
  - reflexivity.
  - simpl. repeat constructor; simpl; intuition discriminate.
  - intros other [].
  - simpl. tauto.
Defined.

End AddedFieldFacts.

(** ** The two detectors of deleted fields *)

Module DeletedFieldFacts.

Import Cmd.

Lemma flag_fold fields : forall m0 k,
  flag (fold_left (fun m f => GoMap.set m (fi_Name f) true) fields m0) k
  = GoMap.mem k (fieldNames fields) || flag m0 k.
Proof.
  induction fields as [|f fields IH]; intros m0 k; simpl; [reflexivity|].
  rewrite IH. unfold flag. destruct (String.eqb_spec k (fi_Name f)) as [E|E].
  - subst k. rewrite MapFacts.get_set_same. simpl. apply orb_true_r.
  - rewrite MapFacts.get_set_other by congruence. reflexivity.
Qed.

Lemma flag_currentFieldsOf fields k :
  flag (currentFieldsOf fields) k = GoMap.mem k (fieldNames fields).
Proof. unfold currentFieldsOf. rewrite flag_fold. apply orb_false_r. Qed.

Lemma fold_stored_fields (p : FieldState -> bool) key fields : forall deleted n,
  GoMap.slice
    (fold_left (fun deleted storedField =>
                  if p storedField
                  then GoMap.append deleted key (fs_Name storedField)
                  else deleted) fields deleted) n
  = GoMap.slice deleted n ++
    (if String.eqb key n then List.map fs_Name (List.filter p fields) else []).
Proof.
  induction fields as [|f fields IH]; intros deleted n; simpl.
  - destruct (String.eqb key n); rewrite app_nil_r; reflexivity.
  - rewrite IH. destruct (p f); [|reflexivity].
    rewrite MapFacts.slice_append. destruct (String.eqb key n); simpl.
    + rewrite <- app_assoc. reflexivity.
    + rewrite !app_nil_r. reflexivity.
Qed.

Lemma fold_checkStoredEntry cmm entries : forall deleted n,
  GoMap.slice (fold_left (checkStoredEntry cmm) entries deleted) n
  = GoMap.slice deleted n ++ List.flat_map (deletedNamesOf cmm n) entries.
Proof.
  induction entries as [|e entries IH]; intros deleted n; simpl.
  - rewrite app_nil_r. reflexivity.
  - rewrite IH, app_assoc. f_equal.
    unfold checkStoredEntry, deletedNamesOf.
    destruct (GoMap.get cmm (fst e)) as [cm|].
    + cbv zeta. apply fold_stored_fields.
    + destruct (String.eqb (fst e) n); rewrite app_nil_r; reflexivity.
Qed.

Lemma no_entry cmm n (entries : GoMap.t ModelState) :
  ~ In n (List.map fst entries) ->
  List.flat_map (deletedNamesOf cmm n) entries = [].
Proof.
  induction entries as [|e entries IH]; intros N; simpl; [reflexivity|].
  simpl in N. rewrite IH by tauto. unfold deletedNamesOf.
  destruct (String.eqb_spec (fst e) n); [tauto|reflexivity].
Qed.

(** With distinct keys only the entry of [n] adds to [deletedFields[n]]. *)
Lemma one_entry cmm n (entries : GoMap.t ModelState) :
  NoDup (List.map fst entries) ->
  List.flat_map (deletedNamesOf cmm n) entries
  = match GoMap.get entries n with
    | Some stored => deletedNamesOf cmm n (n, stored)
    | None => []
    end.
Proof.
  induction entries as [|[k st] entries IH]; intros D; simpl; [reflexivity|].
  simpl in D. inversion D as [|? ? N D']; subst.
  destruct (String.eqb_spec k n) as [E|E].
  - subst k. rewrite no_entry by exact N. apply app_nil_r.
  - rewrite IH by exact D'. unfold deletedNamesOf at 1. cbn [fst].
    destruct (String.eqb_spec k n); [contradiction|reflexivity].
Qed.

(** With distinct model names only the model itself adds under its name. *)
Lemma one_model (diff : ModelState -> ModelInfo -> list FieldInfo) sm models m :
  NoDup (List.map mi_Name models) -> In m models ->
  List.flat_map (contribution diff sm (mi_Name m)) models
  = contribution diff sm (mi_Name m) m.
Proof.
  intros D I. destruct (in_split _ _ I) as [l1 [l2 E]]. subst models.
  rewrite map_app in D. cbn [List.map] in D.
  pose proof (NoDup_remove_2 _ _ _ D) as N. rewrite in_app_iff in N.
  rewrite flat_map_app. cbn [flat_map].
  rewrite !ChangeFacts.flat_map_other by tauto.
  rewrite app_nil_r. reflexivity.
Qed.

(** X18.  With distinct model names, [DetectDeletedFields] and
    [DetectAllChanges] report the same deleted fields: under every model
    name the former holds the names of the fields the latter holds, in the
    same order. *)
Theorem deleted_field_detectors_agree (w : World) (appName : string)
        (models : list ModelInfo) (state : MigrationState)
        (app : AppMigrationState) :
  LoadMigrationState w = inl state ->
  GoMap.get (Apps state) appName = Some app ->
  NoDup (List.map mi_Name models) ->
  NoDup (List.map fst (Models app)) ->
  exists changes,
    DetectAllChanges w appName models = inl changes /\
    forall n,
      GoMap.slice (DetectDeletedFields w appName models) n
      = fieldNames (GoMap.slice (DeletedFields changes) n).
Proof.
  intros L GA DM DK.
  destruct (ChangeFacts.DetectAllChanges_fields w appName models state app L GA)
    as [changes [E F]].
  exists changes. split; [exact E|]. intros n.
  destruct (F n) as [_ [_ FD]]. rewrite FD. clear F FD E.
  unfold DetectDeletedFields. rewrite L, GA.
  rewrite fold_checkStoredEntry. cbn [GoMap.slice GoMap.get List.app].
  rewrite one_entry by exact DK.
  destruct (in_dec string_dec n (List.map mi_Name models)) as [I|N].
  - apply in_map_iff in I. destruct I as [m [EN I]]. subst n.
    rewrite (one_model _ _ _ _ DM I). unfold contribution, deletedNamesOf.
    cbn [fst snd]. rewrite String.eqb_refl.
    unfold currentModelMapOf. rewrite (MapFacts.get_fold_set_in mi_Name) by assumption.
    destruct (GoMap.get (Models app) (mi_Name m)) as [stored|]; [|reflexivity].
    unfold deletedFieldsOf, fieldNames. rewrite map_map. cbn [infoOfState fi_Name].
    f_equal. apply filter_ext. intros sf.
    rewrite flag_currentFieldsOf, ChangeFacts.has_currentFieldMapOf.
    reflexivity.
  - rewrite ChangeFacts.flat_map_other by exact N.
    destruct (GoMap.get (Models app) n) as [stored|]; [|reflexivity].
    unfold deletedNamesOf. cbn [fst]. rewrite String.eqb_refl.
    unfold currentModelMapOf.
    rewrite (MapFacts.get_fold_set_notin mi_Name) by exact N. reflexivity.
Qed.

Lemma deleted_field_detectors_agree_witness :
  exists changes,
    DetectAllChanges Samples.bodyDropped "blog" [Samples.postWithoutBody]
    = inl changes /\
    forall n,
      GoMap.slice
        (DetectDeletedFields Samples.bodyDropped "blog" [Samples.postWithoutBody])
        n
      = fieldNames (GoMap.slice (DeletedFields changes) n).
Proof.
  apply (deleted_field_detectors_agree Samples.bodyDropped "blog"
           [Samples.postWithoutBody] Samples.storedState
           (mkAppMigrationState EmptyString "20240101000000"
              [("Post",
                mkModelState "Post" EmptyString
                  [mkFieldState "Title" "string" EmptyString;
                   mkFieldState "Body" "string" EmptyString])])).
  - reflexivity.
  - reflexivity.
  - simpl. repeat constructor; simpl; tauto.
  - simpl. repeat constructor; simpl; tauto.
Defined.

End DeletedFieldFacts.

(** ** The default application *)

Module DefaultAppFacts.

Import Cmd.

Lemma skip_files (files rest : list DirEntry) :
  Forall (fun entry => de_IsDir entry = false) files ->
  getDefaultApp (Some (files ++ rest)) = getDefaultApp (Some rest).
Proof.
  induction 1 as [|entry files H _ IH]; [reflexivity|].
  cbn [getDefaultApp List.app] in *. rewrite H. exact IH.
Qed.

(** X19.  [GenerateMigration] generates for the first directory of the
    listing of [apps]: the plain files listed before it are skipped, and
    whatever is listed after it plays no part. *)
Theorem default_app_is_first_directory (env : Env) (w : World) (name : string)
        (files : list DirEntry) (dir : DirEntry) (rest : list DirEntry) :
  Forall (fun entry => de_IsDir entry = false) files ->
  de_IsDir dir = true ->
  getDefaultApp (Some (files ++ dir :: rest)) = inl (de_Name dir) /\
  GenerateMigration env w (Some (files ++ dir :: rest)) name
  = GenerateMigrationForApp env w (de_Name dir) name.
Proof.
  intros F D.
  assert (E : getDefaultApp (Some (files ++ dir :: rest)) = inl (de_Name dir)).
  { rewrite skip_files by exact F. cbn [getDefaultApp]. rewrite D. reflexivity. }
  split; [exact E|]. unfold GenerateMigration. rewrite E. reflexivity.
Qed.

Lemma default_app_is_first_directory_witness :
  getDefaultApp
    (Some ([mkDirEntry "README.md" false]
           ++ mkDirEntry "blog" true :: [mkDirEntry "shop" true]))
  = inl "blog" /\
  GenerateMigration Samples.quietEnv Samples.firstRun
    (Some ([mkDirEntry "README.md" false]
           ++ mkDirEntry "blog" true :: [mkDirEntry "shop" true])) "init"
  = GenerateMigrationForApp Samples.quietEnv Samples.firstRun "blog" "init".
Proof.
  apply (default_app_is_first_directory Samples.quietEnv Samples.firstRun
           "init" [mkDirEntry "README.md" false] (mkDirEntry "blog" true)
           [mkDirEntry "shop" true]).
  - repeat constructor.
  - reflexivity.
Defined.

(** X20.  When [apps] holds no directory, [GenerateMigration] returns the
    error "no apps found in apps/ directory" and does nothing else: no file
    is read or written and nothing is printed. *)
Theorem no_directory_no_migration (env : Env) (w : World) (name : string)
        (entries : list DirEntry) :
  Forall (fun entry => de_IsDir entry = false) entries ->
  GenerateMigration env w (Some entries) name
  = (Some (errorString "no apps found in apps/ directory"), w).
Proof.
  intros F. unfold GenerateMigration.
  rewrite <- (app_nil_r entries), skip_files by exact F. reflexivity.
Qed.

Lemma no_directory_no_migration_witness :
  GenerateMigration Samples.quietEnv Samples.firstRun
    (Some [mkDirEntry "README.md" false; mkDirEntry ".gitkeep" false]) "init"
  = (Some (errorString "no apps found in apps/ directory"), Samples.firstRun).
Proof.
  apply (no_directory_no_migration Samples.quietEnv Samples.firstRun "init"
           [mkDirEntry "README.md" false; mkDirEntry ".gitkeep" false]).
  repeat constructor.
Defined.

End DefaultAppFacts.

(** ** Migrating every registered application *)

Module BatchFacts.

Import Migration.

Section AllApps.

Context {Schema : Type}.

Lemma RunRegistered_quiet (registry : Registry Schema) (w : World Schema)
      (app : string) :
  faults (db w) = [] ->
  (forall m, In m (GetMigrations registry app) -> quiet (Up m)) ->
  NoDup (List.map (fun m => (MApp m, MName m)) (GetMigrations registry app)) ->
  exists w',
    RunRegisteredMigrations registry w app
    = ((List.length (GoMap.slice registry app), None), w') /\
    faults (db w') = [].
Proof.
  intros F Q D. unfold RunRegisteredMigrations. cbv zeta.
  assert (Len : List.length (GetMigrations registry app)
                = List.length (GoMap.slice registry app))
    by (apply Permutation_length, SortFacts.sortSlice_permutation).
  destruct (GetMigrations registry app) as [|m ms] eqn:G.
  - exists w. cbn [List.length Nat.eqb]. rewrite <- Len. auto.
  - cbn [List.length Nat.eqb].
    destruct (RegistryFacts.runEach_quiet (m :: ms) w 0 F Q D)
      as [w' [E [F' _]]].
    exists w'. rewrite E, <- Len. auto.
Qed.

Lemma runApps_quiet (registry : Registry Schema) (apps : list string) :
  forall (w : World Schema) (totalCount : nat),
  faults (db w) = [] ->
  (forall app m, In app apps -> In m (GetMigrations registry app) ->
                 quiet (Up m)) ->
  (forall app, In app apps ->
     NoDup (List.map (fun m => (MApp m, MName m))
                     (GetMigrations registry app))) ->
  exists w',
    runApps registry w apps totalCount
    = ((totalCount
        + list_sum (List.map (fun app => List.length (GoMap.slice registry app))
                             apps), None), w') /\
    faults (db w') = [].
Proof.
  induction apps as [|app apps IH]; intros w totalCount F Q D.
  - exists w. cbn [runApps List.map list_sum fold_right].
    rewrite Nat.add_0_r. auto.
  - cbn [runApps]. cbv zeta.
    destruct (RunRegistered_quiet registry
                (printf w (nl ++ app ++ ":" ++ nl)%string) app)
      as [w2 [E F2]].
    + exact F.
    + intros m I. apply (Q app); [left; reflexivity | exact I].
    + apply D. left. reflexivity.
    + rewrite E.
      destruct (IH w2 (totalCount + List.length (GoMap.slice registry app)) F2)
        as [w' [E' F']].
      * intros a m I. apply Q. right. exact I.
      * intros a I. apply D. right. exact I.
      * exists w'. rewrite E'. cbn [List.map list_sum fold_right].
        split; [|exact F']. f_equal. f_equal. unfold list_sum. lia.
Qed.

(** X21.  When every statement succeeds, the forward callbacks succeed without
    touching the ledger, and no two migrations of an application share a
    name, [RunAllRegisteredMigrations] returns nil and the number of all
    registered migrations of all applications, whether or not they had been
    applied before. *)
Theorem all_apps_count_every_migration (registry : Registry Schema)
        (w : World Schema) :
  faults (db w) = [] ->
  (forall app m, In m (GetMigrations registry app) -> quiet (Up m)) ->
  (forall app, NoDup (List.map (fun m => (MApp m, MName m))
                               (GetMigrations registry app))) ->
  exists w',
    RunAllRegisteredMigrations registry w
    = ((list_sum (List.map (fun app => List.length (GoMap.slice registry app))
                           (GetAllApps registry)), None), w').
Proof.
  intros F Q D. unfold RunAllRegisteredMigrations.
  destruct (runApps_quiet registry (GetAllApps registry) w 0 F) as [w' [E _]].
  - intros app m _. apply Q.
  - intros app _. apply D.
  - exists w'. exact E.
Qed.

End AllApps.

Lemma all_apps_count_every_migration_witness :
  exists w',
    RunAllRegisteredMigrations Samples.blogRegistry Samples.appliedWorld
    = ((list_sum
          (List.map (fun app => List.length (GoMap.slice Samples.blogRegistry app))
                    (GetAllApps Samples.blogRegistry)), None), w').
Proof.
  apply (all_apps_count_every_migration Samples.blogRegistry
                                        Samples.appliedWorld).
  - reflexivity.
  - intros app m I d.
    apply (Permutation_in _ (SortFacts.sortSlice_permutation _ _)) in I.
    set (r := Samples.blogRegistry) in I. vm_compute in r. subst r.
    unfold GoMap.slice in I. cbn [GoMap.get] in I.
    destruct (String.eqb "blog" app);
      [destruct I as [I|[I|[]]]; subst m; repeat split | destruct I].
  - intros app. unfold GetMigrations.
    set (r := Samples.blogRegistry). vm_compute in r. subst r.
    unfold GoMap.slice. cbn [GoMap.get].
    destruct (String.eqb "blog" app); vm_compute;
      repeat constructor; simpl; intuition discriminate.
Defined.

End BatchFacts.
